(** * SLC payment bot: membership store, payment matching and expiry sweep

    A shallow embedding of [bot.py].  The program keeps one global
    dictionary [data] with three entries ([users], [wallet_map],
    [seen_tx]) and runs three loops over it: the ledger scanner
    ([handle_new_payment], [grant_access_to]), the Telegram command
    handler (the body of the [for upd in ...] loop of
    [poll_telegram_updates]) and the daily sweep (the body of the
    [while True] loop of [daily_expiry_check]).

    Conventions of the embedding:
    - the global [data] is threaded explicitly as a [store];
    - outgoing calls ([send_message], [kick_from_chat],
      [export_invite_link], [save_data]) are recorded in a trace of
      [event]s; what the network answers, and whether the data file can
      be written, is an input ([env]);
    - the clock is an input: each function takes what
      [datetime.utcnow()] reads when it runs;
    - a Python exception that escapes a function is a [Raise] result;
    - a character of a text is a code point below 256 (Latin-1, which
      holds the base58 wallet addresses and the Telegram handles):
      [str.lower], [str.isalnum], [str.split], [str.strip] and [int] are
      the Python methods on such text, and [json.dumps] writes the code
      points above 126 as escapes;
    - the log lines written with [print] are not part of the trace. *)

From Stdlib Require Import ZArith List String Ascii Bool Lia.
From Stdlib Require Import DecimalString.
From Stdlib Require Import Floats.
From stdpp Require Import gmap strings list fin_maps.

Local Open Scope string_scope.
Local Open Scope Z_scope.
Set Warnings "-inexact-float,-register-all".

(** ** Python strings *)

Module PyStr.

(** the upper-case letters below 256: A to Z, and U+00C0 to U+00DE but
    for the multiplication sign U+00D7 *)
Definition is_upper (c : ascii) : bool :=
  let n := nat_of_ascii c in
  (((65 <=? n)%nat && (n <=? 90)%nat)
   || ((192 <=? n)%nat && (n <=? 222)%nat && negb (n =? 215)%nat))%bool.

(** the lower-case letter of each is 32 further *)
Definition lower_char (c : ascii) : ascii :=
  if is_upper c then ascii_of_nat (nat_of_ascii c + 32) else c.

(** [s.lower()] *)
Fixpoint lower (s : string) : string :=
  match s with
  | EmptyString => EmptyString
  | String c r => String (lower_char c) (lower r)
  end.

(** [s.lstrip("@")] *)
Fixpoint lstrip_at (s : string) : string :=
  match s with
  | String "@"%char r => lstrip_at r
  | _ => s
  end.

(** [s.startswith(p)] *)
Fixpoint startswith (p s : string) : bool :=
  match p, s with
  | EmptyString, _ => true
  | String a p', String b s' => (Ascii.eqb a b && startswith p' s')%bool
  | String _ _, EmptyString => false
  end.

(** [p in s] for strings *)
Fixpoint contains (p s : string) : bool :=
  (startswith p s ||
   match s with
   | EmptyString => false
   | String _ s' => contains p s'
   end)%bool.

Definition is_digit (c : ascii) : bool :=
  let n := nat_of_ascii c in ((48 <=? n)%nat && (n <=? 57)%nat)%bool.

(** [c.isalpha()]: the letters below 256 are A to Z, a to z, the two
    ordinal indicators, the micro sign, and U+00C0 to U+00FF but for the
    multiplication and the division sign *)
Definition is_alpha (c : ascii) : bool :=
  let n := nat_of_ascii c in
  (((65 <=? n)%nat && (n <=? 90)%nat) || ((97 <=? n)%nat && (n <=? 122)%nat)
   || (n =? 170)%nat || (n =? 181)%nat || (n =? 186)%nat
   || ((192 <=? n)%nat && negb (n =? 215)%nat && negb (n =? 247)%nat))%bool.

(** [c.isnumeric()] beyond the digits: the superscripts 1, 2 and 3 and
    the three vulgar fractions *)
Definition is_numeric (c : ascii) : bool :=
  let n := nat_of_ascii c in
  ((n =? 178)%nat || (n =? 179)%nat || (n =? 185)%nat
   || ((188 <=? n)%nat && (n <=? 190)%nat))%bool.

Definition is_alnum (c : ascii) : bool := (is_digit c || is_alpha c || is_numeric c)%bool.

Fixpoint all_chars (p : ascii -> bool) (s : string) : bool :=
  match s with
  | EmptyString => true
  | String c r => (p c && all_chars p r)%bool
  end.

(** [s.isalnum()]: every character alphanumeric and at least one character *)
Definition isalnum (s : string) : bool :=
  match s with
  | EmptyString => false
  | _ => all_chars is_alnum s
  end.

(** the characters [str.split()] and [str.strip()] treat as white space:
    the ASCII ones, next line U+0085 and the no-break space U+00A0 *)
Definition is_space (c : ascii) : bool :=
  let n := nat_of_ascii c in
  (((9 <=? n)%nat && (n <=? 13)%nat) || ((28 <=? n)%nat && (n <=? 32)%nat)
   || (n =? 133)%nat || (n =? 160)%nat)%bool.

Fixpoint lstrip (s : string) : string :=
  match s with
  | String c r => if is_space c then lstrip r else s
  | EmptyString => EmptyString
  end.

Fixpoint rstrip (s : string) : string :=
  match s with
  | EmptyString => EmptyString
  | String c r =>
      match rstrip r with
      | EmptyString => if is_space c then EmptyString else String c EmptyString
      | r' => String c r'
      end
  end.

(** [s.strip()] *)
Definition strip (s : string) : string := rstrip (lstrip s).

(** [s.split()]: [cur] is the word being read, in reverse *)
Fixpoint split_go (cur : list ascii) (s : string) : list string :=
  let flush := match cur with
               | [] => []
               | _ => [string_of_list_ascii (List.rev cur)]
               end in
  match s with
  | EmptyString => flush
  | String c r =>
      if is_space c then flush ++ split_go [] r
      else split_go (c :: cur) r
  end.

Definition split (s : string) : list string := split_go [] s.

(** truth value of a string: [if s:] *)
Definition truthy (s : string) : bool :=
  match s with EmptyString => false | _ => true end.

(** [str(n)] for an integer *)
Definition of_Z (n : Z) : string := NilZero.string_of_int (Z.to_int n).

End PyStr.

(** ** Python numbers *)

Module PyNum.

(** [int(f)] for a float: truncation toward zero; [None] stands for the
    [OverflowError] (infinities) or [ValueError] (NaN) that [int] raises *)
Definition trunc (f : float) : option Z :=
  match Prim2SF f with
  | S754_zero _ => Some 0
  | S754_infinity _ => None
  | S754_nan => None
  | S754_finite s m e =>
      let a := if (0 <=? e) then Z.shiftl (Z.pos m) e else Z.shiftr (Z.pos m) (- e) in
      Some (if s then - a else a)
  end.

(** truth value of a float: [0.0] and [-0.0] are false, NaN is true *)
Definition truthy (f : float) : bool := negb (PrimFloat.eqb f 0%float).

(** the float literal [1_000_000_000] is promoted to *)
Definition giga : float := 1000000000%float.

Fixpoint digits_value (acc : Z) (s : string) : Z :=
  match s with
  | EmptyString => acc
  | String c r =>
      if PyStr.is_digit c
      then digits_value (10 * acc + (Z.of_nat (nat_of_ascii c) - 48)) r
      else digits_value acc r
  end.

(** digits with single underscores between them, as [int] accepts;
    [prev] tells whether the previous character was a digit *)
Fixpoint digits_ok (prev : bool) (s : string) : bool :=
  match s with
  | EmptyString => prev
  | String c r =>
      if PyStr.is_digit c then digits_ok true r
      else if Ascii.eqb c "_" then (prev && digits_ok false r)%bool
      else false
  end.

(** the white space [int] skips around a number: of the ASCII characters
    tab to carriage return and the space only, not the separators U+001C
    to U+001F that [str.strip] drops as well *)
Definition is_space (c : ascii) : bool :=
  let n := nat_of_ascii c in
  (((9 <=? n)%nat && (n <=? 13)%nat) || (n =? 32)%nat
   || (n =? 133)%nat || (n =? 160)%nat)%bool.

Fixpoint skip_left (s : string) : string :=
  match s with
  | String c r => if is_space c then skip_left r else s
  | EmptyString => EmptyString
  end.

Fixpoint skip_right (s : string) : string :=
  match s with
  | EmptyString => EmptyString
  | String c r =>
      match skip_right r with
      | EmptyString => if is_space c then EmptyString else String c EmptyString
      | r' => String c r'
      end
  end.

(** how many digits [s] holds *)
Fixpoint count_digits (s : string) : Z :=
  match s with
  | EmptyString => 0
  | String c r => (if PyStr.is_digit c then 1 else 0) + count_digits r
  end.

(** [int(s)] for a string: optional white space, optional sign, decimal
    digits; [None] stands for [ValueError].  [max_digits] is what
    [sys.get_int_max_str_digits()] reads, 4300 unless it was changed and
    0 where the interpreter has no limit: a number of more digits is
    refused as well. *)
Definition int_of_string (max_digits : Z) (s : string) : option Z :=
  let body := skip_right (skip_left s) in
  let '(neg, ds) :=
    match body with
    | String "-"%char r => (true, r)
    | String "+"%char r => (false, r)
    | _ => (false, body)
    end in
  if digits_ok false ds
  then if ((0 <? max_digits) && (max_digits <? count_digits ds))%bool then None
       else Some (if neg then - digits_value 0 ds else digits_value 0 ds)
  else None.

End PyNum.

(** [MIN_LAMPORTS = int(0.15 * 1_000_000_000)] *)
Definition MIN_LAMPORTS : Z :=
  Eval vm_compute in
    match PyNum.trunc (PrimFloat.mul 0.15%float PyNum.giga) with
    | Some z => z
    | None => 0
    end.

(** ** Exceptions and results *)

Inductive exn := AttributeError | TypeError | IndexError | KeyError | OSError.

Inductive result (A : Type) :=
| Ok (a : A)
| Raise (e : exn).
Arguments Ok {A} a.
Arguments Raise {A} e.

Definition bind {A B} (r : result A) (k : A -> result B) : result B :=
  match r with
  | Ok a => k a
  | Raise e => Raise e
  end.

Notation "'do' x <- r ; k" := (bind r (fun x => k))
  (at level 10, x name, r at level 100, k at level 200).

(** ** JSON values, as [requests]' [r.json()] returns them *)

Inductive json :=
| JNull
| JBool (b : bool)
| JNum (z : Z)
| JFloat (f : float)
| JStr (s : string)
| JArr (l : list json)
| JObj (kvs : list (string * json)).

Module Py.

(** truth value of a Python object *)
Definition truthy (j : json) : bool :=
  match j with
  | JNull => false
  | JBool b => b
  | JNum z => negb (z =? 0)
  | JFloat f => PyNum.truthy f
  | JStr s => PyStr.truthy s
  | JArr l => match l with [] => false | _ => true end
  | JObj kvs => match kvs with [] => false | _ => true end
  end.

(** [a or b] *)
Definition or (a b : json) : json := if truthy a then a else b.

Fixpoint assoc (k : string) (kvs : list (string * json)) : option json :=
  match kvs with
  | [] => None
  | (k', v) :: r => if String.eqb k k' then Some v else assoc k r
  end.

(** [j.get(k, dflt)]: only a dict has the method *)
Definition get_default (k : string) (dflt : json) (j : json) : result json :=
  match j with
  | JObj kvs => Ok (match assoc k kvs with Some v => v | None => dflt end)
  | _ => Raise AttributeError
  end.

(** [j.get(k)] *)
Definition get (k : string) (j : json) : result json := get_default k JNull j.

Fixpoint chars (s : string) : list json :=
  match s with
  | EmptyString => []
  | String c r => JStr (String c EmptyString) :: chars r
  end.

(** the items a [for] loop over [j] visits *)
Definition iter (j : json) : result (list json) :=
  match j with
  | JArr l => Ok l
  | JObj kvs => Ok (map (fun kv => JStr (fst kv)) kvs)
  | JStr s => Ok (chars s)
  | _ => Raise TypeError
  end.

(** [j[0]] *)
Definition first (j : json) : result json :=
  match j with
  | JArr (x :: _) => Ok x
  | JArr [] => Raise IndexError
  | JStr (String c _) => Ok (JStr (String c EmptyString))
  | JStr EmptyString => Raise IndexError
  | JObj _ => Raise KeyError
  | _ => Raise TypeError
  end.

(** [j.lower()]: only a string has the method *)
Definition lower (j : json) : result string :=
  match j with
  | JStr s => Ok (PyStr.lower s)
  | _ => Raise AttributeError
  end.

End Py.

(** ** What the Python runtime and its libraries provide

    [datetime] values are counted in microseconds since
    [datetime.min] (0001-01-01T00:00:00); the program only builds naive
    ones.  [fromisoformat] and [float_of_str] answer [None] where the
    Python function raises [ValueError]. *)

Class PyRuntime := {
  (** [dt.isoformat()] *)
  isoformat : Z -> string;
  (** [datetime.fromisoformat(s)] *)
  fromisoformat : string -> option Z;
  (** [float(s)] for a string *)
  float_of_str : string -> option float;
  (** [repr(f)] of a finite float, as [json.dumps] writes it *)
  float_repr : float -> string;
  (** [sys.get_int_max_str_digits()], 0 where there is no limit *)
  int_max_str_digits : Z
}.

Definition MICROS_PER_DAY : Z := 86400 * 1000000.

(** [timedelta(days=30)] *)
Definition TTL : Z := 30 * MICROS_PER_DAY.

(** [datetime.max], 9999-12-31T23:59:59.999999 *)
Definition DATETIME_MAX : Z := 3652059 * MICROS_PER_DAY - 1.

(** [dt + delta]; [None] stands for the [OverflowError] raised outside
    [[datetime.min, datetime.max]] *)
Definition datetime_add (t d : Z) : option Z :=
  let r := t + d in
  if ((0 <=? r) && (r <=? DATETIME_MAX))%bool then Some r else None.

(** ** Configuration *)

Definition WALLET : string := "GFxQeqQBhgu4yLYLf7BFUBkRkhbfTnkAfwsrN9TEaTZv".

Definition WHITELIST : list string :=
  ["leopex1"; "Degenetive"; "SLCScannerBot"; "Steez431"; "cripplingdegen"; "ARC"; "MoneyMalicia"].

(** [WL_SET = set(u.lower().lstrip("@") for u in WHITELIST)] *)
Definition WL_SET : gset string :=
  list_to_set (map (fun u => PyStr.lstrip_at (PyStr.lower u)) WHITELIST).

Definition norm_username (u : string) : string :=
  if PyStr.truthy u then PyStr.lstrip_at (PyStr.lower u) else EmptyString.

Definition is_whitelisted (username : string) : bool :=
  bool_decide (norm_username username ∈ WL_SET).

(** ** The persistent store *)

(** One entry of [data["users"]].  [None] is an absent key; for [user_id]
    it also covers a stored [None], which [u.get("user_id")] does not
    tell apart. *)
Record user := {
  join : option string;
  last_paid : option string;
  wallet : option string;
  user_id : option Z
}.

(** [{}] *)
Definition empty_user : user :=
  {| join := None; last_paid := None; wallet := None; user_id := None |}.

(** truth value of a record: a dict is false when it has no key *)
Definition user_truthy (u : user) : bool :=
  match join u, last_paid u, wallet u, user_id u with
  | None, None, None, None => false
  | _, _, _, _ => true
  end.

Record store := {
  users : gmap string user;
  wallet_map : gmap string string;
  seen_tx : list string
}.

(** [{"users": {}, "wallet_map": {}, "seen_tx": []}] *)
Definition empty_store : store :=
  {| users := ∅; wallet_map := ∅; seen_tx := [] |}.

Definition set_users (f : gmap string user -> gmap string user) (s : store) : store :=
  {| users := f (users s); wallet_map := wallet_map s; seen_tx := seen_tx s |}.

Definition set_wallet_map (f : gmap string string -> gmap string string) (s : store) : store :=
  {| users := users s; wallet_map := f (wallet_map s); seen_tx := seen_tx s |}.

Definition set_seen_tx (f : list string -> list string) (s : store) : store :=
  {| users := users s; wallet_map := wallet_map s; seen_tx := f (seen_tx s) |}.

(** [data.setdefault("users", {}).setdefault(uname, {})] *)
Definition user_of (s : store) (uname : string) : user :=
  match users s !! uname with
  | Some u => u
  | None => empty_user
  end.

(** ** The outside world *)

(** whom [send_message] addresses: a numeric id, a handle, or [None] *)
Inductive chat :=
| ChatId (n : Z)
| ChatName (s : string)
| ChatNone.

(** Calls that leave the process; [ok] tells whether the HTTP request went
    through (the callers swallow the exception when it did not). *)
Inductive event :=
| SendMessage (to : chat) (text : string) (ok : bool)
| KickChatMember (uid : Z) (ok : bool)
| ExportChatInviteLink
| SaveData (d : store) (ok : bool).

(** What the network answers. *)
Record env := {
  (** [get_tx_detail(sig)]: the parsed body, [{}] on any failure *)
  net_detail : string -> json;
  (** [export_invite_link(SLC_CHAT_ID)]: the link, [None] on any failure *)
  net_invite : option string;
  (** whether [requests.post(".../sendMessage")] returns *)
  net_send : chat -> string -> bool;
  (** whether [requests.post(".../kickChatMember")] returns *)
  net_kick : Z -> bool;
  (** whether [json.dump(d, open(DATA_FILE, "w"), indent=2)] returns *)
  disk_ok : store -> bool
}.

Definition send_message (e : env) (to : chat) (text : string) : list event :=
  [SendMessage to text (net_send e to text)].

Definition kick_from_chat (e : env) (uid : Z) : list event :=
  [KickChatMember uid (net_kick e uid)].

(** [save_data(d)]: nothing catches the exception of a failed write *)
Definition save_data (e : env) (d : store) : list event * result unit :=
  ([SaveData d (disk_ok e d)], if disk_ok e d then Ok tt else Raise OSError).

(** ** The ledger scanner *)

Section Scanner.

Context {rt : PyRuntime}.

Definition hex_digit (n : nat) : ascii :=
  ascii_of_nat (if (n <? 10)%nat then 48 + n else 87 + n).

(** one character of a string under [json.dumps] ([ensure_ascii=True]) *)
Definition escape_char (c : ascii) : string :=
  let n := nat_of_ascii c in
  if (n =? 34)%nat then "\" ++ String c EmptyString
  else if (n =? 92)%nat then "\\"
  else if (n =? 10)%nat then "\n"
  else if (n =? 13)%nat then "\r"
  else if (n =? 9)%nat then "\t"
  else if (n =? 8)%nat then "\b"
  else if (n =? 12)%nat then "\f"
  else if ((32 <=? n)%nat && (n <=? 126)%nat)%bool then String c EmptyString
  else "\u00" ++ String (hex_digit (n / 16)) (String (hex_digit (n mod 16)) EmptyString).

Fixpoint escape (s : string) : string :=
  match s with
  | EmptyString => EmptyString
  | String c r => escape_char c ++ escape r
  end.

Definition dumps_string (s : string) : string :=
  String (ascii_of_nat 34) (escape s ++ String (ascii_of_nat 34) EmptyString).

Definition dumps_float (f : float) : string :=
  match Prim2SF f with
  | S754_nan => "NaN"
  | S754_infinity true => "-Infinity"
  | S754_infinity false => "Infinity"
  | _ => float_repr f
  end.

(** [json.dumps(j)] with the default separators *)
Fixpoint dumps (j : json) : string :=
  match j with
  | JNull => "null"
  | JBool true => "true"
  | JBool false => "false"
  | JNum z => PyStr.of_Z z
  | JFloat f => dumps_float f
  | JStr s => dumps_string s
  | JArr l =>
      "[" ++ (fix items (l : list json) : string :=
                match l with
                | [] => EmptyString
                | x :: r =>
                    match r with
                    | [] => dumps x
                    | _ => dumps x ++ ", " ++ items r
                    end
                end) l ++ "]"
  | JObj kvs =>
      "{" ++ (fix members (kvs : list (string * json)) : string :=
                match kvs with
                | [] => EmptyString
                | (k, v) :: r =>
                    match r with
                    | [] => dumps_string k ++ ": " ++ dumps v
                    | _ => dumps_string k ++ ": " ++ dumps v ++ ", " ++ members r
                    end
                end) kvs ++ "}"
  end.

(** [float(z)] for an integer, rounded to nearest even; an integer too
    large for a float gives the infinity that [trunc] then refuses, as
    Python raises [OverflowError] there *)
Definition float_of_Z (z : Z) : float :=
  SF2Prim (binary_normalize prec emax z 0 false).

(** [int(amt)]; [None] when it raises *)
Definition int_of (amt : json) : option Z :=
  match amt with
  | JBool b => Some (if b then 1 else 0)
  | JNum z => Some z
  | JFloat f => PyNum.trunc f
  | JStr s => PyNum.int_of_string int_max_str_digits s
  | JNull | JArr _ | JObj _ => None
  end.

(** [float(amt)]; [None] when it raises *)
Definition float_of (amt : json) : option float :=
  match amt with
  | JBool b => Some (if b then 1%float else 0%float)
  | JNum z => Some (float_of_Z z)
  | JFloat f => Some f
  | JStr s => float_of_str s
  | JNull | JArr _ | JObj _ => None
  end.

(** what the two nested [try] blocks add to [lamports] *)
Definition amount_of (amt : json) : Z :=
  match int_of amt with
  | Some z => z
  | None =>
      match float_of amt with
      | Some f =>
          match PyNum.trunc (PrimFloat.mul f PyNum.giga) with
          | Some z => z
          | None => 0
          end
      | None => 0
      end
  end.

(** [item.get(k1) or item.get(k2) or item.get(k3)] *)
Definition get3 (k1 k2 k3 : string) (item : json) : result json :=
  do a <- Py.get k1 item;
  if Py.truthy a then Ok a else
  do b <- Py.get k2 item;
  if Py.truthy b then Ok b else
  Py.get k3 item.

(** the body of the inner [for item in ...] loop: what [item] adds *)
Definition item_lamports (item : json) : result Z :=
  do to <- get3 "to" "destination" "tokenAddress" item;
  do amt <- get3 "amount" "lamports" "value" item;
  if Py.truthy to then
    do l <- Py.lower to;
    if (String.eqb l (PyStr.lower WALLET) && Py.truthy amt)%bool
    then Ok (amount_of amt)
    else Ok 0
  else Ok 0.

Fixpoint sum_items (lamports : Z) (items : list json) : result Z :=
  match items with
  | [] => Ok lamports
  | item :: r =>
      do d <- item_lamports item;
      sum_items (lamports + d) r
  end.

Definition TRANSFER_KEYS : list string :=
  ["nativeTransfers"; "solTransfers"; "transfers"; "tokenTransfers"; "sol_transfer"].

Fixpoint sum_keys (lamports : Z) (keys : list string) (detail : json) : result Z :=
  match keys with
  | [] => Ok lamports
  | k :: r =>
      do v <- Py.get k detail;
      do items <- Py.iter (Py.or v (JArr []));
      do lamports' <- sum_items lamports items;
      sum_keys lamports' r detail
  end.

(** the two [for] loops of [handle_new_payment] *)
Definition sum_lamports (detail : json) : result Z :=
  sum_keys 0 TRANSFER_KEYS detail.

(** ["SLC30" in json.dumps(detail)] *)
Definition memo_found (detail : json) : bool :=
  PyStr.contains "SLC30" (dumps detail).

(** [detail.get("feePayer") or detail.get("signer") or
     (detail.get("transaction",{}) or {}).get("message",{}).get("accountKeys",[None])[0]] *)
Definition signer_of (detail : json) : result json :=
  do a <- Py.get "feePayer" detail;
  if Py.truthy a then Ok a else
  do b <- Py.get "signer" detail;
  if Py.truthy b then Ok b else
  do t <- Py.get_default "transaction" (JObj []) detail;
  do m <- Py.get_default "message" (JObj []) (Py.or t (JObj []));
  do ks <- Py.get_default "accountKeys" (JArr [JNull]) m;
  Py.first ks.

Definition WELCOME : string :=
  "Welcome to the SLC Trench Scanner. This channel provides raw contract addresses scans from inside the SLC ecosystem in real-time. "
  ++ "There is no delay, every CA inside the SLC will be immediately sent into here. You are only seeing the data, no theories, no due diligence, no inside info. "
  ++ "There will be duplicates, there will be times of noise and times of silence. The alpha is there, the runner is there, it is up to you to find it. "
  ++ "For full Discord access, inquire via DM at 431steez. Join the SLC, access the edge.".

(** the key [grant_access_to] files the payment under *)
Definition grant_key (username : string) : string :=
  if PyStr.startswith "@" username then username
  else if PyStr.isalnum username then "@" ++ username
  else username.

(** [target = uid if uid else uname] *)
Definition grant_target (u : user) (uname : string) : chat :=
  match user_id u with
  | Some n => if n =? 0 then ChatName uname else ChatId n
  | None => ChatName uname
  end.

(** [grant_access_to(username, wallet_addr, signature)] at time [now] *)
Definition grant_access_to (e : env) (now : Z) (s : store)
    (username wallet_addr signature : string) : store * list event * result unit :=
  let uname := grant_key username in
  let u := user_of s uname in
  let now := isoformat now in
  let u' := {| join := match join u with Some j => Some j | None => Some now end;
               last_paid := Some now;
               wallet := Some wallet_addr;
               user_id := user_id u |} in
  let s' := set_users (insert uname u') s in
  let invite := net_invite e in
  let target := grant_target u' uname in
  let invite_msg :=
    match invite with
    | Some link =>
        if PyStr.truthy link
        then send_message e target ("Join the private SLC Trench Scanner here: " ++ link)
        else []
    | None => []
    end in
  let saved := save_data e s' in
  (s', ([ExportChatInviteLink] ++ send_message e target WELCOME ++ invite_msg ++ saved.1)%list,
   saved.2).

(** a transaction summary, as [get_last_txs_for] lists it *)
Record tx_summary := {
  txHash : option string;
  signature : option string
}.

(** [tx.get("txHash") or tx.get("signature")], [None] when it is false *)
Definition tx_sig (tx : tx_summary) : option string :=
  match txHash tx with
  | Some h => if PyStr.truthy h then Some h
              else match signature tx with
                   | Some g => if PyStr.truthy g then Some g else None
                   | None => None
                   end
  | None => match signature tx with
            | Some g => if PyStr.truthy g then Some g else None
            | None => None
            end
  end.

(** the [try] block of [handle_new_payment] *)
Definition try_payment (e : env) (now : Z) (s : store) (sig : string) (detail : json)
    : store * list event * result unit :=
  match sum_lamports detail with
  | Raise x => (s, [], Raise x)
  | Ok lamports =>
      if ((MIN_LAMPORTS <=? lamports) && memo_found detail)%bool then
        match signer_of detail with
        | Raise x => (s, [], Raise x)
        | Ok signer =>
            if Py.truthy signer then
              (* [username = data.get("wallet_map", {}).get(signer)] *)
              match signer with
              | JStr w =>
                  match wallet_map s !! w with
                  | Some username =>
                      if PyStr.truthy username
                      then grant_access_to e now s username w sig
                      else (s, [], Ok tt)
                  | None => (s, [], Ok tt)
                  end
              | JArr _ | JObj _ => (s, [], Raise TypeError) (* unhashable *)
              | _ => (s, [], Ok tt) (* no number equals a string key *)
              end
            else (s, [], Ok tt)
        end
      else (s, [], Ok tt)
  end.

(** [handle_new_payment(tx)] at time [now]: the store after the call,
    the calls made, and whether an exception escapes *)
Definition handle_new_payment (e : env) (now : Z) (s : store) (tx : tx_summary)
    : store * list event * result unit :=
  match tx_sig tx with
  | None => (s, [], Ok tt)
  | Some sig =>
      if bool_decide (sig ∈ seen_tx s) then (s, [], Ok tt)
      else
        let detail := net_detail e sig in
        let s1 := set_seen_tx (fun l => (l ++ [sig])%list) s in
        let '(s2, tr, r) := try_payment e now s1 sig detail in
        (* [finally]: an exception of the save replaces the pending one *)
        let saved := save_data e s2 in
        (s2, (tr ++ saved.1)%list, match saved.2 with Raise x => Raise x | Ok _ => r end)
  end.

End Scanner.

(** ** The command handler *)

Section Commands.

Context {rt : PyRuntime}.

(** [msg["from"]]: the optional display handle and the numeric id *)
Record sender := {
  from_username : option string;
  from_id : option Z
}.

Record message := {
  text : string;
  from : sender
}.

(** [str(x)] of an optional value *)
Definition str_opt {A} (f : A -> string) (o : option A) : string :=
  match o with
  | Some a => f a
  | None => "None"
  end.

(** [("@" + frm.get("username")) if frm.get("username") else str(frm.get("id"))] *)
Definition sender_uname (frm : sender) : string :=
  match from_username frm with
  | Some n => if PyStr.truthy n then "@" ++ n else str_opt PyStr.of_Z (from_id frm)
  | None => str_opt PyStr.of_Z (from_id frm)
  end.

Definition chat_of (uid : option Z) : chat :=
  match uid with
  | Some n => ChatId n
  | None => ChatNone
  end.

Definition NL : string := String (ascii_of_nat 10) EmptyString.

Definition thanks_msg (uname w : string) : string :=
  "Thanks " ++ uname ++ ". I mapped wallet `" ++ w
  ++ "` to your Telegram account. Now send payment of >=0.15 SOL with memo `SLC30` to "
  ++ WALLET ++ ".".

Definition USAGE_MSG : string :=
  "Send `/start <your_solana_wallet_address>` so I can match your payment. Example: `/start DqTx...`".

Definition NO_RECORD_MSG : string :=
  "No join record found. Use `/start <wallet>` first before paying.".

(** [u.setdefault("join", now); u["user_id"] = uid] and, with a wallet,
    [u["wallet"] = w] *)
Definition touch_user (u : user) (now : string) (uid : option Z) (w : option string) : user :=
  {| join := match join u with Some j => Some j | None => Some now end;
     last_paid := last_paid u;
     wallet := match w with Some a => Some a | None => wallet u end;
     user_id := uid |}.

(** the [/start] branch *)
Definition handle_start (e : env) (now : Z) (s : store) (txt uname : string) (uid : option Z)
    : store * list event * result unit :=
  match PyStr.split txt with
  | _ :: p1 :: _ =>
      let w := PyStr.strip p1 in
      let s1 := set_wallet_map (insert w uname) s in
      let u := touch_user (user_of s1 uname) (isoformat now) uid (Some w) in
      let s2 := set_users (insert uname u) s1 in
      let saved := save_data e s2 in
      match saved.2 with
      | Ok _ => (s2, (saved.1 ++ send_message e (chat_of uid) (thanks_msg uname w))%list, Ok tt)
      | Raise x => (s2, saved.1, Raise x)
      end
  | _ =>
      let u := touch_user (user_of s uname) (isoformat now) uid None in
      let s1 := set_users (insert uname u) s in
      let saved := save_data e s1 in
      match saved.2 with
      | Ok _ => (s1, (saved.1 ++ send_message e (chat_of uid) USAGE_MSG)%list, Ok tt)
      | Raise x => (s1, saved.1, Raise x)
      end
  end.

(** the expiry [/myjoin] reports *)
Definition expire_of (last : option string) : string :=
  match last with
  | Some l =>
      if PyStr.truthy l then
        match fromisoformat l with
        | Some t =>
            match datetime_add t TTL with
            | Some t' => isoformat t'
            | None => "N/A"
            end
        | None => "N/A"
        end
      else "N/A"
  | None => "N/A"
  end.

Definition status_msg (info : user) : string :=
  "Joined: " ++ str_opt (fun x => x) (join info) ++ NL
  ++ "Last paid: " ++ str_opt (fun x => x) (last_paid info) ++ NL
  ++ "Expires: " ++ expire_of (last_paid info).

(** the [/myjoin] branch *)
Definition handle_myjoin (e : env) (s : store) (uname : string) (uid : option Z)
    : store * list event * result unit :=
  match users s !! uname with
  | Some info =>
      if user_truthy info
      then (s, send_message e (chat_of uid) (status_msg info), Ok tt)
      else (s, send_message e (chat_of uid) NO_RECORD_MSG, Ok tt)
  | None => (s, send_message e (chat_of uid) NO_RECORD_MSG, Ok tt)
  end.

(** the body of [for upd in r.get("result", [])] for one message,
    received at time [now]: the store after it, the calls made, and
    whether an exception escapes to the [except] of the loop *)
Definition handle_message (e : env) (now : Z) (s : store) (msg : message)
    : store * list event * result unit :=
  let txt := PyStr.strip (text msg) in
  let frm := from msg in
  let uname := sender_uname frm in
  let uid := from_id frm in
  if PyStr.startswith "/start" (PyStr.lower txt) then handle_start e now s txt uname uid
  else if PyStr.startswith "/myjoin" (PyStr.lower txt) then handle_myjoin e s uname uid
  else (s, [], Ok tt).

End Commands.

(** ** The expiry sweep *)

Section Sweep.

Context {rt : PyRuntime}.

(** [info.get("last_paid") or info.get("join")], [None] when it is false *)
Definition last_active (info : user) : option string :=
  match last_paid info with
  | Some l => if PyStr.truthy l then Some l
              else match join info with
                   | Some j => if PyStr.truthy j then Some j else None
                   | None => None
                   end
  | None => match join info with
            | Some j => if PyStr.truthy j then Some j else None
            | None => None
            end
  end.

(** whether the sweep, reading the clock at [now], revokes [uname] *)
Definition expired (now : Z) (uname : string) (info : user) : bool :=
  if is_whitelisted uname then false
  else match last_active info with
       | Some last =>
           match fromisoformat last with
           | Some last_dt => TTL <? now - last_dt
           | None => false
           end
       | None => false
       end.

(** the state the loop carries: the store, the calls made so far, and
    the flag [changed] *)
Definition sweep_state : Type := store * list event * bool.

(** one turn of [for uname, info in list(data.get("users", {}).items())];
    [clock uname] is what [datetime.utcnow()] reads in that turn *)
Definition sweep_user (e : env) (clock : string -> Z) (st : sweep_state)
    (entry : string * user) : sweep_state :=
  let '(s, tr, changed) := st in
  let '(uname, info) := entry in
  if expired (clock uname) uname info then
    let notify :=
      match user_id info with
      | Some n =>
          if n =? 0 then []
          else (kick_from_chat e n ++
                send_message e (ChatId n)
                  "Your 30-day access expired and you have been removed from the SLC Trench Scanner. Re-pay to regain access.")%list
      | None => []
      end in
    let s1 := set_users (delete uname) s in
    let s2 := set_wallet_map (filter (fun wa => wa.2 <> uname)) s1 in
    (s2, (tr ++ notify)%list, true)
  else st.

(** one pass of [daily_expiry_check], after the sleep.  The records are
    visited in the order of [map_to_list], where the program visits them
    in the order in which the dictionary received them: the store and
    the result are the same in any order, the calls for different
    records come in another order in the trace. *)
Definition daily_expiry_check (e : env) (clock : string -> Z) (s : store)
    : store * list event * result unit :=
  let '(s', tr, changed) :=
    foldl (sweep_user e clock) (s, [], false) (map_to_list (users s)) in
  if changed then
    let saved := save_data e s' in
    (s', (tr ++ saved.1)%list, saved.2)
  else (s', tr, Ok tt).

End Sweep.

(** ** The loops around the handlers *)

Section Loops.

Context {rt : PyRuntime}.

(** What [requests.get] gives [get_tx_detail]: no reply at all (the call
    raised: time-out, connection error), or a status code and a body;
    the body is [None] when [r.json()] raises on it. *)
Inductive http_reply :=
| NoReply
| Reply (status : Z) (body : option json).

(** [get_tx_detail(signature)]: [r.json() if r.status_code == 200 else {}],
    and [{}] when anything raised *)
Definition get_tx_detail (r : http_reply) : json :=
  match r with
  | Reply status (Some j) => if status =? 200 then j else JObj []
  | Reply _ None => JObj []
  | NoReply => JObj []
  end.

(** The [for tx in txs or []] loop of [solscan_loop], on the summaries
    of one listing: the [except] around it ends the pass at the first
    exception, which is then only printed.  [clock tx] is the time at
    which [tx] is handled. *)
Fixpoint solscan_pass (e : env) (clock : tx_summary -> Z) (s : store)
    (txs : list tx_summary) : store * list event * result unit :=
  match txs with
  | [] => (s, [], Ok tt)
  | tx :: rest =>
      let '(s1, tr1, r1) := handle_new_payment e (clock tx) s tx in
      match r1 with
      | Raise x => (s1, tr1, Raise x)
      | Ok _ =>
          let '(s2, tr2, r2) := solscan_pass e clock s1 rest in
          (s2, (tr1 ++ tr2)%list, r2)
      end
  end.

(** one entry of the [result] list of [getUpdates]; a message is [None]
    when the key is absent or holds an empty value *)
Record update := {
  update_id : Z;
  upd_message : option message;
  upd_edited_message : option message
}.

(** [upd.get("message") or upd.get("edited_message") or {}], [None] when
    it is false *)
Definition update_msg (u : update) : option message :=
  match upd_message u with
  | Some m => Some m
  | None => upd_edited_message u
  end.

(** The [for upd in r.get("result", [])] loop of
    [poll_telegram_updates]: the cursor after it, the store, the calls
    made, and the exception that ended it, if one did.  [clock i] is the
    time at which the update numbered [i] is handled. *)
Fixpoint poll_updates (e : env) (clock : Z -> Z) (offset : option Z) (s : store)
    (upds : list update) : option Z * store * list event * result unit :=
  match upds with
  | [] => (offset, s, [], Ok tt)
  | upd :: rest =>
      let offset' := Some (update_id upd + 1) in
      match update_msg upd with
      | None => poll_updates e clock offset' s rest
      | Some msg =>
          let '(s1, tr1, r1) := handle_message e (clock (update_id upd)) s msg in
          match r1 with
          | Raise x => (offset', s1, tr1, Raise x)
          | Ok _ =>
              let '(o2, s2, tr2, r2) := poll_updates e clock offset' s1 rest in
              (o2, s2, (tr1 ++ tr2)%list, r2)
          end
      end
  end.

Definition MICROS_PER_SECOND : Z := 1000000.

(** [next_mid = (now + timedelta(days=1)).replace(hour=0, minute=0,
    second=10, microsecond=0)]; [None] stands for the [OverflowError] of
    the addition *)
Definition next_mid (now : Z) : option Z :=
  match datetime_add now MICROS_PER_DAY with
  | Some t => Some (t / MICROS_PER_DAY * MICROS_PER_DAY + 10 * MICROS_PER_SECOND)
  | None => None
  end.

(** [next_mid - now], what [daily_expiry_check] sleeps before a sweep *)
Definition sweep_delay (now : Z) : option Z :=
  match next_mid now with
  | Some m => Some (m - now)
  | None => None
  end.

(** One operation of one of the three loops, with the network and the
    clock it meets. *)
Inductive action :=
| OnMessage (e : env) (now : Z) (msg : message)
| OnPayment (e : env) (now : Z) (tx : tx_summary)
| OnSweep (e : env) (clock : string -> Z).

(** the store an operation leaves *)
Definition perform (s : store) (a : action) : store :=
  match a with
  | OnMessage e now msg => (handle_message e now s msg).1.1
  | OnPayment e now tx => (handle_new_payment e now s tx).1.1
  | OnSweep e clock => (daily_expiry_check e clock s).1.1
  end.

(** the store after a sequence of operations, one after the other *)
Definition perform_all (s : store) (l : list action) : store := foldl perform s l.

End Loops.

(** ** The vocabulary of the properties *)

(** a grant was issued: the welcome message was sent to someone *)
Definition granted (tr : list event) : Prop :=
  exists to ok, SendMessage to WELCOME ok ∈ tr.

(** the wallet map as [/start] fills it: no empty address, no empty name *)
Definition wf_wallets (s : store) : Prop :=
  forall w a, wallet_map s !! w = Some a -> w <> EmptyString /\ a <> EmptyString.

#[global] Instance wf_wallets_dec (s : store) : Decision (wf_wallets s).
Proof.
  unfold wf_wallets.
  apply (map_Forall_dec (fun (w a : string) => w <> EmptyString /\ a <> EmptyString)).
Defined.

(** a character [str.split()] keeps in a word *)
Definition not_space (c : ascii) : bool := negb (PyStr.is_space c).

(** the records as the program writes them: each has its join time *)
Definition wf_users (s : store) : Prop :=
  forall k u, users s !! k = Some u -> is_Some (join u).

(** the stores the three loops build *)
Definition wf_store (s : store) : Prop := wf_users s /\ wf_wallets s.

(** how an operation run at time [now] may change the [join] field of a
    record: not at all, or from absent to [now] *)
Definition join_kept (now : string) (r r' : user) : Prop :=
  (forall j, join r = Some j -> join r' = Some j)
  /\ (join r' = join r \/ (join r = None /\ join r' = Some now)).

Section Vocabulary.

Context {rt : PyRuntime}.


(** whether some entry of [l] for the name [k] is expired when visited *)
Definition revoked (clock : string -> Z) (l : list (string * user)) (k : string) : bool :=
  existsb (fun en => bool_decide (en.1 = k) && expired (clock en.1) en.1 en.2)%bool l.

(** whether the sweep revokes the name [k] of the store [s] *)
Definition revokes (clock : string -> Z) (s : store) (k : string) : bool :=
  match users s !! k with
  | Some info => expired (clock k) k info
  | None => false
  end.

(** the destination of a transfer record is absent (or false), or a string *)
Definition dest_readable (item : json) : Prop :=
  exists to, get3 "to" "destination" "tokenAddress" item = Ok to
             /\ (Py.truthy to = false \/ exists d, to = JStr d).

(** the three defects of a transfer record *)
Inductive malformed : json -> Prop :=
| no_destination kvs :
    Py.assoc "to" kvs = None -> Py.assoc "destination" kvs = None ->
    Py.assoc "tokenAddress" kvs = None ->
    malformed (JObj kvs)
| no_amount kvs :
    dest_readable (JObj kvs) ->
    Py.assoc "amount" kvs = None -> Py.assoc "lamports" kvs = None ->
    Py.assoc "value" kvs = None ->
    malformed (JObj kvs)
| bad_amount item amt :
    dest_readable item ->
    get3 "amount" "lamports" "value" item = Ok amt ->
    int_of amt = None -> float_of amt = None ->
    malformed item.

End Vocabulary.

(** ** A runtime and a network to run the scenarios on

    Timestamps print as their microsecond count; no string reads as a
    float.  The theorems below hold for every runtime: this one only
    serves to evaluate the program on concrete inputs. *)

Module Sim.

Definition parse_micros (s : string) : option Z :=
  match PyNum.int_of_string 4300 s with
  | Some t => if ((0 <=? t) && (t <=? DATETIME_MAX))%bool then Some t else None
  | None => None
  end.

#[export] Instance runtime : PyRuntime := {|
  isoformat := PyStr.of_Z;
  fromisoformat := parse_micros;
  float_of_str := fun _ => None;
  float_repr := fun _ => "0.0";
  int_max_str_digits := 4300
|}.

(** the same runtime, reading the one string [s] as the float [f] *)
Definition reading (s : string) (f : float) : PyRuntime := {|
  isoformat := PyStr.of_Z;
  fromisoformat := parse_micros;
  float_of_str := fun x => if String.eqb x s then Some f else None;
  float_repr := fun _ => "0.0";
  int_max_str_digits := 4300
|}.

(** a paying transaction: [amount] lamports from [payer] to [WALLET] *)
Definition payment (payer : string) (amount : Z) (memo : string) : json :=
  JObj [("feePayer", JStr payer);
        ("nativeTransfers", JArr [JObj [("to", JStr WALLET); ("amount", JNum amount)]]);
        ("memo", JStr memo)].

Definition network (detail : json) (link : option string) : env :=
  {| net_detail := fun _ => detail;
     net_invite := link;
     net_send := fun _ _ => true;
     net_kick := fun _ => true;
     disk_ok := fun _ => true |}.

Definition offline : env :=
  {| net_detail := fun _ => JObj [];
     net_invite := None;
     net_send := fun _ _ => false;
     net_kick := fun _ => false;
     disk_ok := fun _ => true |}.

(** the same, with a disk that cannot be written *)
Definition disk_full : env :=
  {| net_detail := fun _ => JObj [];
     net_invite := None;
     net_send := fun _ _ => false;
     net_kick := fun _ => false;
     disk_ok := fun _ => false |}.

Definition alice : sender := {| from_username := Some "alice"; from_id := Some 7 |}.

(** a sender without a display handle *)
Definition anon : sender := {| from_username := None; from_id := Some 12345 |}.

Definition tx1 : tx_summary := {| txHash := Some "sig1"; signature := None |}.

Definition day (n : Z) : Z := n * MICROS_PER_DAY.

(** the store after [/start WalletA] from alice on day 1 *)
Definition registered : store :=
  (handle_message offline (day 1) empty_store
     {| text := "/start WalletA"; from := alice |}).1.1.

(** the answer of the ledger to her payment of 0.15 SOL *)
Definition paying : env := network (payment "WalletA" 150000000 "SLC30") (Some "t.me/x").

(** ... and after her payment is seen on day 2 *)
Definition paid : store :=
  (handle_new_payment paying (day 2) registered tx1).1.1.

(** her record in [registered] and in [paid] *)
Definition alice_registered : user :=
  {| join := Some "86400000000"; last_paid := None;
     wallet := Some "WalletA"; user_id := Some 7 |}.

Definition alice_paid : user :=
  {| join := Some "86400000000"; last_paid := Some "172800000000";
     wallet := Some "WalletA"; user_id := Some 7 |}.

End Sim.

(** ** The vocabulary of the further properties *)

Section MoreVocabulary.

Context {rt : PyRuntime}.

Definition EXPIRED_MSG : string :=
  "Your 30-day access expired and you have been removed from the SLC Trench Scanner. Re-pay to regain access.".

(** the calls the sweep makes for one expired record *)
Definition sweep_notice (e : env) (info : user) : list event :=
  match user_id info with
  | Some n =>
      if n =? 0 then []
      else (kick_from_chat e n ++ send_message e (ChatId n) EXPIRED_MSG)%list
  | None => []
  end.

(** the runtime reads back the timestamp it wrote for [t] *)
Definition reads_back (t : Z) : Prop :=
  fromisoformat (isoformat t) = Some t /\ isoformat t <> EmptyString.

(** the record a grant writes *)
Definition granted_record (s : store) (key : string) (now w : string) : user :=
  {| join := Some (default now (users s !! key ≫= join));
     last_paid := Some now;
     wallet := Some w;
     user_id := users s !! key ≫= user_id |}.

(** the wallet argument of a [/start] text: the second word, stripped *)
Definition start_wallet (txt : string) : option string :=
  match PyStr.split txt with
  | _ :: p1 :: _ => Some (PyStr.strip p1)
  | _ => None
  end.

(** the record [/start] writes for a sender *)
Definition started_record (s : store) (uname now : string) (uid : option Z)
    (w : option string) : user :=
  touch_user (user_of s uname) now uid w.

(** the stripped text of the message reads as the [/start] command *)
Definition is_start (msg : message) : bool :=
  PyStr.startswith "/start" (PyStr.lower (PyStr.strip (text msg))).

(** ... as the [/myjoin] command *)
Definition is_myjoin (msg : message) : bool :=
  PyStr.startswith "/myjoin" (PyStr.lower (PyStr.strip (text msg))).

(** a transfer record with a string destination and an integer amount,
    under any of the field names the scanner reads *)
Definition plain_transfer (item : json) (da : string * Z) : Prop :=
  get3 "to" "destination" "tokenAddress" item = Ok (JStr da.1)
  /\ get3 "amount" "lamports" "value" item = Ok (JNum da.2).

(** the destination is the receiving wallet, whatever the case of the letters *)
Definition to_wallet (d : string) : bool :=
  String.eqb (PyStr.lower d) (PyStr.lower WALLET).

(** what a list of (destination, amount) pairs sends to the receiving wallet *)
Fixpoint credited (l : list (string * Z)) : Z :=
  match l with
  | [] => 0
  | da :: r => (if to_wallet da.1 then da.2 else 0) + credited r
  end.

(** the texts [l] with [", "] between them *)
Fixpoint join_comma (l : list string) : string :=
  match l with
  | [] => EmptyString
  | x :: r =>
      match r with
      | [] => x
      | _ => x ++ ", " ++ join_comma r
      end
  end.

(** one member of an object as [json.dumps] writes it *)
Definition dumps_member (kv : string * json) : string :=
  dumps_string kv.1 ++ ": " ++ dumps kv.2.

(** the marker occurs in a string value or in a key, at any depth *)
Inductive mentions (marker : string) : json -> Prop :=
| mentions_string s :
    PyStr.contains marker s = true -> mentions marker (JStr s)
| mentions_item l x :
    x ∈ l -> mentions marker x -> mentions marker (JArr l)
| mentions_key kvs k v :
    (k, v) ∈ kvs -> PyStr.contains marker k = true -> mentions marker (JObj kvs)
| mentions_value kvs k v :
    (k, v) ∈ kvs -> mentions marker v -> mentions marker (JObj kvs).

(** the welcome message, whoever it is addressed to *)
Definition is_welcome (ev : event) : bool :=
  match ev with
  | SendMessage _ txt _ => String.eqb txt WELCOME
  | _ => false
  end.

(** how many welcome messages a trace holds *)
Definition welcomes (tr : list event) : nat := length (filter (fun ev => is_welcome ev = true) tr).

(** every wallet entry names a user that has a record *)
Definition linked (s : store) : Prop :=
  forall w a, wallet_map s !! w = Some a -> is_Some (users s !! a).

End MoreVocabulary.

(** ** The qualifying payment, in the words of the specification

    "Sum all transfer amounts addressed to the receiving address across
    several possible transfer-record shapes": [summed_amount] reads a
    detail as this sentence does, as data, without the control flow of
    the scanner.  [readable_detail] tells the details on which the
    scanner gets through its two loops. *)

Section QualifyingPayment.

Context {rt : PyRuntime}.

Definition DESTINATION_FIELDS : list string := ["to"; "destination"; "tokenAddress"].

Definition AMOUNT_FIELDS : list string := ["amount"; "lamports"; "value"].

(** the first of the fields [ks] of a record that holds a true value *)
Fixpoint first_true (ks : list string) (kvs : list (string * json)) : option json :=
  match ks with
  | [] => None
  | k :: r =>
      match Py.assoc k kvs with
      | Some v => if Py.truthy v then Some v else first_true r kvs
      | None => first_true r kvs
      end
  end.

(** what one entry of a transfer list sends to the receiving wallet: the
    amount of a record whose destination is the wallet, and nothing for
    any other entry *)
Definition addressed_amount (item : json) : Z :=
  match item with
  | JObj kvs =>
      match first_true DESTINATION_FIELDS kvs, first_true AMOUNT_FIELDS kvs with
      | Some (JStr d), Some amt => if to_wallet d then amount_of amt else 0
      | _, _ => 0
      end
  | _ => 0
  end.

(** the entries of the transfer list under the key [k] *)
Definition transfer_list (kvs : list (string * json)) (k : string) : list json :=
  match Py.assoc k kvs with
  | Some (JArr l) => l
  | _ => []
  end.

Fixpoint total (l : list Z) : Z :=
  match l with
  | [] => 0
  | x :: r => x + total r
  end.

(** the summed amount of the transfers addressed to the receiving wallet *)
Definition summed_amount (detail : json) : Z :=
  match detail with
  | JObj kvs => total (map addressed_amount (flat_map (transfer_list kvs) TRANSFER_KEYS))
  | _ => 0
  end.

(** an entry of a transfer list the scanner can read: an object whose
    destination, when a field holds one, is a string *)
Definition readable_record (item : json) : bool :=
  match item with
  | JObj kvs =>
      match first_true DESTINATION_FIELDS kvs with
      | Some (JStr _) | None => true
      | Some _ => false
      end
  | _ => false
  end.

(** a transfer list the scanner can read: an absent key, a false value,
    or a list of readable records *)
Definition readable_list (v : option json) : bool :=
  match v with
  | None => true
  | Some (JArr l) => forallb readable_record l
  | Some v => negb (Py.truthy v)
  end.

(** a detail whose scan raises nothing: an object with five readable
    transfer lists *)
Definition readable_detail (detail : json) : bool :=
  match detail with
  | JObj kvs => forallb (fun k => readable_list (Py.assoc k kvs)) TRANSFER_KEYS
  | _ => false
  end.

End QualifyingPayment.

(** ** The results of a sweep and of a registration, written out *)

Section WrittenOut.

Context {rt : PyRuntime}.

(** the store a sweep leaves: the records that are not expired at their
    turn, and the wallet entries of the names that are not revoked *)
Definition swept (clock : string -> Z) (s : store) : store :=
  {| users := filter (fun en => expired (clock en.1) en.1 en.2 = false) (users s);
     wallet_map := filter (fun wa => revokes clock s wa.2 = false) (wallet_map s);
     seen_tx := seen_tx s |}.

(** the records a sweep revokes *)
Definition expired_entries (clock : string -> Z) (s : store) : list (string * user) :=
  filter (fun en => expired (clock en.1) en.1 en.2 = true) (map_to_list (users s)).

(** the calls of a sweep that revokes the records [gone], one after the
    other, and leaves the store [s']: for each record with a user id the
    removal and then the notification, and after the last record one
    write of the data file *)
Definition sweep_trace (e : env) (gone : list (string * user)) (s' : store) : list event :=
  (flat_map (fun en => sweep_notice e en.2) gone
   ++ match gone with
      | [] => []
      | _ => [SaveData s' (disk_ok e s')]
      end)%list.

(** the record [/start] leaves for a sender, field by field *)
Definition registration (s : store) (uname now : string) (uid : option Z)
    (w : option string) : user :=
  let old := users s !! uname in
  {| join := Some (default now (old ≫= join));
     last_paid := old ≫= last_paid;
     wallet := match w with Some a => Some a | None => old ≫= wallet end;
     user_id := uid |}.

(** the store [/start] leaves: the record of the sender, and the wallet
    entry when the text names a wallet *)
Definition registered_store (s : store) (uname now : string) (uid : option Z)
    (w : option string) : store :=
  {| users := <[uname := registration s uname now uid w]> (users s);
     wallet_map := match w with
                   | Some a => <[a := uname]> (wallet_map s)
                   | None => wallet_map s
                   end;
     seen_tx := seen_tx s |}.

End WrittenOut.

(** ** More inputs to run the program on *)

Module Samples.

(** a store holding one record whose timestamps are not timestamps *)
Definition bob_unreadable : user :=
  {| join := Some "yesterday"; last_paid := None; wallet := None; user_id := Some 8 |}.

Definition with_bob : store := set_users (insert "@bob" bob_unreadable) empty_store.

(** a second sender, with a display handle *)
Definition carol : sender := {| from_username := Some "carol"; from_id := Some 9 |}.

Definition start_a (frm : sender) : message := {| text := "/start WalletA"; from := frm |}.

Definition myjoin (frm : sender) : message := {| text := "/myjoin"; from := frm |}.

Definition hello (frm : sender) : message := {| text := "hello"; from := frm |}.

(** a listing answered with a list instead of an object *)
Definition listing : env := Sim.network (JArr []) None.

(** a detail whose fee payer is not registered, though its signer is *)
Definition stranger_pays : json :=
  JObj [("feePayer", JStr "WalletZ"); ("signer", JStr "WalletA");
        ("nativeTransfers", JArr [JObj [("to", JStr WALLET); ("amount", JNum 150000000)]]);
        ("memo", JStr "SLC30")].

(** the transfers of one list, as (destination, amount) pairs *)
Definition one_list (k : string) : list (string * Z) :=
  if String.eqb k "nativeTransfers" then [(WALLET, 7); ("elsewhere", 100)] else [].

Definition one_list_detail : list (string * json) :=
  [("nativeTransfers",
    JArr [JObj [("to", JStr WALLET); ("amount", JNum 7)];
          JObj [("destination", JStr "elsewhere"); ("lamports", JNum 100)]])].

(** a payment of 0.15 SOL from WalletA, with the memo, whose token list
    holds a number where a record is expected *)
Definition stray_entry : json :=
  JObj [("feePayer", JStr "WalletA");
        ("nativeTransfers", JArr [JObj [("to", JStr WALLET); ("amount", JNum 150000000)]]);
        ("tokenTransfers", JArr [JNum 5]);
        ("memo", JStr "SLC30")].

(** the ledger answering with [detail] for every identifier *)
Definition ledger (detail : json) : env := Sim.network detail (Some "t.me/x").



(** the digit 1 followed by [n] zeros *)
Definition one_and_zeros (n : nat) : string :=
  String "1" (string_of_list_ascii (List.repeat "0"%char n)).

(** [/start], a no-break space, and a wallet *)
Definition start_nbsp (frm : sender) : message :=
  {| text := "/start" ++ String (ascii_of_nat 160) "WalletA"; from := frm |}.

(** a registration followed by a status query *)
Definition start_then_myjoin : list update :=
  [{| update_id := 51; upd_message := Some (start_a Sim.alice); upd_edited_message := None |};
   {| update_id := 52; upd_message := Some (myjoin Sim.alice); upd_edited_message := None |}].

(** two records whose last activity is 40 days before day 41 *)
Definition two_old : store :=
  set_users (insert "@dave" {| join := Some "86400000000"; last_paid := None;
                               wallet := None; user_id := Some 4 |})
    (set_users (insert "@erin" {| join := Some "86400000000"; last_paid := None;
                                  wallet := None; user_id := None |}) empty_store).

(** updates that carry no command *)
Definition chatter : list update :=
  [{| update_id := 41; upd_message := None; upd_edited_message := None |};
   {| update_id := 42; upd_message := None; upd_edited_message := Some (hello carol) |}].

End Samples.

(** closes a decidable goal by evaluation *)
Ltac by_evaluation := apply (bool_decide_unpack _); vm_compute; exact I.

(** * Properties *)

(** ** The helpers on concrete inputs *)

Example lower_wallet : PyStr.lower "GFxQ@z9" = "gfxq@z9".
Proof. reflexivity. Qed.

Example split_start : PyStr.split "  /start  abc  d " = ["/start"; "abc"; "d"].
Proof. reflexivity. Qed.

Example strip_ex : PyStr.strip "  a b  " = "a b".
Proof. reflexivity. Qed.

Example of_Z_ex : PyStr.of_Z 12345 = "12345" /\ PyStr.of_Z (-7) = "-7" /\ PyStr.of_Z 0 = "0".
Proof. repeat split; reflexivity. Qed.

Example trunc_ex : PyNum.trunc 3.7%float = Some 3 /\ PyNum.trunc (-3.7)%float = Some (-3)
                   /\ PyNum.trunc infinity = None /\ PyNum.trunc 1e20%float = Some (10 ^ 20).
Proof. repeat split; vm_compute; reflexivity. Qed.

Example int_of_string_ex :
  PyNum.int_of_string 4300 " 150_000_000 " = Some 150000000 /\
  PyNum.int_of_string 4300 "-12" = Some (-12) /\
  PyNum.int_of_string 4300 "0.15" = None /\
  PyNum.int_of_string 4300 "1__0" = None /\
  PyNum.int_of_string 4300 EmptyString = None.
Proof. repeat split; reflexivity. Qed.

(** the limit on the digits: 4300 digits are read, 4301 are not, unless
    the interpreter has no limit *)
Example int_of_string_at_limit :
  PyNum.int_of_string 4300 (Samples.one_and_zeros 4299) = Some (10 ^ 4299).
Proof. vm_compute. reflexivity. Qed.

Example int_of_string_over_limit :
  PyNum.int_of_string 4300 (Samples.one_and_zeros 4300) = None.
Proof. vm_compute. reflexivity. Qed.

Example int_of_string_no_limit :
  PyNum.int_of_string 0 (Samples.one_and_zeros 4300) = Some (10 ^ 4300).
Proof. vm_compute. reflexivity. Qed.

(** white space beyond ASCII: next line and the no-break space split and
    strip, and [int] skips them, but not the separator U+001C *)
Example split_latin1 :
  PyStr.split ("/start" ++ String (ascii_of_nat 160) "abc") = ["/start"; "abc"]
  /\ PyStr.strip (String (ascii_of_nat 133) "abc" ++ String (ascii_of_nat 28) EmptyString) = "abc"
  /\ PyNum.int_of_string 4300 (String (ascii_of_nat 160) "15 ") = Some 15
  /\ PyNum.int_of_string 4300 (String (ascii_of_nat 28) "15") = None.
Proof. repeat split; reflexivity. Qed.

(** letters beyond ASCII: U+00C9 lowers to U+00E9, the multiplication
    sign stays; the superscript two is alphanumeric, the pound sign is
    not *)
Example lower_latin1 :
  PyStr.lower (String (ascii_of_nat 201) (String (ascii_of_nat 215) "Z"))
  = String (ascii_of_nat 233) (String (ascii_of_nat 215) "z")
  /\ PyStr.isalnum (String (ascii_of_nat 178) "a") = true
  /\ PyStr.isalnum (String (ascii_of_nat 163) "a") = false.
Proof. repeat split; reflexivity. Qed.

Example MIN_LAMPORTS_value : MIN_LAMPORTS = 150000000.
Proof. reflexivity. Qed.

Example is_whitelisted_ex :
  is_whitelisted "@Steez431" = true /\ is_whitelisted "arc" = true /\
  is_whitelisted "@bob" = false /\ is_whitelisted EmptyString = false.
Proof. repeat split; vm_compute; reflexivity. Qed.

(** ** The scenarios of the specification, evaluated *)

Section Scenarios.

#[local] Existing Instance Sim.runtime.

(** 1. [/start WalletA] creates the record, without [last_paid]; the
    status query then reports no expiry *)
Example scenario_register :
  users Sim.registered !! "@alice" = Some Sim.alice_registered
  /\ wallet_map Sim.registered !! "WalletA" = Some "@alice"
  /\ (handle_message Sim.offline (Sim.day 1) Sim.registered
        {| text := "/myjoin"; from := Sim.alice |}).1.2
     = [SendMessage (ChatId 7)
          ("Joined: 86400000000" ++ NL ++ "Last paid: None" ++ NL ++ "Expires: N/A") false].
Proof. repeat split; vm_compute; reflexivity. Qed.

(** 2. a payment of 0.15 SOL with the memo, signed by WalletA: [last_paid]
    is set, the welcome and the invite are sent once *)
Example scenario_payment :
  users Sim.paid !! "@alice" = Some Sim.alice_paid
  /\ seen_tx Sim.paid = ["sig1"]
  /\ (handle_new_payment Sim.paying (Sim.day 2) Sim.registered Sim.tx1).1.2
     = [ExportChatInviteLink;
        SendMessage (ChatId 7) WELCOME true;
        SendMessage (ChatId 7) "Join the private SLC Trench Scanner here: t.me/x" true;
        SaveData Sim.paid true; SaveData Sim.paid true]
  /\ (handle_message Sim.offline (Sim.day 3) Sim.paid
        {| text := "/myjoin"; from := Sim.alice |}).1.2
     = [SendMessage (ChatId 7)
          ("Joined: 86400000000" ++ NL ++ "Last paid: 172800000000" ++ NL
           ++ "Expires: 2764800000000") false].
Proof. repeat split; vm_compute; reflexivity. Qed.

(** 3. the same transaction again: nothing happens *)
Example scenario_replay :
  handle_new_payment Sim.paying (Sim.day 3) Sim.paid Sim.tx1 = (Sim.paid, [], Ok tt).
Proof. vm_compute. reflexivity. Qed.

(** 4. 31 days after the payment the sweep removes the record and its
    wallet entry, and attempts the removal and the notification *)
Example scenario_expiry :
  daily_expiry_check Sim.offline (fun _ => Sim.day 33) Sim.paid
  = (set_seen_tx (fun _ => ["sig1"]) empty_store,
     [KickChatMember 7 false;
      SendMessage (ChatId 7)
        "Your 30-day access expired and you have been removed from the SLC Trench Scanner. Re-pay to regain access."
        false;
      SaveData (set_seen_tx (fun _ => ["sig1"]) empty_store) true], Ok tt).
Proof. vm_compute. reflexivity. Qed.

(** ... and exactly 30 days after it, nothing *)
Example scenario_not_yet_expired :
  daily_expiry_check Sim.offline (fun _ => Sim.day 32) Sim.paid = (Sim.paid, [], Ok tt).
Proof. vm_compute. reflexivity. Qed.

(** 5. 0.10 SOL with the memo: no grant, the transaction is marked seen *)
Example scenario_underpaid :
  handle_new_payment
    (Sim.network (Sim.payment "WalletA" 100000000 "SLC30") (Some "t.me/x"))
    (Sim.day 2) Sim.registered Sim.tx1
  = (set_seen_tx (fun _ => ["sig1"]) Sim.registered,
     [SaveData (set_seen_tx (fun _ => ["sig1"]) Sim.registered) true], Ok tt).
Proof. vm_compute. reflexivity. Qed.

(** 6. a whitelisted name paid 40 days ago: the sweep leaves it *)
Example scenario_whitelisted :
  let s := set_users (insert "@Steez431" Sim.alice_paid) empty_store in
  daily_expiry_check Sim.offline (fun _ => Sim.day 42) s = (s, [], Ok tt).
Proof. vm_compute. reflexivity. Qed.

(** a transfer list holding a number instead of a record: the exception
    escapes, after the transaction was marked seen and the store saved *)
Example scenario_raise :
  handle_new_payment
    (Sim.network (JObj [("nativeTransfers", JArr [JNum 5])]) None)
    (Sim.day 2) Sim.registered Sim.tx1
  = (set_seen_tx (fun _ => ["sig1"]) Sim.registered,
     [SaveData (set_seen_tx (fun _ => ["sig1"]) Sim.registered) true], Raise AttributeError).
Proof. vm_compute. reflexivity. Qed.

(** a disk that cannot be written: [/start] still changes the store in
    memory, the exception escapes and the confirmation is not sent; a
    payment is still marked seen *)
Example scenario_disk_full :
  (let run := handle_message Sim.disk_full (Sim.day 1) empty_store
                {| text := "/start WalletA"; from := Sim.alice |} in
   run = (Sim.registered, [SaveData Sim.registered false], Raise OSError))
  /\ handle_new_payment Sim.disk_full (Sim.day 2) Sim.registered Sim.tx1
     = (set_seen_tx (fun _ => ["sig1"]) Sim.registered,
        [SaveData (set_seen_tx (fun _ => ["sig1"]) Sim.registered) false], Raise OSError).
Proof. split; vm_compute; reflexivity. Qed.

(** the memo marker is looked for in the whole serialized detail *)
Example memo_found_ex :
  memo_found (Sim.payment "WalletA" 1 "pay SLC30 now") = true
  /\ memo_found (JObj [("SLC30", JNull)]) = true
  /\ memo_found (Sim.payment "WalletA" 1 "SLC 30") = false.
Proof. repeat split; vm_compute; reflexivity. Qed.

(** what an amount adds: an integer as it is, a float truncated, a
    string through [int] and, failing that, through [float] as SOL *)
Example amount_of_ex :
  amount_of (JNum 150000000) = 150000000
  /\ amount_of (JStr " 150_000_000 ") = 150000000
  /\ amount_of (JFloat 0.2) = 0
  /\ amount_of (rt := Sim.reading "0.2" 0.2) (JStr "0.2") = 200000000
  /\ amount_of (JStr "0.2") = 0
  /\ amount_of (JBool true) = 1
  /\ amount_of (JArr [JNum 5]) = 0
  /\ amount_of (JFloat infinity) = 0.
Proof. repeat split; vm_compute; reflexivity. Qed.

(** the same transfer listed under two keys is counted twice *)
Example sum_lamports_ex :
  sum_lamports
    (JObj [("nativeTransfers", JArr [JObj [("to", JStr WALLET); ("amount", JNum 7)]]);
           ("transfers", JArr [JObj [("destination", JStr (PyStr.lower WALLET));
                                     ("lamports", JStr "8")];
                               JObj [("to", JStr "elsewhere"); ("amount", JNum 100)]])])
  = Ok 15.
Proof. vm_compute. reflexivity. Qed.

(** a number in the token list: the amount addressed to the wallet is
    there, but the scanner raises on the number *)
Example scenario_stray_entry :
  summed_amount Samples.stray_entry = 150000000
  /\ readable_detail Samples.stray_entry = false
  /\ sum_lamports Samples.stray_entry = Raise AttributeError
  /\ readable_detail (Sim.payment "WalletA" 150000000 "SLC30") = true
  /\ sum_lamports (Sim.payment "WalletA" 150000000 "SLC30") = Ok 150000000.
Proof. repeat split; vm_compute; reflexivity. Qed.

(** a sweep on day 41 over two records of day 1, one with a user id and
    one without: both go, one removal and one notification are
    attempted, and the data file is written once *)
Example scenario_sweep_calls :
  daily_expiry_check Sim.offline (fun _ => Sim.day 41) Samples.two_old
  = (empty_store,
     [KickChatMember 4 false; SendMessage (ChatId 4) EXPIRED_MSG false;
      SaveData empty_store true],
     Ok tt).
Proof. vm_compute. reflexivity. Qed.

(** [/start] then [/myjoin] in one batch, with a disk that cannot be
    written: the batch ends at the save, the status query is not
    answered, and the cursor is past the [/start] *)
Example scenario_failed_save_ends_batch :
  poll_updates Sim.disk_full (fun _ => Sim.day 1) None empty_store Samples.start_then_myjoin
  = (Some 52, Sim.registered, [SaveData Sim.registered false], Raise OSError).
Proof. vm_compute. reflexivity. Qed.

End Scenarios.

(** ** Payments are processed at most once *)

Section ScannerFacts.

Context {rt : PyRuntime}.

Lemma grant_access_to_seen e now s username w sig :
  seen_tx (grant_access_to e now s username w sig).1.1 = seen_tx s.
Proof. reflexivity. Qed.

Lemma grant_access_to_wallet_map e now s username w sig :
  wallet_map (grant_access_to e now s username w sig).1.1 = wallet_map s.
Proof. reflexivity. Qed.

(** The [try] block either grants or leaves the store as it is. *)
Lemma try_payment_cases e now s sig detail :
  (try_payment e now s sig detail).1.1 = s /\ (try_payment e now s sig detail).1.2 = []
  \/ exists w username,
       try_payment e now s sig detail = grant_access_to e now s username w sig
       /\ wallet_map s !! w = Some username.
Proof.
  unfold try_payment.
  repeat case_match; simplify_eq; eauto.
Qed.

Lemma try_payment_seen e now s sig detail :
  seen_tx (try_payment e now s sig detail).1.1 = seen_tx s.
Proof.
  destruct (try_payment_cases e now s sig detail) as [[-> _] | (w & u & -> & _)];
    reflexivity.
Qed.

Lemma handle_new_payment_seen_noop e now s tx sig :
  tx_sig tx = Some sig -> sig ∈ seen_tx s ->
  handle_new_payment e now s tx = (s, [], Ok tt).
Proof.
  intros Hsig Hin. unfold handle_new_payment. rewrite Hsig.
  rewrite bool_decide_eq_true_2 by assumption. reflexivity.
Qed.

Lemma handle_new_payment_marks_seen e now s tx sig :
  tx_sig tx = Some sig -> sig ∉ seen_tx s ->
  seen_tx (handle_new_payment e now s tx).1.1 = (seen_tx s ++ [sig])%list.
Proof.
  intros Hsig Hin. unfold handle_new_payment. rewrite Hsig.
  rewrite bool_decide_eq_false_2 by assumption.
  pose proof (try_payment_seen e now (set_seen_tx (fun l => (l ++ [sig])%list) s) sig
                (net_detail e sig)) as Hs.
  destruct (try_payment _ _ _ _ _) as [[s2 tr] r]. simpl in *. exact Hs.
Qed.

(** After any run on [tx], the identifier of [tx] (if it has one) is in
    [seen_tx]. *)
Lemma handle_new_payment_then_seen e now s tx sig :
  tx_sig tx = Some sig -> sig ∈ seen_tx (handle_new_payment e now s tx).1.1.
Proof.
  intros Hsig. destruct (decide (sig ∈ seen_tx s)) as [Hin | Hin].
  - rewrite (handle_new_payment_seen_noop e now s tx sig) by assumption. exact Hin.
  - rewrite (handle_new_payment_marks_seen e now s tx sig) by assumption.
    apply elem_of_app. right. apply list_elem_of_singleton. reflexivity.
Qed.

(** C1. Payment processing is idempotent per transaction identifier: a
    transaction whose identifier is already in [seen_tx] changes
    nothing (no record, no wallet entry) and makes no call (no welcome
    message, no second [last_paid]); in particular a second run on the
    same transaction leaves the store exactly as the first run left
    it. *)
Theorem handle_new_payment_idempotent e now s tx sig :
  tx_sig tx = Some sig ->
  (sig ∈ seen_tx s -> handle_new_payment e now s tx = (s, [], Ok tt))
  /\ (forall e0 now0,
        let s1 := (handle_new_payment e0 now0 s tx).1.1 in
        handle_new_payment e now s1 tx = (s1, [], Ok tt)).
Proof.
  intros Hsig. split.
  - apply handle_new_payment_seen_noop. exact Hsig.
  - intros e0 now0 s1. apply (handle_new_payment_seen_noop e now s1 tx sig Hsig).
    apply handle_new_payment_then_seen. exact Hsig.
Qed.

(** C4. A transaction not yet seen is marked seen before the [try] block
    runs: whatever the block does, also when an exception escapes it or
    the save of the [finally] clause, the store afterwards lists the
    identifier (appended once, to the list as it was), and processing
    the transaction again is a no-op. *)
Theorem handle_new_payment_fail_closed e now s tx sig :
  tx_sig tx = Some sig -> sig ∉ seen_tx s ->
  let s1 := set_seen_tx (fun l => (l ++ [sig])%list) s in
  let body := try_payment e now s1 sig (net_detail e sig) in
  handle_new_payment e now s tx
  = (body.1.1, (body.1.2 ++ (save_data e body.1.1).1)%list,
     match (save_data e body.1.1).2 with Raise x => Raise x | Ok _ => body.2 end)
  /\ seen_tx body.1.1 = (seen_tx s ++ [sig])%list
  /\ forall e' now', handle_new_payment e' now' body.1.1 tx = (body.1.1, [], Ok tt).
Proof.
  intros Hsig Hin s1 body.
  assert (Hrun : handle_new_payment e now s tx
                 = (body.1.1, (body.1.2 ++ (save_data e body.1.1).1)%list,
                    match (save_data e body.1.1).2 with
                    | Raise x => Raise x
                    | Ok _ => body.2
                    end)).
  { unfold handle_new_payment. rewrite Hsig.
    rewrite bool_decide_eq_false_2 by assumption.
    fold s1. fold body. destruct body as [[s2 tr] r]. reflexivity. }
  assert (Hseen : seen_tx body.1.1 = (seen_tx s ++ [sig])%list).
  { unfold body. rewrite try_payment_seen. reflexivity. }
  split; [exact Hrun | split; [exact Hseen |]].
  intros e' now'. apply (handle_new_payment_seen_noop e' now' _ tx sig Hsig).
  rewrite Hseen. apply elem_of_app. right. apply list_elem_of_singleton. reflexivity.
Qed.

End ScannerFacts.

(** ** When a payment grants access *)

Section GrantFacts.

Context {rt : PyRuntime}.

Lemma truthy_nonempty s : s <> EmptyString -> PyStr.truthy s = true.
Proof. destruct s; [congruence | reflexivity]. Qed.

Lemma not_granted_save e d : ~ granted (save_data e d).1.
Proof.
  intros (to & ok & Hin). unfold save_data in Hin. simpl in Hin.
  apply list_elem_of_singleton in Hin. discriminate.
Qed.

Lemma try_payment_grants e now s sig detail n w username :
  sum_lamports detail = Ok n -> MIN_LAMPORTS <= n -> memo_found detail = true ->
  signer_of detail = Ok (JStr w) -> w <> EmptyString ->
  wallet_map s !! w = Some username -> username <> EmptyString ->
  try_payment e now s sig detail = grant_access_to e now s username w sig.
Proof.
  intros Hsum Hmin Hmemo Hsigner Hw Hmap Hu. unfold try_payment.
  rewrite Hsum, Hmemo, Hsigner. apply Z.leb_le in Hmin. rewrite Hmin. simpl.
  rewrite (truthy_nonempty _ Hw), Hmap, (truthy_nonempty _ Hu). reflexivity.
Qed.

Lemma handle_new_payment_new e now s tx sig :
  tx_sig tx = Some sig -> sig ∉ seen_tx s ->
  let s1 := set_seen_tx (fun l => (l ++ [sig])%list) s in
  let body := try_payment e now s1 sig (net_detail e sig) in
  handle_new_payment e now s tx
  = (body.1.1, (body.1.2 ++ (save_data e body.1.1).1)%list,
     match (save_data e body.1.1).2 with Raise x => Raise x | Ok _ => body.2 end).
Proof.
  intros Hsig Hnew s1 body. unfold handle_new_payment. rewrite Hsig.
  rewrite bool_decide_eq_false_2 by assumption.
  fold s1. fold body. destruct body as [[s2 tr] r]. reflexivity.
Qed.


End GrantFacts.

(** ** The scan and the summed amount *)

Section ReadableFacts.

Context {rt : PyRuntime}.





Lemma sum_items_chars s lamports :
  s <> EmptyString -> sum_items lamports (Py.chars s) = Raise AttributeError.
Proof. destruct s; [congruence | reflexivity]. Qed.




End ReadableFacts.

(** ** The qualifying payment *)

Section QualifyingFacts.

Context {rt : PyRuntime}.


End QualifyingFacts.

(** ** Registration, grants and the join timestamp *)

Section JoinFacts.

Context {rt : PyRuntime}.

Lemma join_kept_refl now r : join_kept now r r.
Proof. split; auto. Qed.

Lemma join_kept_touch now r uid w : join_kept now r (touch_user r now uid w).
Proof.
  unfold join_kept, touch_user; simpl. destruct (join r); split; auto; congruence.
Qed.

Lemma user_of_lookup s k r : users s !! k = Some r -> user_of s k = r.
Proof. unfold user_of. intros ->. reflexivity. Qed.

(** The store [/start] leaves does not depend on what the save and the
    confirmation do. *)
Lemma handle_start_store e now s txt uname uid :
  (handle_start e now s txt uname uid).1.1
  = match PyStr.split txt with
    | _ :: p1 :: _ =>
        set_users
          (insert uname (touch_user (user_of s uname) (isoformat now) uid
                           (Some (PyStr.strip p1))))
          (set_wallet_map (insert (PyStr.strip p1) uname) s)
    | _ => set_users (insert uname (touch_user (user_of s uname) (isoformat now) uid None)) s
    end.
Proof.
  unfold handle_start, save_data.
  destruct (PyStr.split txt) as [| c [| p1 rest]]; simpl;
    destruct (disk_ok e _); reflexivity.
Qed.

Lemma handle_start_join e now s txt uname uid k r :
  users s !! k = Some r ->
  exists r', users (handle_start e now s txt uname uid).1.1 !! k = Some r'
             /\ join_kept (isoformat now) r r'.
Proof.
  intros Hk. rewrite handle_start_store.
  destruct (PyStr.split txt) as [| c [| p1 rest]]; simpl;
    (destruct (decide (uname = k)) as [-> | Hne];
     [ rewrite lookup_insert_eq; eexists; split; [reflexivity |];
       unfold user_of; simpl; rewrite Hk; apply join_kept_touch
     | rewrite lookup_insert_ne by assumption; eauto using join_kept_refl ]).
Qed.

Lemma handle_message_join e now s msg k r :
  users s !! k = Some r ->
  exists r', users (handle_message e now s msg).1.1 !! k = Some r'
             /\ join_kept (isoformat now) r r'.
Proof.
  intros Hk. unfold handle_message.
  destruct (PyStr.startswith "/start" _).
  - apply handle_start_join. exact Hk.
  - destruct (PyStr.startswith "/myjoin" _); [| eauto using join_kept_refl].
    unfold handle_myjoin. repeat case_match; simpl; eauto using join_kept_refl.
Qed.

Lemma grant_access_to_join e now s username w sig k r :
  users s !! k = Some r ->
  exists r', users (grant_access_to e now s username w sig).1.1 !! k = Some r'
             /\ join_kept (isoformat now) r r'.
Proof.
  intros Hk. unfold grant_access_to; simpl.
  destruct (decide (grant_key username = k)) as [-> | Hne].
  - rewrite lookup_insert_eq. eexists; split; [reflexivity |].
    rewrite (user_of_lookup _ _ _ Hk).
    unfold join_kept; simpl. destruct (join r); split; auto; congruence.
  - rewrite lookup_insert_ne by assumption. eauto using join_kept_refl.
Qed.

Lemma handle_new_payment_join e now s tx k r :
  users s !! k = Some r ->
  exists r', users (handle_new_payment e now s tx).1.1 !! k = Some r'
             /\ join_kept (isoformat now) r r'.
Proof.
  intros Hk. unfold handle_new_payment.
  destruct (tx_sig tx) as [sig |]; [| simpl; eauto using join_kept_refl].
  destruct (bool_decide _); [simpl; eauto using join_kept_refl |].
  set (s1 := set_seen_tx _ s).
  destruct (try_payment_cases e now s1 sig (net_detail e sig))
    as [[Hs _] | (w & u & Heq & _)].
  - destruct (try_payment _ _ _ _ _) as [[s2 tr] res]. simpl in *. subst s2.
    eauto using join_kept_refl.
  - rewrite Heq. simpl. apply (grant_access_to_join e now s1 u w sig k r). exact Hk.
Qed.

(** C5. Once a record has a join timestamp, no later [/start] (with or
    without a wallet), no other message, no grant and no payment run
    changes it: each of them keeps the record and writes [join] only
    where it was absent, and then with the time of the call. *)
Theorem join_never_rewritten s k r :
  users s !! k = Some r ->
  (forall e now msg,
      exists r', users (handle_message e now s msg).1.1 !! k = Some r'
                 /\ join_kept (isoformat now) r r')
  /\ (forall e now username w sig,
        exists r', users (grant_access_to e now s username w sig).1.1 !! k = Some r'
                   /\ join_kept (isoformat now) r r')
  /\ (forall e now tx,
        exists r', users (handle_new_payment e now s tx).1.1 !! k = Some r'
                   /\ join_kept (isoformat now) r r').
Proof.
  intros Hk. split; [| split]; intros.
  - apply handle_message_join. exact Hk.
  - apply grant_access_to_join. exact Hk.
  - apply handle_new_payment_join. exact Hk.
Qed.

(** C9. A second [/start] with another wallet, from a user who already
    has a record and a mapped wallet [old], maps the new address to the
    user and makes it the record's wallet, keeps [join] (and
    [last_paid]), and leaves the entry of [old] in the wallet map. *)
Theorem start_remaps_wallet e now s msg c p1 rest r j old :
  let uname := sender_uname (from msg) in
  let w := PyStr.strip p1 in
  PyStr.startswith "/start" (PyStr.lower (PyStr.strip (text msg))) = true ->
  PyStr.split (PyStr.strip (text msg)) = c :: p1 :: rest ->
  users s !! uname = Some r -> join r = Some j ->
  wallet_map s !! old = Some uname -> old <> w ->
  let s' := (handle_message e now s msg).1.1 in
  wallet_map s' !! w = Some uname
  /\ wallet_map s' !! old = Some uname
  /\ users s' !! uname
     = Some {| join := Some j; last_paid := last_paid r;
               wallet := Some w; user_id := from_id (from msg) |}.
Proof.
  intros uname w Hstart Hsplit Hr Hj Hold Hne s'.
  unfold s', handle_message. rewrite Hstart.
  rewrite handle_start_store, Hsplit. simpl.
  fold uname. fold w.
  rewrite lookup_insert_eq, lookup_insert_eq.
  rewrite lookup_insert_ne by congruence.
  repeat split; [exact Hold |].
  unfold user_of; simpl. rewrite Hr. unfold touch_user. rewrite Hj. reflexivity.
Qed.

End JoinFacts.

(** ** The key a grant is filed under *)

Section GrantKey.

Context {rt : PyRuntime}.

Lemma string_of_uint_digits d :
  PyStr.all_chars PyStr.is_digit (NilEmpty.string_of_uint d) = true.
Proof. induction d; simpl; try rewrite IHd; reflexivity. Qed.

Lemma all_chars_impl (p q : ascii -> bool) s :
  (forall c, p c = true -> q c = true) ->
  PyStr.all_chars p s = true -> PyStr.all_chars q s = true.
Proof.
  intros Hpq. induction s as [| c s IH]; simpl; [auto |].
  intros [Hc Hs]%andb_prop. rewrite (Hpq _ Hc), (IH Hs). reflexivity.
Qed.

Lemma digits_isalnum s :
  s <> EmptyString -> PyStr.all_chars PyStr.is_digit s = true ->
  PyStr.isalnum s = true /\ PyStr.startswith "@" s = false.
Proof.
  intros Hne Hd. destruct s as [| c s]; [congruence |]. split.
  - unfold PyStr.isalnum. apply (all_chars_impl PyStr.is_digit); [| exact Hd].
    intros a Ha. unfold PyStr.is_alnum. rewrite Ha. reflexivity.
  - apply andb_prop in Hd as [Hc _].
    change (PyStr.startswith "@" (String c s)) with (Ascii.eqb "@" c && true)%bool.
    destruct (Ascii.eqb_spec "@" c) as [<- | _]; [discriminate Hc | reflexivity].
Qed.

(** [str(n)] of a natural number is a non-empty string of digits *)
Lemma of_Z_digits n :
  0 <= n -> PyStr.of_Z n <> EmptyString /\ PyStr.all_chars PyStr.is_digit (PyStr.of_Z n) = true.
Proof.
  intros Hn. unfold PyStr.of_Z.
  destruct n as [| p | p]; [split; [discriminate | reflexivity] | | lia].
  simpl. unfold NilZero.string_of_uint.
  pose proof (string_of_uint_digits (Pos.to_uint p)) as Hd.
  destruct (Pos.to_uint p); simpl in *; (split; [discriminate | assumption || reflexivity]).
Qed.

Lemma string_cons_neq c s : String c s <> s.
Proof.
  revert c. induction s as [| a s IH]; intros c Heq; [discriminate |].
  injection Heq as _ Heq. exact (IH a Heq).
Qed.

Lemma grant_key_of_id n : 0 <= n -> grant_key (PyStr.of_Z n) = "@" ++ PyStr.of_Z n.
Proof.
  intros Hn. destruct (of_Z_digits n Hn) as [Hne Hd].
  destruct (digits_isalnum _ Hne Hd) as [Halnum Hat].
  unfold grant_key. rewrite Hat, Halnum. reflexivity.
Qed.

(** C10. [grant_access_to] does not file the payment under the wallet
    map's username as it stands: a username that does not start with
    [@] and is alphanumeric is filed under [@] followed by it.  A sender
    without a display handle is registered under the digits of the
    numeric id; so after [/start <wallet>] from such a sender and a
    grant for the username the wallet map now holds, the payment sits
    in a second record, keyed [@<id>], with no user id, the welcome
    message is addressed to that key, and the registration record still
    has the [last_paid] it had (none, for a new user). *)
Theorem grant_for_numeric_id_splits_record e1 now1 e2 now2 s n c p1 rest txt sig :
  let frm := {| from_username := None; from_id := Some n |} in
  let key := PyStr.of_Z n in
  let w := PyStr.strip p1 in
  let paid := (isoformat now2) in
  0 <= n ->
  PyStr.startswith "/start" (PyStr.lower (PyStr.strip txt)) = true ->
  PyStr.split (PyStr.strip txt) = c :: p1 :: rest ->
  users s !! ("@" ++ key) = None ->
  let s1 := (handle_message e1 now1 s {| text := txt; from := frm |}).1.1 in
  let run := (grant_access_to e2 now2 s1 key w sig).1 in
  (forall username,
      PyStr.startswith "@" username = false -> PyStr.isalnum username = true ->
      grant_key username = "@" ++ username)
  /\ sender_uname frm = key
  /\ wallet_map s1 !! w = Some key
  /\ users run.1 !! ("@" ++ key)
     = Some {| join := Some paid; last_paid := Some paid; wallet := Some w; user_id := None |}
  /\ users run.1 !! key
     = Some {| join := Some (default (isoformat now1) (users s !! key ≫= join));
               last_paid := users s !! key ≫= last_paid;
               wallet := Some w; user_id := Some n |}
  /\ SendMessage (ChatName ("@" ++ key)) WELCOME (net_send e2 (ChatName ("@" ++ key)) WELCOME)
     ∈ run.2.
Proof.
  intros frm key w paid Hn Hstart Hsplit Hfree s1 run.
  assert (Hkey : grant_key key = "@" ++ key) by (apply grant_key_of_id; exact Hn).
  assert (Hneq : "@" ++ key <> key).
  { apply string_cons_neq. }
  assert (Hs1 : s1 = set_users (insert key (touch_user (user_of s key) (isoformat now1) (Some n) (Some w)))
                       (set_wallet_map (insert w key) s)).
  { unfold s1, handle_message. cbn [text from]. rewrite Hstart.
    rewrite handle_start_store, Hsplit. reflexivity. }
  assert (Hat : users s1 !! ("@" ++ key) = None).
  { rewrite Hs1. simpl. rewrite lookup_insert_ne by congruence. exact Hfree. }
  split; [| split; [| split; [| split; [| split]]]].
  - intros username Hat' Halnum. unfold grant_key. rewrite Hat', Halnum. reflexivity.
  - reflexivity.
  - rewrite Hs1. simpl. apply lookup_insert_eq.
  - unfold run, grant_access_to. simpl. rewrite Hkey.
    rewrite lookup_insert_eq. unfold user_of. rewrite Hat. reflexivity.
  - unfold run, grant_access_to. simpl. rewrite Hkey.
    rewrite lookup_insert_ne by exact Hneq.
    rewrite Hs1. simpl. rewrite lookup_insert_eq.
    unfold touch_user, user_of. simpl.
    destruct (users s !! key) as [r |]; simpl; [destruct (join r) |]; reflexivity.
  - unfold run, grant_access_to, send_message. simpl. rewrite Hkey.
    unfold user_of. rewrite Hat. simpl.
    apply list_elem_of_further, list_elem_of_here.
Qed.

End GrantKey.

(** ** The status query *)

Section StatusFacts.

Context {rt : PyRuntime}.

Lemma myjoin_not_start t :
  PyStr.startswith "/myjoin" t = true -> PyStr.startswith "/start" t = false.
Proof.
  destruct t as [| c1 [| c2 t]]; [discriminate | |].
  - cbn [PyStr.startswith]. rewrite andb_false_r. discriminate.
  - cbn [PyStr.startswith].
    intros [_ [H2 _]%andb_prop]%andb_prop.
    apply Ascii.eqb_eq in H2. subst c2.
    apply andb_false_intro2. reflexivity.
Qed.

Lemma expire_of_unset : expire_of None = "N/A".
Proof. reflexivity. Qed.

Lemma expire_of_set l t :
  l <> EmptyString -> fromisoformat l = Some t -> 0 <= t + TTL <= DATETIME_MAX ->
  expire_of (Some l) = isoformat (t + TTL).
Proof.
  intros Hne Hparse Hrange. unfold expire_of.
  rewrite (truthy_nonempty _ Hne), Hparse. unfold datetime_add.
  replace ((0 <=? t + TTL) && (t + TTL <=? DATETIME_MAX))%bool with true; [reflexivity |].
  symmetry. apply andb_true_intro. split; apply Z.leb_le; lia.
Qed.

(** C7. [/myjoin] from a user without a record is answered with the
    instruction to register first.  For a user with a record it is
    answered with the join time, the last-paid time and an expiry:
    [N/A] when [last_paid] was never set, and the last-paid time plus
    30 days when [last_paid] reads as a timestamp (and the sum is a
    date the runtime can represent).  The store is not changed. *)
Theorem myjoin_reports_status e now s msg :
  let uname := sender_uname (from msg) in
  let to := chat_of (from_id (from msg)) in
  PyStr.startswith "/myjoin" (PyStr.lower (PyStr.strip (text msg))) = true ->
  (users s !! uname = None ->
   handle_message e now s msg = (s, send_message e to NO_RECORD_MSG, Ok tt))
  /\ (forall info,
        users s !! uname = Some info -> user_truthy info = true ->
        handle_message e now s msg
        = (s, send_message e to
                ("Joined: " ++ str_opt (fun x => x) (join info) ++ NL
                 ++ "Last paid: " ++ str_opt (fun x => x) (last_paid info) ++ NL
                 ++ "Expires: " ++ expire_of (last_paid info)), Ok tt)
        /\ (last_paid info = None -> expire_of (last_paid info) = "N/A")
        /\ (forall l t,
              last_paid info = Some l -> l <> EmptyString ->
              fromisoformat l = Some t -> 0 <= t + TTL <= DATETIME_MAX ->
              expire_of (last_paid info) = isoformat (t + TTL))).
Proof.
  intros uname to Hcmd.
  assert (Hrun : handle_message e now s msg = handle_myjoin e s uname (from_id (from msg))).
  { unfold handle_message. rewrite (myjoin_not_start _ Hcmd), Hcmd. reflexivity. }
  rewrite Hrun. unfold handle_myjoin. split.
  - intros ->. reflexivity.
  - intros info -> Htruthy. rewrite Htruthy. split; [reflexivity |]. split.
    + intros ->. reflexivity.
    + intros l t -> Hne Hparse Hrange. apply expire_of_set; assumption.
Qed.

End StatusFacts.

(** ** The expiry sweep *)

Section SweepFacts.

Context {rt : PyRuntime}.

Lemma lookup_drop_name (m : gmap string string) uname w :
  filter (fun wa : string * string => wa.2 <> uname) m !! w
  = match m !! w with
    | Some a => if decide (a = uname) then None else Some a
    | None => None
    end.
Proof.
  rewrite map_lookup_filter. destruct (m !! w) as [a |]; simpl; [| reflexivity].
  case_guard; case_decide; simpl in *; congruence.
Qed.

(** what the loop has done to the store after the entries [l] *)
Lemma sweep_fold e clock l : forall st,
  let st' := foldl (sweep_user e clock) st l in
  (forall k, users st'.1.1 !! k = if revoked clock l k then None else users st.1.1 !! k)
  /\ (forall w, wallet_map st'.1.1 !! w
                = match wallet_map st.1.1 !! w with
                  | Some a => if revoked clock l a then None else Some a
                  | None => None
                  end)
  /\ seen_tx st'.1.1 = seen_tx st.1.1.
Proof.
  induction l as [| [uname info] l IH]; intros [[s tr] ch]; simpl.
  - repeat split. intros w. destruct (wallet_map s !! w); reflexivity.
  - destruct (IH (sweep_user e clock (s, tr, ch) (uname, info))) as (IHu & IHw & IHs).
    unfold sweep_user in IHu, IHw, IHs |- *.
    destruct (expired (clock uname) uname info); simpl in *.
    + split; [| split].
      * intros k. rewrite IHu. rewrite andb_true_r.
        case_bool_decide as Hk; simpl.
        -- subst k. rewrite lookup_delete_eq. destruct (revoked clock l uname); reflexivity.
        -- rewrite lookup_delete_ne by assumption. reflexivity.
      * intros w. rewrite IHw, lookup_drop_name.
        destruct (wallet_map s !! w) as [a |]; [| reflexivity].
        rewrite andb_true_r.
        case_decide as Ha; case_bool_decide as Hb; simpl; try congruence; reflexivity.
      * exact IHs.
    + split; [| split].
      * intros k. rewrite IHu, andb_false_r. reflexivity.
      * intros w. rewrite IHw. destruct (wallet_map s !! w); [| reflexivity].
        rewrite andb_false_r. reflexivity.
      * exact IHs.
Qed.

Lemma revoked_map_to_list clock (m : gmap string user) k :
  revoked clock (map_to_list m) k
  = match m !! k with
    | Some info => expired (clock k) k info
    | None => false
    end.
Proof.
  unfold revoked.
  destruct (existsb _ _) eqn:Hex.
  - apply existsb_exists in Hex as ([u info] & Hin & Hb).
    apply andb_prop in Hb as [Hk Hexp]. apply bool_decide_eq_true in Hk. simpl in *. subst u.
    apply list_elem_of_In, elem_of_map_to_list in Hin. rewrite Hin. symmetry. exact Hexp.
  - destruct (m !! k) as [info |] eqn:Hk; [| reflexivity].
    destruct (expired (clock k) k info) eqn:Hexp; [| reflexivity].
    assert (Htrue : existsb (fun en : string * user =>
               bool_decide (en.1 = k) && expired (clock en.1) en.1 en.2)%bool
               (map_to_list m) = true); [| congruence].
    apply existsb_exists. exists (k, info). split.
    + apply list_elem_of_In, elem_of_map_to_list. exact Hk.
    + simpl. rewrite Hexp, bool_decide_eq_true_2; reflexivity.
Qed.

(** The store after one sweep: the expired records are gone, with the
    wallet entries that name them; everything else is as it was. *)
Lemma daily_expiry_check_store e clock s :
  let s' := (daily_expiry_check e clock s).1.1 in
  (forall k, users s' !! k = if revokes clock s k then None else users s !! k)
  /\ (forall w, wallet_map s' !! w
                = match wallet_map s !! w with
                  | Some a => if revokes clock s a then None else Some a
                  | None => None
                  end)
  /\ seen_tx s' = seen_tx s.
Proof.
  unfold daily_expiry_check.
  destruct (sweep_fold e clock (map_to_list (users s)) (s, [], false)) as (Hu & Hw & Hs).
  destruct (foldl _ _ _) as [[s' tr] ch]. simpl in Hu, Hw, Hs.
  assert (Hstore : (if ch then (s', (tr ++ (save_data e s').1)%list, (save_data e s').2)
                    else (s', tr, Ok tt)).1.1 = s') by (destruct ch; reflexivity).
  rewrite Hstore. clear Hstore.
  split; [| split].
  - intros k. rewrite Hu, revoked_map_to_list. reflexivity.
  - intros w. rewrite Hw. destruct (wallet_map s !! w) as [a |]; [| reflexivity].
    rewrite revoked_map_to_list. reflexivity.
  - exact Hs.
Qed.

Lemma store_eq (s t : store) :
  (forall k, users s !! k = users t !! k) ->
  (forall w, wallet_map s !! w = wallet_map t !! w) ->
  seen_tx s = seen_tx t -> s = t.
Proof.
  destruct s, t; simpl. intros Hu%map_eq Hw%map_eq ->. subst. reflexivity.
Qed.


Lemma expired_user_id now uname info uid :
  expired now uname
    {| join := join info; last_paid := last_paid info; wallet := wallet info; user_id := uid |}
  = expired now uname info.
Proof. reflexivity. Qed.

(** C6. The deletions of the sweep are unconditional: the store after
    the sweep is the same whatever the network does with the removal
    and notification calls, and a record the sweep finds expired is
    deleted with its wallet map entries whether or not a user id was
    stored for it (then no removal and no notification is attempted). *)
Theorem sweep_deletes_unconditionally e clock s :
  (forall e', (daily_expiry_check e' clock s).1.1 = (daily_expiry_check e clock s).1.1)
  /\ (forall uname info,
        users s !! uname = Some info ->
        expired (clock uname) uname info = true ->
        (forall uid,
            expired (clock uname) uname
              {| join := join info; last_paid := last_paid info;
                 wallet := wallet info; user_id := uid |} = true)
        /\ users (daily_expiry_check e clock s).1.1 !! uname = None
        /\ forall w, wallet_map s !! w = Some uname ->
                     wallet_map (daily_expiry_check e clock s).1.1 !! w = None).
Proof.
  split.
  - intros e'.
    destruct (daily_expiry_check_store e clock s) as (Hu & Hw & Hs).
    destruct (daily_expiry_check_store e' clock s) as (Hu' & Hw' & Hs').
    apply store_eq.
    + intros k. rewrite Hu, Hu'. reflexivity.
    + intros w. rewrite Hw, Hw'. reflexivity.
    + rewrite Hs, Hs'. reflexivity.
  - intros uname info Hinfo Hexp.
    destruct (daily_expiry_check_store e clock s) as (Hu & Hw & _).
    assert (Hrev : revokes clock s uname = true).
    { unfold revokes. rewrite Hinfo. exact Hexp. }
    split; [| split].
    + intros uid. rewrite expired_user_id. exact Hexp.
    + rewrite Hu, Hrev. reflexivity.
    + intros w Hwm. rewrite Hw, Hwm, Hrev. reflexivity.
Qed.

End SweepFacts.

(** ** Transfer records with missing or unreadable fields *)

Section TransferFacts.

Context {rt : PyRuntime}.

Lemma get3_absent k1 k2 k3 kvs :
  Py.assoc k1 kvs = None -> Py.assoc k2 kvs = None -> Py.assoc k3 kvs = None ->
  get3 k1 k2 k3 (JObj kvs) = Ok JNull.
Proof.
  intros H1 H2 H3. unfold get3, Py.get, Py.get_default. simpl.
  rewrite H1, H2, H3. reflexivity.
Qed.

Lemma get3_dict k1 k2 k3 kvs : exists v, get3 k1 k2 k3 (JObj kvs) = Ok v.
Proof.
  unfold get3, Py.get, Py.get_default. simpl.
  repeat (case_match; simpl); eauto.
Qed.

Lemma amount_of_unreadable amt :
  int_of amt = None -> float_of amt = None -> amount_of amt = 0.
Proof. intros Hi Hf. unfold amount_of. rewrite Hi, Hf. reflexivity. Qed.

Lemma malformed_item_lamports item : malformed item -> item_lamports item = Ok 0.
Proof.
  intros [kvs H1 H2 H3 | kvs (to & Hto & Hcase) H1 H2 H3
          | it amt (to & Hto & Hcase) Hamt Hi Hf]; unfold item_lamports.
  - rewrite (get3_absent _ _ _ _ H1 H2 H3). simpl.
    destruct (get3_dict "amount" "lamports" "value" kvs) as [v ->]. reflexivity.
  - rewrite Hto, (get3_absent _ _ _ _ H1 H2 H3). simpl.
    destruct Hcase as [-> | [d ->]]; [reflexivity |].
    simpl. rewrite andb_false_r. destruct d; reflexivity.
  - rewrite Hto, Hamt. simpl.
    destruct Hcase as [-> | [d ->]]; [reflexivity |].
    rewrite (amount_of_unreadable _ Hi Hf). simpl.
    destruct d; simpl; [reflexivity |]. case_match; reflexivity.
Qed.

Lemma sum_items_skip item :
  item_lamports item = Ok 0 ->
  forall before after lamports,
    sum_items lamports (before ++ item :: after) = sum_items lamports (before ++ after).
Proof.
  intros Hzero before after. induction before as [| x before IH]; intros lamports; simpl.
  - rewrite Hzero. simpl. rewrite Z.add_0_r. reflexivity.
  - destruct (item_lamports x) as [d | ex]; simpl; [apply IH | reflexivity].
Qed.

(** C8. A transfer record without a destination field, without an amount
    field, or with an amount that reads neither as an integer nor as a
    float adds zero to the sum and raises nothing: the loop gives the
    result it gives on the list without that record. *)
Theorem malformed_transfer_adds_nothing item :
  malformed item ->
  item_lamports item = Ok 0
  /\ forall before after lamports,
       sum_items lamports (before ++ item :: after) = sum_items lamports (before ++ after).
Proof.
  intros Hbad. pose proof (malformed_item_lamports item Hbad) as Hzero.
  split; [exact Hzero | apply sum_items_skip; exact Hzero].
Qed.

End TransferFacts.

(** ** The shape of the stores the program builds *)

Section StoreShape.

Context {rt : PyRuntime}.

Lemma string_of_list_all (p : ascii -> bool) l :
  PyStr.all_chars p (string_of_list_ascii l) = forallb p l.
Proof. induction l as [| c l IH]; simpl; [| rewrite IH]; reflexivity. Qed.

Lemma string_of_list_nonempty l : l <> [] -> string_of_list_ascii l <> EmptyString.
Proof. destruct l; [congruence | discriminate]. Qed.

(** every word of [s.split()] is non-empty and free of white space *)
Lemma split_go_words s : forall cur p,
  forallb not_space cur = true -> p ∈ PyStr.split_go cur s ->
  p <> EmptyString /\ PyStr.all_chars not_space p = true.
Proof.
  assert (Hflush : forall cur p,
             forallb not_space cur = true ->
             p ∈ match cur with
                 | [] => []
                 | _ => [string_of_list_ascii (List.rev cur)]
                 end ->
             p <> EmptyString /\ PyStr.all_chars not_space p = true).
  { intros cur p Hcur Hp. destruct cur as [| c cur]; [inversion Hp |].
    apply list_elem_of_singleton in Hp. subst p. split.
    - apply string_of_list_nonempty. simpl. intros Hnil.
      apply (f_equal (@List.length ascii)) in Hnil.
      rewrite List.length_app in Hnil. simpl in Hnil. lia.
    - rewrite string_of_list_all, forallb_forall. intros x Hx.
      apply List.in_rev in Hx. rewrite forallb_forall in Hcur. exact (Hcur x Hx). }
  induction s as [| c s IH]; intros cur p Hcur Hp; simpl in Hp.
  - exact (Hflush cur p Hcur Hp).
  - destruct (PyStr.is_space c) eqn:Hc.
    + apply elem_of_app in Hp as [Hp | Hp]; [exact (Hflush cur p Hcur Hp) |].
      exact (IH [] p eq_refl Hp).
    + apply (IH (c :: cur) p); [| exact Hp].
      simpl. unfold not_space at 1. rewrite Hc, Hcur. reflexivity.
Qed.

Lemma lstrip_no_space p : PyStr.all_chars not_space p = true -> PyStr.lstrip p = p.
Proof.
  destruct p as [| c p]; [reflexivity |]. simpl.
  intros [Hc _]%andb_prop. unfold not_space in Hc.
  apply negb_true_iff in Hc. rewrite Hc. reflexivity.
Qed.

Lemma rstrip_no_space p : PyStr.all_chars not_space p = true -> PyStr.rstrip p = p.
Proof.
  induction p as [| c p IH]; [reflexivity |]. simpl.
  intros [Hc Hp]%andb_prop. rewrite (IH Hp).
  unfold not_space in Hc. apply negb_true_iff in Hc. rewrite Hc.
  destruct p; reflexivity.
Qed.

(** [parts[1].strip()] is [parts[1]], a non-empty string *)
Lemma strip_word txt p :
  p ∈ PyStr.split txt -> PyStr.strip p = p /\ p <> EmptyString.
Proof.
  intros Hp. destruct (split_go_words txt [] p eq_refl Hp) as [Hne Hall].
  split; [| exact Hne].
  unfold PyStr.strip. rewrite (lstrip_no_space _ Hall). apply rstrip_no_space. exact Hall.
Qed.

Lemma sender_uname_nonempty frm : sender_uname frm <> EmptyString.
Proof.
  assert (Hid : str_opt PyStr.of_Z (from_id frm) <> EmptyString).
  { destruct (from_id frm) as [n |]; simpl; [| discriminate].
    unfold PyStr.of_Z. destruct (Z.to_int n) as [d | d]; simpl; [| discriminate].
    unfold NilZero.string_of_uint. destruct d; discriminate. }
  unfold sender_uname. destruct (from_username frm) as [n |]; [| exact Hid].
  destruct (PyStr.truthy n); [discriminate | exact Hid].
Qed.

Lemma wf_store_empty : wf_store empty_store.
Proof.
  split; intros k u Hk; simpl in Hk; rewrite lookup_empty in Hk; discriminate.
Qed.

Lemma wf_users_insert s k u :
  wf_users s -> is_Some (join u) -> wf_users (set_users (insert k u) s).
Proof.
  intros Hwf Hu k' u' Hk'. simpl in Hk'.
  destruct (decide (k = k')) as [-> | Hne].
  - rewrite lookup_insert_eq in Hk'. congruence.
  - rewrite lookup_insert_ne in Hk' by assumption. exact (Hwf _ _ Hk').
Qed.

Lemma touch_user_join u now uid w : is_Some (join (touch_user u now uid w)).
Proof. unfold touch_user; simpl. destruct (join u); eauto. Qed.

Lemma handle_message_wf e now s msg :
  wf_store s -> wf_store (handle_message e now s msg).1.1.
Proof.
  intros [Hu Hw]. unfold handle_message.
  set (txt := PyStr.strip (text msg)).
  destruct (PyStr.startswith "/start" _).
  - rewrite handle_start_store.
    destruct (PyStr.split txt) as [| c [| p1 rest]] eqn:Hsplit; simpl.
    + split; [| exact Hw]. apply (wf_users_insert s); [exact Hu | apply touch_user_join].
    + split; [| exact Hw]. apply (wf_users_insert s); [exact Hu | apply touch_user_join].
    + split.
      * apply (wf_users_insert (set_wallet_map _ s)); [exact Hu | apply touch_user_join].
      * intros w a Hwa. simpl in Hwa.
        destruct (decide (PyStr.strip p1 = w)) as [<- | Hne].
        -- rewrite lookup_insert_eq in Hwa. injection Hwa as <-.
           assert (Hp1 : p1 ∈ PyStr.split txt).
           { rewrite Hsplit. apply list_elem_of_further, list_elem_of_here. }
           destruct (strip_word txt p1 Hp1) as [-> Hne].
           split; [exact Hne | apply sender_uname_nonempty].
        -- rewrite lookup_insert_ne in Hwa by assumption. exact (Hw _ _ Hwa).
  - destruct (PyStr.startswith "/myjoin" _); [| split; assumption].
    unfold handle_myjoin. repeat case_match; split; assumption.
Qed.

Lemma grant_access_to_wf e now s username w sig :
  wf_store s -> wf_store (grant_access_to e now s username w sig).1.1.
Proof.
  intros [Hu Hw]. unfold grant_access_to; simpl. split; [| exact Hw].
  apply (wf_users_insert s); [exact Hu |]. simpl. destruct (join _); eauto.
Qed.

Lemma handle_new_payment_wf e now s tx :
  wf_store s -> wf_store (handle_new_payment e now s tx).1.1.
Proof.
  intros Hwf. unfold handle_new_payment.
  destruct (tx_sig tx) as [sig |]; [| exact Hwf].
  destruct (bool_decide _); [exact Hwf |].
  set (s1 := set_seen_tx _ s).
  assert (Hwf1 : wf_store s1) by exact Hwf.
  destruct (try_payment_cases e now s1 sig (net_detail e sig))
    as [[Hs _] | (w & u & Heq & _)].
  - destruct (try_payment _ _ _ _ _) as [[s2 tr] res]. simpl in *. subst s2. exact Hwf1.
  - rewrite Heq. exact (grant_access_to_wf e now s1 u w sig Hwf1).
Qed.

Lemma daily_expiry_check_wf e clock s :
  wf_store s -> wf_store (daily_expiry_check e clock s).1.1.
Proof.
  intros [Hu Hw].
  destruct (daily_expiry_check_store e clock s) as (Hus & Hws & _).
  split.
  - intros k u Hk. rewrite Hus in Hk.
    destruct (revokes clock s k); [discriminate | exact (Hu _ _ Hk)].
  - intros w a Hwa. rewrite Hws in Hwa.
    destruct (wallet_map s !! w) as [a' |] eqn:Hw'; [| discriminate].
    destruct (revokes clock s a'); [discriminate |].
    injection Hwa as <-. exact (Hw _ _ Hw').
Qed.

(** a record with a join time is a true value: [/myjoin] reports on it *)
Lemma wf_users_truthy s k u : wf_users s -> users s !! k = Some u -> user_truthy u = true.
Proof.
  intros Hwf Hk. destruct (Hwf _ _ Hk) as [j Hj].
  unfold user_truthy. rewrite Hj. reflexivity.
Qed.

End StoreShape.

(** ** The theorems at the scenarios of the specification *)

#[local] Existing Instance Sim.runtime.

(** C1 at scenario 3: alice's payment, processed again on day 3. *)
Lemma handle_new_payment_idempotent_witness :
  tx_sig Sim.tx1 = Some "sig1"
  /\ handle_new_payment Sim.offline (Sim.day 3) Sim.paid Sim.tx1 = (Sim.paid, [], Ok tt).
Proof.
  split; [reflexivity |].
  exact (proj2 (handle_new_payment_idempotent (rt := Sim.runtime)
                  Sim.offline (Sim.day 3) Sim.registered Sim.tx1 "sig1" eq_refl)
           Sim.paying (Sim.day 2)).
Defined.

(** C4 at scenario 2: the payment not yet seen, then processed again. *)
Lemma handle_new_payment_fail_closed_witness :
  tx_sig Sim.tx1 = Some "sig1" /\ ("sig1" ∉ seen_tx Sim.registered)
  /\ seen_tx Sim.paid = ["sig1"]
  /\ handle_new_payment Sim.offline (Sim.day 3) Sim.paid Sim.tx1 = (Sim.paid, [], Ok tt).
Proof.
  assert (Hnew : "sig1" ∉ seen_tx Sim.registered) by by_evaluation.
  destruct (handle_new_payment_fail_closed (rt := Sim.runtime)
              Sim.paying (Sim.day 2) Sim.registered Sim.tx1 "sig1" eq_refl Hnew)
    as (Hrun & Hseen & Hagain).
  split; [reflexivity | split; [exact Hnew | split]].
  - vm_compute. reflexivity.
  - replace Sim.paid
      with (try_payment (rt := Sim.runtime) Sim.paying (Sim.day 2)
              (set_seen_tx (fun l => (l ++ ["sig1"])%list) Sim.registered) "sig1"
              (net_detail Sim.paying "sig1")).1.1
      by (unfold Sim.paid; rewrite Hrun; reflexivity).
    apply Hagain.
Defined.




(** C5 at scenario 2: the payment keeps the join time of the registration. *)
Lemma join_never_rewritten_witness :
  users Sim.registered !! "@alice" = Some Sim.alice_registered
  /\ exists r', users Sim.paid !! "@alice" = Some r'
                /\ join_kept "172800000000" Sim.alice_registered r'.
Proof.
  assert (Hrec : users Sim.registered !! "@alice" = Some Sim.alice_registered)
    by (vm_compute; reflexivity).
  split; [exact Hrec |].
  exact (proj2 (proj2 (join_never_rewritten (rt := Sim.runtime)
                         Sim.registered "@alice" Sim.alice_registered Hrec))
           Sim.paying (Sim.day 2) Sim.tx1).
Defined.

(** C6 at scenario 4, with a network that answers and one that does not. *)
Lemma sweep_deletes_unconditionally_witness :
  users Sim.paid !! "@alice" = Some Sim.alice_paid
  /\ (daily_expiry_check Sim.paying (fun _ => Sim.day 33) Sim.paid).1.1
     = (daily_expiry_check Sim.offline (fun _ => Sim.day 33) Sim.paid).1.1
  /\ users (daily_expiry_check Sim.offline (fun _ => Sim.day 33) Sim.paid).1.1 !! "@alice" = None.
Proof.
  assert (Hrec : users Sim.paid !! "@alice" = Some Sim.alice_paid) by (vm_compute; reflexivity).
  assert (Hexp : expired (rt := Sim.runtime) (Sim.day 33) "@alice" Sim.alice_paid = true)
    by (vm_compute; reflexivity).
  destruct (sweep_deletes_unconditionally (rt := Sim.runtime)
              Sim.offline (fun _ => Sim.day 33) Sim.paid) as [Henv Hdel].
  split; [exact Hrec | split].
  - apply Henv.
  - exact (proj1 (proj2 (Hdel "@alice" Sim.alice_paid Hrec Hexp))).
Defined.

(** C7 at scenario 1: registered, never paid. *)
Lemma myjoin_reports_status_witness :
  PyStr.startswith "/myjoin" (PyStr.lower (PyStr.strip " /MyJoin ")) = true
  /\ users Sim.registered !! "@alice" = Some Sim.alice_registered
  /\ user_truthy Sim.alice_registered = true
  /\ expire_of (rt := Sim.runtime) (last_paid Sim.alice_registered) = "N/A".
Proof.
  assert (Hcmd : PyStr.startswith "/myjoin" (PyStr.lower (PyStr.strip " /MyJoin ")) = true)
    by reflexivity.
  assert (Hrec : users Sim.registered !! "@alice" = Some Sim.alice_registered)
    by (vm_compute; reflexivity).
  split; [exact Hcmd | split; [exact Hrec | split; [reflexivity |]]].
  exact (proj1 (proj2 (proj2 (myjoin_reports_status (rt := Sim.runtime)
                                Sim.offline (Sim.day 1) Sim.registered
                                {| text := " /MyJoin "; from := Sim.alice |} Hcmd)
                         Sim.alice_registered Hrec eq_refl))
           eq_refl).
Defined.

(** C8 at a transfer whose amount is not a number. *)
Lemma malformed_transfer_adds_nothing_witness :
  malformed (rt := Sim.runtime) (JObj [("to", JStr WALLET); ("amount", JStr "abc")])
  /\ item_lamports (rt := Sim.runtime) (JObj [("to", JStr WALLET); ("amount", JStr "abc")]) = Ok 0.
Proof.
  assert (Hbad : malformed (rt := Sim.runtime)
                   (JObj [("to", JStr WALLET); ("amount", JStr "abc")])).
  { apply (bad_amount _ (JStr "abc")); try reflexivity.
    exists (JStr WALLET). split; [reflexivity | right; eexists; reflexivity]. }
  split; [exact Hbad |].
  exact (proj1 (malformed_transfer_adds_nothing (rt := Sim.runtime) _ Hbad)).
Defined.

(** C9: alice sends [/start WalletB] after [/start WalletA]. *)
Lemma start_remaps_wallet_witness :
  users Sim.registered !! "@alice" = Some Sim.alice_registered
  /\ wallet_map Sim.registered !! "WalletA" = Some "@alice"
  /\ wallet_map (handle_message Sim.offline (Sim.day 5) Sim.registered
                   {| text := "/start WalletB"; from := Sim.alice |}).1.1 !! "WalletA"
     = Some "@alice".
Proof.
  assert (Hrec : users Sim.registered !! "@alice" = Some Sim.alice_registered)
    by (vm_compute; reflexivity).
  assert (Hold : wallet_map Sim.registered !! "WalletA" = Some "@alice")
    by (vm_compute; reflexivity).
  split; [exact Hrec | split; [exact Hold |]].
  refine (proj1 (proj2 (start_remaps_wallet (rt := Sim.runtime)
                         Sim.offline (Sim.day 5) Sim.registered
                         {| text := "/start WalletB"; from := Sim.alice |}
                         "/start" "WalletB" [] Sim.alice_registered "86400000000" "WalletA"
                         _ _ Hrec _ Hold _))).
  - reflexivity.
  - reflexivity.
  - reflexivity.
  - vm_compute. discriminate.
Defined.

(** C10: a sender without handle, id 12345. *)
Lemma grant_for_numeric_id_splits_record_witness :
  0 <= 12345
  /\ users (grant_access_to Sim.paying (Sim.day 2)
              (handle_message Sim.offline (Sim.day 1) empty_store
                 {| text := "/start WalletC"; from := Sim.anon |}).1.1
              "12345" "WalletC" "sig9").1.1 !! "@12345"
     = Some {| join := Some "172800000000"; last_paid := Some "172800000000";
               wallet := Some "WalletC"; user_id := None |}.
Proof.
  assert (Hn : 0 <= 12345) by lia.
  split; [exact Hn |].
  refine (proj1 (proj2 (proj2 (proj2
            (grant_for_numeric_id_splits_record (rt := Sim.runtime)
               Sim.offline (Sim.day 1) Sim.paying (Sim.day 2) empty_store 12345
               "/start" "WalletC" [] "/start WalletC" "sig9" Hn _ _ _))))).
  - reflexivity.
  - reflexivity.
  - reflexivity.
Defined.

(** * Further properties *)

(** ** The whitelist test *)

Lemma lower_char_idem c : PyStr.lower_char (PyStr.lower_char c) = PyStr.lower_char c.
Proof. destruct c as [[] [] [] [] [] [] [] []]; reflexivity. Qed.

Lemma lower_char_at c : Ascii.eqb (PyStr.lower_char c) "@" = Ascii.eqb c "@".
Proof. destruct c as [[] [] [] [] [] [] [] []]; reflexivity. Qed.

Lemma lower_idem s : PyStr.lower (PyStr.lower s) = PyStr.lower s.
Proof. induction s as [| c s IH]; simpl; [| rewrite lower_char_idem, IH]; reflexivity. Qed.

(** [lstrip_at], by cases on whether the first character is [@] *)
Lemma lstrip_at_cons c s :
  PyStr.lstrip_at (String c s) = if Ascii.eqb c "@" then PyStr.lstrip_at s else String c s.
Proof. destruct c as [[] [] [] [] [] [] [] []]; reflexivity. Qed.

Lemma lstrip_at_idem s : PyStr.lstrip_at (PyStr.lstrip_at s) = PyStr.lstrip_at s.
Proof.
  induction s as [| c s IH]; [reflexivity |].
  rewrite lstrip_at_cons. destruct (Ascii.eqb c "@") eqn:Hc; [exact IH |].
  rewrite lstrip_at_cons, Hc. reflexivity.
Qed.

Lemma lstrip_at_lower s : PyStr.lstrip_at (PyStr.lower s) = PyStr.lower (PyStr.lstrip_at s).
Proof.
  induction s as [| c s IH]; [reflexivity |].
  cbn [PyStr.lower]. rewrite !lstrip_at_cons, lower_char_at.
  destruct (Ascii.eqb c "@"); [exact IH | reflexivity].
Qed.

Lemma norm_username_eq u : norm_username u = PyStr.lstrip_at (PyStr.lower u).
Proof. destruct u; reflexivity. Qed.

Lemma is_whitelisted_at u : is_whitelisted ("@" ++ u) = is_whitelisted u.
Proof. unfold is_whitelisted. rewrite !norm_username_eq. reflexivity. Qed.

(** X1. The whitelist test reads a name up to case and leading [@]s:
    [norm_username] is idempotent, and [is_whitelisted] gives the same
    answer for a name, its normal form, its lower-case form and the name
    with one more [@] in front. *)
Theorem is_whitelisted_up_to_case_and_at u :
  norm_username (norm_username u) = norm_username u
  /\ is_whitelisted (norm_username u) = is_whitelisted u
  /\ is_whitelisted (PyStr.lower u) = is_whitelisted u
  /\ is_whitelisted ("@" ++ u) = is_whitelisted u.
Proof.
  assert (Hidem : norm_username (norm_username u) = norm_username u).
  { rewrite !norm_username_eq, lstrip_at_lower, lstrip_at_idem, <- lstrip_at_lower, lower_idem.
    reflexivity. }
  split; [exact Hidem |]. split; [| split].
  - unfold is_whitelisted. rewrite Hidem. reflexivity.
  - unfold is_whitelisted. rewrite !norm_username_eq, lower_idem. reflexivity.
  - apply is_whitelisted_at.
Qed.

Lemma lower_digits s :
  PyStr.all_chars PyStr.is_digit s = true -> PyStr.lower s = s.
Proof.
  induction s as [| c s IH]; [reflexivity |]. simpl.
  intros [Hc Hs]%andb_prop. rewrite (IH Hs). f_equal.
  destruct c as [[] [] [] [] [] [] [] []]; try reflexivity; discriminate Hc.
Qed.

Lemma not_whitelisted_digits s :
  PyStr.all_chars PyStr.is_digit s = true -> is_whitelisted s = false.
Proof.
  intros Hd. unfold is_whitelisted. apply bool_decide_eq_false_2.
  rewrite norm_username_eq, (lower_digits _ Hd).
  assert (Hs : PyStr.lstrip_at s = s).
  { destruct s as [| c s']; [reflexivity |]. rewrite lstrip_at_cons.
    simpl in Hd. apply andb_prop in Hd as [Hc _].
    destruct (Ascii.eqb_spec c "@") as [-> | _]; [discriminate Hc | reflexivity]. }
  rewrite Hs. unfold WL_SET. rewrite elem_of_list_to_set.
  change (map (fun u => PyStr.lstrip_at (PyStr.lower u)) WHITELIST)
    with ["leopex1"; "degenetive"; "slcscannerbot"; "steez431"; "cripplingdegen";
          "arc"; "moneymalicia"].
  intros Hin.
  repeat (apply elem_of_cons in Hin as [-> | Hin]; [discriminate Hd |]).
  inversion Hin.
Qed.

(** X2. A sender without a display handle can never be exempt: the key
    of the record is the decimal form of the numeric id, and neither it
    nor the key [@<id>] under which a grant is filed passes the whitelist
    test. *)
Theorem numeric_id_never_whitelisted n :
  0 <= n ->
  is_whitelisted (sender_uname {| from_username := None; from_id := Some n |}) = false
  /\ is_whitelisted (grant_key (PyStr.of_Z n)) = false.
Proof.
  intros Hn. destruct (of_Z_digits n Hn) as [_ Hd].
  pose proof (not_whitelisted_digits _ Hd) as Hwl.
  split; [exact Hwl |].
  rewrite (grant_key_of_id n Hn).
  rewrite is_whitelisted_at. exact Hwl.
Qed.

(** ** More on the expiry sweep *)

Section MoreSweepFacts.

Context {rt : PyRuntime}.

Lemma sweep_user_cases e clock s tr ch uname info :
  sweep_user e clock (s, tr, ch) (uname, info)
  = if expired (clock uname) uname info
    then (set_wallet_map (filter (fun wa : string * string => wa.2 <> uname))
            (set_users (delete uname) s),
          (tr ++ sweep_notice e info)%list, true)
    else (s, tr, ch).
Proof.
  unfold sweep_user, sweep_notice, EXPIRED_MSG.
  destruct (expired _ _ _); [| reflexivity].
  destruct (user_id info) as [n |]; [destruct (n =? 0) |]; reflexivity.
Qed.

(** the calls and the flag of the loop after the entries [l] *)
Lemma sweep_fold_calls e clock l : forall st x,
  let st' := foldl (sweep_user e clock) st l in
  (x ∈ st'.1.2 <->
     x ∈ st.1.2
     \/ exists k info, (k, info) ∈ l /\ expired (clock k) k info = true
                       /\ x ∈ sweep_notice e info)
  /\ (st'.2 = true <->
        st.2 = true \/ exists k info, (k, info) ∈ l /\ expired (clock k) k info = true).
Proof.
  induction l as [| [uname info] l IH]; intros [[s tr] ch] x.
  - simpl. split; split; try tauto.
    + intros [H | (k & i & Hin & _)]; [exact H | inversion Hin].
    + intros [H | (k & i & Hin & _)]; [exact H | inversion Hin].
  - cbn [foldl]. cbv zeta.
    destruct (IH (sweep_user e clock (s, tr, ch) (uname, info)) x) as [IHx IHc].
    rewrite sweep_user_cases in IHx, IHc |- *.
    destruct (expired (clock uname) uname info) eqn:Hexp; cbn [fst snd] in *.
    + split.
      * rewrite IHx, elem_of_app. split.
        -- intros [[H | H] | (k & i & Hin & He & Hx)].
           ++ left; exact H.
           ++ right. exists uname, info. split; [apply list_elem_of_here | auto].
           ++ right. exists k, i. split; [apply list_elem_of_further; exact Hin | auto].
        -- intros [H | (k & i & Hin & He & Hx)]; [left; left; exact H |].
           apply elem_of_cons in Hin as [Heq | Hin].
           ++ injection Heq as -> ->. left; right; exact Hx.
           ++ right. exists k, i. auto.
      * rewrite IHc. split; [| auto]. intros _. right.
        exists uname, info. split; [apply list_elem_of_here | exact Hexp].
    + split.
      * rewrite IHx. split.
        -- intros [H | (k & i & Hin & He & Hx)]; [left; exact H |].
           right. exists k, i. split; [apply list_elem_of_further; exact Hin | auto].
        -- intros [H | (k & i & Hin & He & Hx)]; [left; exact H |].
           apply elem_of_cons in Hin as [Heq | Hin].
           ++ injection Heq as -> ->. congruence.
           ++ right. exists k, i. auto.
      * rewrite IHc. split.
        -- intros [H | (k & i & Hin & He)]; [left; exact H |].
           right. exists k, i. split; [apply list_elem_of_further; exact Hin | auto].
        -- intros [H | (k & i & Hin & He)]; [left; exact H |].
           apply elem_of_cons in Hin as [Heq | Hin].
           ++ injection Heq as -> ->. congruence.
           ++ right. exists k, i. auto.
Qed.

(** a pass in which no entry is expired does not move *)
Lemma sweep_fold_idle e clock l : forall st,
  (forall k info, (k, info) ∈ l -> expired (clock k) k info = false) ->
  foldl (sweep_user e clock) st l = st.
Proof.
  induction l as [| [uname info] l IH]; intros [[s tr] ch] Hl; [reflexivity |].
  cbn [foldl]. rewrite sweep_user_cases, (Hl uname info) by apply list_elem_of_here.
  apply IH. intros k i Hin. apply Hl. apply list_elem_of_further. exact Hin.
Qed.

Lemma daily_expiry_check_idle e clock s :
  (forall k info, users s !! k = Some info -> expired (clock k) k info = false) ->
  daily_expiry_check e clock s = (s, [], Ok tt).
Proof.
  intros Hnone. unfold daily_expiry_check.
  rewrite sweep_fold_idle; [reflexivity |].
  intros k info Hin. apply elem_of_map_to_list in Hin. exact (Hnone k info Hin).
Qed.

(** X3. The sweep touches nothing but what it revokes: a record that is
    not expired at its turn stays as it is, a wallet entry stays unless
    the record of the name it holds is revoked, no record and no wallet
    entry appears, and [seen_tx] is left alone. *)
Theorem sweep_leaves_the_rest e clock s :
  let s' := (daily_expiry_check e clock s).1.1 in
  (forall k info,
      users s !! k = Some info -> expired (clock k) k info = false ->
      users s' !! k = Some info)
  /\ (forall k info, users s' !! k = Some info -> users s !! k = Some info)
  /\ (forall w a,
        wallet_map s !! w = Some a -> revokes clock s a = false ->
        wallet_map s' !! w = Some a)
  /\ (forall w a, wallet_map s' !! w = Some a -> wallet_map s !! w = Some a)
  /\ seen_tx s' = seen_tx s.
Proof.
  intros s'. destruct (daily_expiry_check_store e clock s) as (Hu & Hw & Hs).
  fold s' in Hu, Hw, Hs. split; [| split; [| split; [| split]]].
  - intros k info Hk Hexp. rewrite Hu. unfold revokes. rewrite Hk, Hexp. reflexivity.
  - intros k info Hk. rewrite Hu in Hk. destruct (revokes clock s k); [discriminate | exact Hk].
  - intros w a Hwa Hrev. rewrite Hw, Hwa, Hrev. reflexivity.
  - intros w a Hwa. rewrite Hw in Hwa.
    destruct (wallet_map s !! w) as [a' |]; [| discriminate].
    destruct (revokes clock s a'); [discriminate | exact Hwa].
  - exact Hs.
Qed.

(** X4. The sweep is silent exactly when nothing is expired: it returns
    the store as it was, with no call made and the data file not
    written, if and only if no record is expired at its turn. *)
Theorem sweep_silent_iff_nothing_expired e clock s :
  (forall k info, users s !! k = Some info -> expired (clock k) k info = false)
  <-> daily_expiry_check e clock s = (s, [], Ok tt).
Proof.
  split; [apply daily_expiry_check_idle |].
  intros Hrun k info Hk.
  destruct (expired (clock k) k info) eqn:Hexp; [exfalso | reflexivity].
  unfold daily_expiry_check in Hrun.
  destruct (sweep_fold_calls e clock (map_to_list (users s)) (s, [], false)
              ExportChatInviteLink) as [_ Hflag].
  destruct (foldl _ _ _) as [[s' tr] ch]. simpl in Hflag.
  assert (Hch : ch = true).
  { apply Hflag. right. exists k, info. rewrite elem_of_map_to_list. auto. }
  subst ch. unfold save_data in Hrun. simpl in Hrun.
  injection Hrun as _ Htr _. destruct tr; discriminate Htr.
Qed.

(** X5. A second sweep with the same clock readings finds nothing to do,
    whatever the network and the disk did in the first: no call, no
    write, the same store. *)
Theorem sweep_twice e e' clock s :
  let s' := (daily_expiry_check e clock s).1.1 in
  daily_expiry_check e' clock s' = (s', [], Ok tt).
Proof.
  intros s'. apply daily_expiry_check_idle. intros k info Hk.
  destruct (daily_expiry_check_store e clock s) as (Hu & _ & _). fold s' in Hu.
  rewrite Hu in Hk. unfold revokes in Hk.
  destruct (users s !! k) as [info' |] eqn:Hk'.
  - destruct (expired (clock k) k info') eqn:Hexp; [discriminate |].
    injection Hk as <-. exact Hexp.
  - discriminate.
Qed.

(** the store of a sweep, written out *)
Lemma daily_expiry_check_swept e clock s :
  (daily_expiry_check e clock s).1.1 = swept clock s.
Proof.
  destruct (daily_expiry_check_store e clock s) as (Hu & Hw & Hs).
  apply store_eq; [| | exact Hs].
  - intros k. rewrite Hu. unfold swept, revokes. cbn [users].
    rewrite map_lookup_filter. destruct (users s !! k) as [info |]; simpl; [| reflexivity].
    case_guard as Hg; simpl in *; destruct (expired (clock k) k info); congruence.
  - intros w. rewrite Hw. unfold swept. cbn [wallet_map].
    rewrite map_lookup_filter. destruct (wallet_map s !! w) as [a |]; simpl; [| reflexivity].
    case_guard as Hg; simpl in *; destruct (revokes clock s a); congruence.
Qed.

(** the calls and the flag of the loop after the entries [l] *)
Lemma sweep_fold_trace e clock l : forall st,
  let gone := filter (fun en : string * user => expired (clock en.1) en.1 en.2 = true) l in
  let st' := foldl (sweep_user e clock) st l in
  st'.1.2 = (st.1.2 ++ flat_map (fun en => sweep_notice e en.2) gone)%list
  /\ st'.2 = match gone with [] => st.2 | _ => true end.
Proof.
  induction l as [| [uname info] l IH]; intros [[s tr] ch]; cbv zeta.
  - cbn. rewrite app_nil_r. auto.
  - cbn [foldl]. specialize (IH (sweep_user e clock (s, tr, ch) (uname, info))).
    cbv zeta in IH. destruct IH as [IHtr IHch]. rewrite IHtr, IHch.
    rewrite sweep_user_cases, filter_cons. cbn [fst snd].
    destruct (expired (clock uname) uname info) eqn:Hexp.
    + rewrite decide_True by reflexivity. cbn [fst snd flat_map].
      rewrite <- app_assoc. split; [reflexivity |].
      destruct (filter _ l); reflexivity.
    + rewrite decide_False by discriminate. cbn [fst snd]. auto.
Qed.

Lemma expired_entries_spec clock s :
  NoDup (expired_entries clock s)
  /\ forall k info, (k, info) ∈ expired_entries clock s
                    <-> users s !! k = Some info /\ expired (clock k) k info = true.
Proof.
  unfold expired_entries. split.
  - apply NoDup_filter, NoDup_map_to_list.
  - intros k info. rewrite list_elem_of_filter, elem_of_map_to_list. cbn. tauto.
Qed.

(** X6. A sweep, in full.  Its store is the old one without the expired
    records and without the wallet entries that name them.  Its calls
    are, for the expired records taken one after the other, each once
    (in the order of the dictionary, which the embedding leaves open),
    the removal from the group and then the notification for a record
    with a non-zero user id and nothing for a record without; then, if
    some record was revoked, one write of the data file with that store,
    and no write otherwise.  The result is that of this write: [OSError]
    exactly when a record was revoked and the write fails. *)
Theorem sweep_calls e clock s :
  exists gone : list (string * user),
    NoDup gone
    /\ (forall k info, (k, info) ∈ gone
                       <-> users s !! k = Some info /\ expired (clock k) k info = true)
    /\ daily_expiry_check e clock s
       = (swept clock s, sweep_trace e gone (swept clock s),
          match gone with
          | [] => Ok tt
          | _ => if disk_ok e (swept clock s) then Ok tt else Raise OSError
          end).
Proof.
  exists (expired_entries clock s).
  destruct (expired_entries_spec clock s) as [Hnd Hin].
  split; [exact Hnd | split; [exact Hin |]].
  pose proof (daily_expiry_check_swept e clock s) as Hstore.
  unfold daily_expiry_check in Hstore |- *.
  destruct (sweep_fold_trace e clock (map_to_list (users s)) (s, [], false)) as [Htr Hch].
  fold (expired_entries clock s) in Htr, Hch.
  destruct (foldl _ _ _) as [[s' tr] ch]. cbn [fst snd] in Htr, Hch.
  subst tr ch. unfold sweep_trace, save_data.
  destruct (expired_entries clock s) as [| en gone]; cbn [fst snd] in Hstore |- *.
  - rewrite Hstore. rewrite app_nil_r. reflexivity.
  - rewrite Hstore. cbn [app]. reflexivity.
Qed.

(** X7. A record whose last activity cannot be read as a timestamp, or
    that has neither [last_paid] nor [join], is never removed, whatever
    the clock reads. *)
Theorem unreadable_record_never_expires e clock s k info :
  users s !! k = Some info ->
  last_active info = None
  \/ (exists last, last_active info = Some last /\ fromisoformat last = None) ->
  users (daily_expiry_check e clock s).1.1 !! k = Some info.
Proof.
  intros Hk Hbad.
  destruct (daily_expiry_check_store e clock s) as (Hu & _ & _).
  rewrite Hu. unfold revokes. rewrite Hk.
  assert (Hexp : expired (clock k) k info = false).
  { unfold expired. destruct (is_whitelisted k); [reflexivity |].
    destruct Hbad as [-> | (last & -> & ->)]; reflexivity. }
  rewrite Hexp. reflexivity.
Qed.

End MoreSweepFacts.

(** ** How long a membership lasts *)

Section MembershipFacts.

Context {rt : PyRuntime}.

Lemma last_active_paid r iso :
  last_paid r = Some iso -> iso <> EmptyString -> last_active r = Some iso.
Proof.
  intros Hp Hne. unfold last_active. rewrite Hp, (truthy_nonempty _ Hne). reflexivity.
Qed.

Lemma last_active_joined r iso :
  last_paid r = None -> join r = Some iso -> iso <> EmptyString ->
  last_active r = Some iso.
Proof.
  intros Hp Hj Hne. unfold last_active. rewrite Hp, Hj, (truthy_nonempty _ Hne). reflexivity.
Qed.

(** when the sweep looks at a record whose last activity reads as [t] *)
Lemma expired_at now k r iso t :
  last_active r = Some iso -> fromisoformat iso = Some t ->
  expired now k r = if is_whitelisted k then false else TTL <? now - t.
Proof. intros Ha Hf. unfold expired. rewrite Ha, Hf. reflexivity. Qed.

Lemma sweep_record e clock s k r iso t :
  users s !! k = Some r ->
  last_active r = Some iso -> fromisoformat iso = Some t ->
  users (daily_expiry_check e clock s).1.1 !! k
  = if is_whitelisted k then Some r
    else if TTL <? clock k - t then None else Some r.
Proof.
  intros Hk Ha Hf.
  destruct (daily_expiry_check_store e clock s) as (Hu & _ & _).
  rewrite Hu. unfold revokes. rewrite Hk, (expired_at _ _ _ _ _ Ha Hf).
  destruct (is_whitelisted k); [reflexivity |]. destruct (TTL <? clock k - t); reflexivity.
Qed.

Lemma grant_access_to_record e now s username w sig :
  users (grant_access_to e now s username w sig).1.1 !! grant_key username
  = Some (granted_record s (grant_key username) (isoformat now) w).
Proof.
  unfold grant_access_to, granted_record, user_of. simpl. rewrite lookup_insert_eq.
  destruct (users s !! grant_key username) as [r |]; simpl; [destruct (join r) |]; reflexivity.
Qed.

(** X8. A grant buys thirty days: after a grant at time [now] the sweep
    keeps the record as long as its clock reads at most [now] plus 30
    days, and removes it at any later reading unless the key is
    whitelisted. *)
Theorem grant_lasts_thirty_days e now s username w sig e' clock :
  reads_back now ->
  let key := grant_key username in
  let s1 := (grant_access_to e now s username w sig).1.1 in
  let s2 := (daily_expiry_check e' clock s1).1.1 in
  (clock key - now <= TTL ->
   users s2 !! key = Some (granted_record s key (isoformat now) w))
  /\ (clock key - now > TTL -> is_whitelisted key = false -> users s2 !! key = None)
  /\ (is_whitelisted key = true ->
      users s2 !! key = Some (granted_record s key (isoformat now) w)).
Proof.
  intros [Hread Hne] key s1 s2.
  pose proof (grant_access_to_record e now s username w sig) as Hrec.
  fold key s1 in Hrec.
  assert (Ha : last_active (granted_record s key (isoformat now) w) = Some (isoformat now))
    by (apply last_active_paid; [reflexivity | exact Hne]).
  pose proof (sweep_record e' clock s1 key _ _ _ Hrec Ha Hread) as Hsweep.
  fold s2 in Hsweep. rewrite Hsweep. split; [| split].
  - intros Hle. destruct (is_whitelisted key); [reflexivity |].
    replace (TTL <? clock key - now) with false; [reflexivity |].
    symmetry. apply Z.ltb_ge. lia.
  - intros Hgt ->. replace (TTL <? clock key - now) with true; [reflexivity |].
    symmetry. apply Z.ltb_lt. lia.
  - intros ->. reflexivity.
Qed.

End MembershipFacts.

(** ** Registration, payment and status, one after the other *)

Section LifecycleFacts.

Context {rt : PyRuntime}.

(** the store [/start] leaves, with or without a wallet *)
Lemma handle_message_start e now s msg :
  is_start msg = true ->
  let uname := sender_uname (from msg) in
  let w := start_wallet (PyStr.strip (text msg)) in
  (handle_message e now s msg).1.1
  = set_users
      (insert uname (started_record s uname (isoformat now) (from_id (from msg)) w))
      (match w with
       | Some a => set_wallet_map (insert a uname) s
       | None => s
       end).
Proof.
  intros Hstart uname w. unfold handle_message. unfold is_start in Hstart. rewrite Hstart.
  rewrite handle_start_store. unfold w, start_wallet, started_record.
  destruct (PyStr.split _) as [| c [| p1 rest]]; reflexivity.
Qed.

Lemma sweep_wallet_gone e clock s a :
  revokes clock s a = true ->
  forall w, wallet_map (daily_expiry_check e clock s).1.1 !! w <> Some a.
Proof.
  intros Hrev w Hw.
  destruct (daily_expiry_check_store e clock s) as (_ & Hwm & _).
  rewrite Hwm in Hw. destruct (wallet_map s !! w) as [a' |]; [| discriminate].
  destruct (revokes clock s a') eqn:Hrev'; [discriminate |].
  injection Hw as ->. congruence.
Qed.

(** X9. Registering buys thirty days too: a sender without a record who
    sends [/start], with or without a wallet, and never pays is kept by
    the sweep while its clock reads at most 30 days past the
    registration, and removed at any later reading, together with every
    wallet entry that names the sender, unless the name is
    whitelisted. *)
Theorem registration_lasts_thirty_days e now s msg e' clock :
  reads_back now ->
  is_start msg = true ->
  let uname := sender_uname (from msg) in
  users s !! uname = None ->
  is_whitelisted uname = false ->
  let s1 := (handle_message e now s msg).1.1 in
  let s2 := (daily_expiry_check e' clock s1).1.1 in
  (clock uname - now <= TTL -> users s2 !! uname = users s1 !! uname
                               /\ is_Some (users s1 !! uname))
  /\ (clock uname - now > TTL ->
      users s2 !! uname = None /\ forall w, wallet_map s2 !! w <> Some uname).
Proof.
  intros [Hread Hne] Hstart uname Hnew Hwl s1 s2.
  pose proof (handle_message_start e now s msg Hstart) as Hs1. cbv zeta in Hs1.
  fold uname s1 in Hs1.
  set (r := started_record s uname (isoformat now) (from_id (from msg))
              (start_wallet (PyStr.strip (text msg)))) in Hs1.
  assert (Hrec : users s1 !! uname = Some r).
  { rewrite Hs1. simpl. apply lookup_insert_eq. }
  assert (Ha : last_active r = Some (isoformat now)).
  { apply last_active_joined; [| | exact Hne];
      unfold r, started_record, touch_user, user_of; rewrite Hnew; reflexivity. }
  pose proof (sweep_record e' clock s1 uname r _ _ Hrec Ha Hread) as Hsweep.
  fold s2 in Hsweep. rewrite Hwl in Hsweep.
  split.
  - intros Hle. rewrite Hsweep, Hrec.
    replace (TTL <? clock uname - now) with false; [eauto |].
    symmetry. apply Z.ltb_ge. lia.
  - intros Hgt.
    assert (Hlt : (TTL <? clock uname - now) = true) by (apply Z.ltb_lt; lia).
    split; [rewrite Hsweep, Hlt; reflexivity |].
    apply sweep_wallet_gone. unfold revokes. rewrite Hrec.
    rewrite (expired_at _ _ _ _ _ Ha Hread), Hwl. exact Hlt.
Qed.

Lemma grant_key_at h : grant_key ("@" ++ h) = "@" ++ h.
Proof. reflexivity. Qed.

(** X10. The path the program is written for: a sender with a display
    handle sends [/start <wallet>], then a transaction not yet seen
    arrives whose transfers to the receiving wallet reach the minimum,
    whose detail holds the marker, and whose payer is that wallet.  The
    sender's own record, keyed [@<handle>], then holds the payment time
    as [last_paid], the wallet, and the sender's id; the welcome goes to
    the numeric id when there is a non-zero one, and the transaction is
    marked seen. *)
Theorem start_then_payment e1 now1 e2 now2 s h uid msg w tx sig n :
  let key := "@" ++ h in
  let iso := isoformat now2 in
  h <> EmptyString ->
  from msg = {| from_username := Some h; from_id := uid |} ->
  is_start msg = true ->
  start_wallet (PyStr.strip (text msg)) = Some w ->
  let s1 := (handle_message e1 now1 s msg).1.1 in
  tx_sig tx = Some sig -> sig ∉ seen_tx s ->
  let detail := net_detail e2 sig in
  sum_lamports detail = Ok n -> MIN_LAMPORTS <= n -> memo_found detail = true ->
  signer_of detail = Ok (JStr w) ->
  let run := handle_new_payment e2 now2 s1 tx in
  let to := match uid with
            | Some i => if i =? 0 then ChatName key else ChatId i
            | None => ChatName key
            end in
  users run.1.1 !! key
  = Some {| join := Some (default (isoformat now1) (users s !! key ≫= join));
            last_paid := Some iso; wallet := Some w; user_id := uid |}
  /\ SendMessage to WELCOME (net_send e2 to WELCOME) ∈ run.1.2
  /\ seen_tx run.1.1 = (seen_tx s ++ [sig])%list.
Proof.
  intros key iso Hh Hfrom Hstart Hwallet s1 Hsig Hnew detail Hsum Hmin Hmemo Hsigner run to.
  assert (Huname : sender_uname (from msg) = key).
  { rewrite Hfrom. unfold sender_uname. simpl. rewrite (truthy_nonempty _ Hh). reflexivity. }
  pose proof (handle_message_start e1 now1 s msg Hstart) as Hs1. cbv zeta in Hs1.
  rewrite Huname, Hwallet, Hfrom in Hs1. simpl in Hs1. fold s1 in Hs1.
  assert (Hw : w <> EmptyString).
  { unfold start_wallet in Hwallet.
    destruct (PyStr.split _) as [| c [| p1 rest]] eqn:Hsplit; try discriminate.
    injection Hwallet as <-.
    assert (Hp1 : p1 ∈ PyStr.split (PyStr.strip (text msg))).
    { rewrite Hsplit. apply list_elem_of_further, list_elem_of_here. }
    destruct (strip_word _ _ Hp1) as [-> Hne]. exact Hne. }
  assert (Hseen1 : seen_tx s1 = seen_tx s) by (rewrite Hs1; reflexivity).
  assert (Hnew1 : sig ∉ seen_tx s1) by (rewrite Hseen1; exact Hnew).
  set (s1' := set_seen_tx (fun l => (l ++ [sig])%list) s1).
  assert (Hmap : wallet_map s1' !! w = Some key).
  { unfold s1'. rewrite Hs1. simpl. apply lookup_insert_eq. }
  pose proof (handle_new_payment_new e2 now2 s1 tx sig Hsig Hnew1) as Hrun.
  cbv zeta in Hrun. fold s1' in Hrun. fold detail in Hrun.
  rewrite (try_payment_grants e2 now2 s1' sig detail n w key) in Hrun;
    [| assumption | assumption | assumption | assumption | assumption | assumption
     | discriminate].
  unfold run. rewrite Hrun. clear Hrun. cbn [fst snd].
  assert (Hrec : users s1' !! key
                 = Some (started_record s key (isoformat now1) uid (Some w))).
  { unfold s1'. rewrite Hs1. simpl. apply lookup_insert_eq. }
  assert (Hgk : grant_key key = key) by apply grant_key_at.
  split; [| split].
  - pose proof (grant_access_to_record e2 now2 s1' key w sig) as Hgrant.
    rewrite Hgk in Hgrant. rewrite Hgrant.
    unfold granted_record. rewrite Hrec. simpl.
    unfold user_of. destruct (users s !! key) as [r |]; simpl; [destruct (join r) |];
      reflexivity.
  - apply elem_of_app. left.
    unfold grant_access_to, send_message. cbn [fst snd].
    rewrite Hgk.
    rewrite (user_of_lookup _ _ _ Hrec).
    apply list_elem_of_further.
    replace (grant_target _ key) with to; [apply list_elem_of_here |].
    unfold grant_target, to. simpl. reflexivity.
  - rewrite grant_access_to_seen. unfold s1'. simpl. rewrite Hseen1. reflexivity.
Qed.

End LifecycleFacts.

(** ** What each handler leaves alone, and what it does on failure *)

Section FrameFacts.

Context {rt : PyRuntime}.

Lemma handle_message_not_start e now s msg :
  is_start msg = false -> (handle_message e now s msg).1.1 = s.
Proof.
  intros Hstart. unfold handle_message. unfold is_start in Hstart. rewrite Hstart.
  destruct (PyStr.startswith "/myjoin" _); [| reflexivity].
  unfold handle_myjoin. repeat case_match; reflexivity.
Qed.

(** X11. After a grant, the status query of the member answers with the
    payment time and an expiry of that time plus 30 days. *)
Theorem status_after_grant e now s h w sig e' now' msg :
  reads_back now -> 0 <= now + TTL <= DATETIME_MAX ->
  h <> EmptyString -> from_username (from msg) = Some h -> is_myjoin msg = true ->
  let key := "@" ++ h in
  let s1 := (grant_access_to e now s key w sig).1.1 in
  handle_message e' now' s1 msg
  = (s1,
     send_message e' (chat_of (from_id (from msg)))
       ("Joined: " ++ default (isoformat now) (users s !! key ≫= join) ++ NL
        ++ "Last paid: " ++ isoformat now ++ NL
        ++ "Expires: " ++ isoformat (now + TTL)),
     Ok tt).
Proof.
  intros [Hread Hne] Hrange Hh Hfrom Hcmd key s1.
  assert (Huname : sender_uname (from msg) = key).
  { unfold sender_uname. rewrite Hfrom, (truthy_nonempty _ Hh). reflexivity. }
  pose proof (grant_access_to_record e now s key w sig) as Hrec.
  change (grant_key key) with key in Hrec. fold s1 in Hrec.
  unfold is_myjoin in Hcmd.
  unfold handle_message. rewrite (myjoin_not_start _ Hcmd), Hcmd, Huname.
  unfold handle_myjoin. rewrite Hrec.
  change (user_truthy (granted_record s key (isoformat now) w)) with true. cbv iota.
  unfold status_msg. cbn [join last_paid granted_record str_opt].
  rewrite (expire_of_set (isoformat now) now Hne Hread Hrange). reflexivity.
Qed.

Lemma grant_access_to_users e now s username w sig :
  users (grant_access_to e now s username w sig).1.1
  = <[grant_key username := granted_record s (grant_key username) (isoformat now) w]>
      (users s).
Proof.
  unfold grant_access_to, granted_record, user_of. simpl. f_equal.
  destruct (users s !! grant_key username) as [r |]; simpl; [destruct (join r) |]; reflexivity.
Qed.

(** X12. A payment run never touches the wallet map and changes at most
    one record: the one filed under [grant_key] of a username that the
    wallet map holds, which becomes the record of a grant; and it
    appends at most the identifier of the transaction to [seen_tx]. *)
Theorem payment_frame e now s tx :
  let s' := (handle_new_payment e now s tx).1.1 in
  wallet_map s' = wallet_map s
  /\ (users s' = users s
      \/ exists w username,
           wallet_map s !! w = Some username
           /\ users s'
              = <[grant_key username :=
                    granted_record s (grant_key username) (isoformat now) w]> (users s))
  /\ (s' = s
      \/ exists sig, tx_sig tx = Some sig /\ (sig ∉ seen_tx s)
                     /\ seen_tx s' = (seen_tx s ++ [sig])%list).
Proof.
  intros s'. unfold s', handle_new_payment.
  destruct (tx_sig tx) as [sig |] eqn:Hsig; [| simpl; auto].
  case_bool_decide as Hseen; [simpl; auto |].
  set (s1 := set_seen_tx _ s).
  destruct (try_payment_cases e now s1 sig (net_detail e sig))
    as [[Hs _] | (w & u & Heq & Hmap)].
  - destruct (try_payment _ _ _ _ _) as [[s2 tr] res]. simpl in *. subst s2.
    split; [reflexivity |]. split; [left; reflexivity |].
    right. exists sig. auto.
  - rewrite Heq.
    destruct (grant_access_to e now s1 u w sig) as [[s2 tr] res] eqn:Hgrant.
    assert (Hs2 : s2 = (grant_access_to e now s1 u w sig).1.1) by (rewrite Hgrant; reflexivity).
    cbn [fst snd]. subst s2. split; [reflexivity |]. split.
    + right. exists w, u. split; [exact Hmap |]. rewrite grant_access_to_users. reflexivity.
    + right. exists sig. auto.
Qed.

(** X13. A message changes nothing but the sender's own record and the
    wallet entries it points at the sender: [seen_tx] and every other
    record stay as they are, the sender's [last_paid] is kept, no wallet
    entry disappears, and an entry that is new or changed names the
    sender. *)
Theorem message_frame e now s msg :
  let uname := sender_uname (from msg) in
  let s' := (handle_message e now s msg).1.1 in
  seen_tx s' = seen_tx s
  /\ (forall k, k <> uname -> users s' !! k = users s !! k)
  /\ (forall r, users s !! uname = Some r ->
                exists r', users s' !! uname = Some r' /\ last_paid r' = last_paid r)
  /\ (forall w a, wallet_map s' !! w = Some a -> wallet_map s !! w = Some a \/ a = uname)
  /\ (forall w, is_Some (wallet_map s !! w) -> is_Some (wallet_map s' !! w)).
Proof.
  intros uname s'. destruct (is_start msg) eqn:Hstart.
  - pose proof (handle_message_start e now s msg Hstart) as Hs'. cbv zeta in Hs'.
    fold uname s' in Hs'. rewrite Hs'. clear Hs'.
    destruct (start_wallet _) as [a |]; simpl.
    + split; [reflexivity |]. split; [| split; [| split]].
      * intros k Hk. apply lookup_insert_ne. congruence.
      * intros r Hr. rewrite lookup_insert_eq. eexists. split; [reflexivity |].
        unfold started_record, user_of. simpl. rewrite Hr. reflexivity.
      * intros w b Hw. destruct (decide (a = w)) as [-> | Hne].
        -- rewrite lookup_insert_eq in Hw. right. congruence.
        -- rewrite lookup_insert_ne in Hw by assumption. left. exact Hw.
      * intros w Hw. destruct (decide (a = w)) as [-> | Hne].
        -- rewrite lookup_insert_eq. eauto.
        -- rewrite lookup_insert_ne by assumption. exact Hw.
    + split; [reflexivity |]. split; [| split; [| split]].
      * intros k Hk. apply lookup_insert_ne. congruence.
      * intros r Hr. rewrite lookup_insert_eq. eexists. split; [reflexivity |].
        unfold started_record, user_of. rewrite Hr. reflexivity.
      * auto.
      * auto.
  - unfold s'. rewrite (handle_message_not_start e now s msg Hstart).
    repeat split; eauto.
Qed.

(** X14. The last [/start] wins, also across users: a sender who names a
    wallet that is mapped to somebody else takes the entry over; no other
    entry changes, and the record of the previous holder is left as it
    is, wallet field included. *)
Theorem start_takes_wallet_over e now s msg w other :
  is_start msg = true ->
  start_wallet (PyStr.strip (text msg)) = Some w ->
  wallet_map s !! w = Some other ->
  let uname := sender_uname (from msg) in
  let s' := (handle_message e now s msg).1.1 in
  wallet_map s' !! w = Some uname
  /\ (forall w', w' <> w -> wallet_map s' !! w' = wallet_map s !! w')
  /\ (other <> uname -> users s' !! other = users s !! other).
Proof.
  intros Hstart Hwallet Hother uname s'.
  pose proof (handle_message_start e now s msg Hstart) as Hs'. cbv zeta in Hs'.
  fold uname s' in Hs'. rewrite Hwallet in Hs'. rewrite Hs'. simpl.
  split; [apply lookup_insert_eq |]. split.
  - intros w' Hne. apply lookup_insert_ne. congruence.
  - intros Hne. apply lookup_insert_ne. congruence.
Qed.

Lemma started_record_registration s uname now uid w :
  started_record s uname now uid w = registration s uname now uid w.
Proof.
  unfold started_record, registration, touch_user, user_of.
  destruct (users s !! uname) as [u |]; cbn; [| reflexivity].
  destruct (join u); reflexivity.
Qed.

(** X15. [/start] registers, saves, then answers.  The store after it
    is the old one with the record of the sender written (the join time
    kept if there was one and set to now otherwise, the user id set,
    the wallet set when the text names one, [last_paid] untouched) and,
    when the text names a wallet, the wallet entry pointing to the
    sender; this holds whether or not the data file can be written.
    When it can, the save is followed by the one reply (the
    confirmation with a wallet, the usage text without); when it
    cannot, no reply is sent and [OSError] escapes to the loop. *)
Theorem start_saves_then_replies e now s msg :
  is_start msg = true ->
  let uname := sender_uname (from msg) in
  let uid := from_id (from msg) in
  let w := start_wallet (PyStr.strip (text msg)) in
  let s' := registered_store s uname (isoformat now) uid w in
  let reply := match w with
               | Some a => thanks_msg uname a
               | None => USAGE_MSG
               end in
  handle_message e now s msg
  = if disk_ok e s'
    then (s', [SaveData s' true;
               SendMessage (chat_of uid) reply (net_send e (chat_of uid) reply)], Ok tt)
    else (s', [SaveData s' false], Raise OSError).
Proof.
  intros Hstart uname uid w s' reply.
  pose proof (handle_message_start e now s msg Hstart) as Hs'. cbv zeta in Hs'.
  fold uname uid w in Hs'. rewrite started_record_registration in Hs'.
  assert (Hstore : (handle_message e now s msg).1.1 = s').
  { rewrite Hs'. unfold s', registered_store. destruct w; reflexivity. }
  clear Hs'. clearbody s'. subst s'.
  unfold reply, w, uid. clear reply w uid.
  unfold handle_message. unfold is_start in Hstart. rewrite Hstart.
  unfold start_wallet, handle_start. fold uname.
  destruct (PyStr.split _) as [| c [| p1 rest]]; unfold save_data;
    cbn [fst snd];
    match goal with
    | |- context [disk_ok e ?st] => destruct (disk_ok e st) eqn:Hd
    end; cbn [fst snd]; rewrite ?Hd; reflexivity.
Qed.

(** X16. A detail request that fails loses the payment: when the request
    raises, answers with a status other than 200, or with a body that is
    not JSON, the transaction is marked seen, nothing is granted, and no
    later pass looks at it again. *)
Theorem failed_detail_request_drops_payment e now s tx sig reply :
  tx_sig tx = Some sig -> sig ∉ seen_tx s ->
  net_detail e sig = get_tx_detail reply ->
  reply = NoReply
  \/ (exists status body, reply = Reply status body /\ (status <> 200 \/ body = None)) ->
  let s1 := set_seen_tx (fun l => (l ++ [sig])%list) s in
  handle_new_payment e now s tx = (s1, (save_data e s1).1, (save_data e s1).2)
  /\ forall e' now', handle_new_payment e' now' s1 tx = (s1, [], Ok tt).
Proof.
  intros Hsig Hnew Hdetail Hfail s1.
  assert (Hempty : net_detail e sig = JObj []).
  { rewrite Hdetail. destruct Hfail as [-> | (st & body & -> & [Hst | ->])]; [reflexivity | |].
    - simpl. destruct body; [| reflexivity].
      apply Z.eqb_neq in Hst. rewrite Hst. reflexivity.
    - reflexivity. }
  split.
  - rewrite (handle_new_payment_new e now s tx sig Hsig Hnew). cbv zeta. fold s1.
    rewrite Hempty.
    change (try_payment e now s1 sig (JObj [])) with (s1, @nil event, @Ok unit tt).
    cbn [fst snd]. unfold save_data. cbn [fst snd]. destruct (disk_ok e s1); reflexivity.
  - intros e' now'. apply (handle_new_payment_seen_noop e' now' s1 tx sig Hsig).
    unfold s1. simpl. apply elem_of_app. right. apply list_elem_of_singleton. reflexivity.
Qed.

Lemma sum_lamports_not_dict detail :
  (forall kvs, detail <> JObj kvs) -> sum_lamports detail = Raise AttributeError.
Proof.
  intros Hnd. unfold sum_lamports, TRANSFER_KEYS. cbn [sum_keys].
  destruct detail; try reflexivity. exfalso. exact (Hnd _ eq_refl).
Qed.

(** X17. A detail that is not a JSON object (a list, a string, a number)
    makes the pass over the transfers raise [AttributeError]: the
    transaction is marked seen, the store is saved, nothing is granted,
    and the exception escapes (or [OSError], when the save fails too). *)
Theorem non_object_detail_raises e now s tx sig :
  tx_sig tx = Some sig -> sig ∉ seen_tx s ->
  (forall kvs, net_detail e sig <> JObj kvs) ->
  let s1 := set_seen_tx (fun l => (l ++ [sig])%list) s in
  handle_new_payment e now s tx
  = (s1, (save_data e s1).1,
     if disk_ok e s1 then Raise AttributeError else Raise OSError).
Proof.
  intros Hsig Hnew Hnd s1.
  rewrite (handle_new_payment_new e now s tx sig Hsig Hnew). cbv zeta. fold s1.
  unfold try_payment. rewrite (sum_lamports_not_dict _ Hnd).
  cbn [fst snd]. unfold save_data. cbn [fst snd]. destruct (disk_ok e s1); reflexivity.
Qed.

(** X18. The fee payer comes first: when the detail names a non-empty
    fee payer that is not in the wallet map, nothing is granted and only
    [seen_tx] changes, whatever the [signer] field and the account keys
    hold. *)
Theorem unknown_fee_payer_blocks_grant e now s tx sig kvs p :
  tx_sig tx = Some sig -> sig ∉ seen_tx s ->
  net_detail e sig = JObj kvs ->
  Py.assoc "feePayer" kvs = Some (JStr p) -> p <> EmptyString ->
  wallet_map s !! p = None ->
  let s1 := set_seen_tx (fun l => (l ++ [sig])%list) s in
  let run := handle_new_payment e now s tx in
  run.1.1 = s1 /\ run.1.2 = (save_data e s1).1 /\ ~ granted run.1.2.
Proof.
  intros Hsig Hnew Hdetail Hpayer Hp Hmap s1 run.
  assert (Hsigner : signer_of (JObj kvs) = Ok (JStr p)).
  { unfold signer_of, Py.get, Py.get_default. cbn [bind]. rewrite Hpayer.
    cbn [bind Py.truthy]. rewrite (truthy_nonempty _ Hp). reflexivity. }
  assert (Hbody : (try_payment e now s1 sig (JObj kvs)).1 = (s1, [])).
  { unfold try_payment. rewrite Hsigner.
    destruct (sum_lamports (JObj kvs)) as [n | x]; [| reflexivity].
    destruct ((MIN_LAMPORTS <=? n) && memo_found (JObj kvs))%bool; [| reflexivity].
    cbn [Py.truthy]. rewrite (truthy_nonempty _ Hp).
    change (wallet_map s1) with (wallet_map s). rewrite Hmap. reflexivity. }
  unfold run. rewrite (handle_new_payment_new e now s tx sig Hsig Hnew). cbv zeta.
  fold s1. rewrite Hdetail.
  destruct (try_payment e now s1 sig (JObj kvs)) as [[s2 tr] res].
  injection Hbody as -> ->. cbn [fst snd].
  split; [reflexivity |]. split; [reflexivity |]. apply not_granted_save.
Qed.

End FrameFacts.

(** ** The sum of the transfers and the memo marker *)

Section AmountFacts.

Context {rt : PyRuntime}.

Lemma item_lamports_plain item da :
  plain_transfer item da ->
  item_lamports item = Ok (if to_wallet da.1 then da.2 else 0).
Proof.
  destruct da as [d a]. intros [Hto Hamt]. simpl in *.
  unfold item_lamports. rewrite Hto, Hamt. cbn [bind Py.truthy Py.lower].
  unfold to_wallet.
  destruct d as [| c d]; [reflexivity |]. cbn [PyStr.truthy].
  destruct (String.eqb _ _); [| reflexivity].
  destruct (Z.eqb_spec a 0) as [-> | Hne]; reflexivity.
Qed.

Lemma sum_items_plain items das : forall lamports,
  Forall2 plain_transfer items das ->
  sum_items lamports items = Ok (lamports + credited das).
Proof.
  intros lamports Hall. revert lamports.
  induction Hall as [| item da items das Hitem _ IH]; intros lamports; simpl.
  - rewrite Z.add_0_r. reflexivity.
  - rewrite (item_lamports_plain _ _ Hitem). cbn [bind]. rewrite IH. f_equal. lia.
Qed.

Lemma credited_app l1 l2 : credited (l1 ++ l2) = credited l1 + credited l2.
Proof. induction l1 as [| da l1 IH]; simpl; [reflexivity | rewrite IH; lia]. Qed.

Lemma sum_keys_plain kvs (ledger : string -> list (string * Z)) keys : forall lamports,
  (forall k, k ∈ keys ->
     match Py.assoc k kvs with
     | None => ledger k = []
     | Some v => exists items, v = JArr items /\ Forall2 plain_transfer items (ledger k)
     end) ->
  sum_keys lamports keys (JObj kvs) = Ok (lamports + credited (concat (map ledger keys))).
Proof.
  induction keys as [| k keys IH]; intros lamports Hkeys; simpl.
  - rewrite Z.add_0_r. reflexivity.
  - pose proof (Hkeys k (list_elem_of_here _ _)) as Hk.
    assert (Hrest : forall k', k' ∈ keys ->
              match Py.assoc k' kvs with
              | None => ledger k' = []
              | Some v => exists items, v = JArr items
                                        /\ Forall2 plain_transfer items (ledger k')
              end).
    { intros k' Hin. apply Hkeys. apply list_elem_of_further. exact Hin. }
    rewrite credited_app.
    unfold Py.get, Py.get_default. cbn [bind].
    destruct (Py.assoc k kvs) as [v |].
    + destruct Hk as (items & -> & Hplain).
      assert (Hiter : Py.iter (Py.or (JArr items) (JArr [])) = Ok items).
      { destruct items; reflexivity. }
      rewrite Hiter. cbn [bind]. rewrite (sum_items_plain _ _ _ Hplain). cbn [bind].
      rewrite (IH _ Hrest). f_equal. lia.
    + rewrite Hk. cbn. rewrite (IH _ Hrest). reflexivity.
Qed.

(** X19. The sum the scanner computes: when each of the five transfer
    lists of the detail is absent or a list of records with a string
    destination and an integer amount, the sum is the total of the
    amounts whose destination is the receiving wallet, compared without
    regard to case, over all five lists together; a transfer listed
    under two keys counts twice, and a negative amount is subtracted. *)
Theorem sum_lamports_of_plain_transfers kvs (ledger : string -> list (string * Z)) :
  (forall k, k ∈ TRANSFER_KEYS ->
     match Py.assoc k kvs with
     | None => ledger k = []
     | Some v => exists items, v = JArr items /\ Forall2 plain_transfer items (ledger k)
     end) ->
  sum_lamports (JObj kvs) = Ok (credited (concat (map ledger TRANSFER_KEYS))).
Proof.
  intros Hkeys. unfold sum_lamports. rewrite (sum_keys_plain kvs ledger _ 0 Hkeys).
  reflexivity.
Qed.

Lemma startswith_app p s t :
  PyStr.startswith p s = true -> PyStr.startswith p (s ++ t) = true.
Proof.
  revert s. induction p as [| a p IH]; intros s H; [reflexivity |].
  destruct s as [| b s]; [discriminate |]. simpl in *.
  apply andb_prop in H as [Hab Hp]. rewrite Hab, (IH _ Hp). reflexivity.
Qed.

Lemma contains_cons p c s : PyStr.contains p s = true -> PyStr.contains p (String c s) = true.
Proof.
  intros H. cbn [PyStr.contains]. rewrite H. apply orb_true_r.
Qed.

Lemma contains_app_l p s t : PyStr.contains p s = true -> PyStr.contains p (s ++ t) = true.
Proof.
  induction s as [| c s IH]; intros H.
  - cbn [PyStr.contains] in H. rewrite orb_false_r in H.
    destruct p; [| discriminate]. destruct t; reflexivity.
  - cbn [PyStr.contains] in H. apply orb_prop in H as [H | H].
    + change (String c s ++ t) with (String c (s ++ t)).
      cbn [PyStr.contains].
      change (String c (s ++ t)) with (String c s ++ t).
      rewrite (startswith_app _ _ t H). reflexivity.
    + apply (contains_cons p c (s ++ t)). exact (IH H).
Qed.

Lemma contains_app_r p s t : PyStr.contains p t = true -> PyStr.contains p (s ++ t) = true.
Proof.
  intros H. induction s as [| c s IH]; [exact H |].
  apply (contains_cons p c (s ++ t)). exact IH.
Qed.

Lemma startswith_marker s :
  PyStr.startswith "SLC30" s = true -> exists r, s = "SLC30" ++ r.
Proof.
  intros H.
  repeat (destruct s as [| ? s]; [discriminate H |];
          cbn [PyStr.startswith] in H;
          apply andb_prop in H as [?%Ascii.eqb_eq H]; subst).
  exists s. reflexivity.
Qed.

Lemma escape_keeps_marker s :
  PyStr.contains "SLC30" s = true -> PyStr.contains "SLC30" (escape s) = true.
Proof.
  induction s as [| c s IH]; intros H; [discriminate H |].
  cbn [PyStr.contains] in H. apply orb_prop in H as [H | H].
  - apply startswith_marker in H as [r ->].
    change (escape ("SLC30" ++ r)) with ("SLC30" ++ escape r). reflexivity.
  - cbn [escape]. apply contains_app_r. exact (IH H).
Qed.

Lemma dumps_string_keeps_marker s :
  PyStr.contains "SLC30" s = true -> PyStr.contains "SLC30" (dumps_string s) = true.
Proof.
  intros H. unfold dumps_string. apply contains_cons, contains_app_l, escape_keeps_marker.
  exact H.
Qed.

Lemma dumps_array l : dumps (JArr l) = "[" ++ join_comma (map dumps l) ++ "]".
Proof.
  cbn [dumps]. do 2 f_equal.
  induction l as [| x l IH]; [reflexivity |].
  destruct l as [| y l]; [reflexivity |]. rewrite IH. reflexivity.
Qed.

Lemma string_app_assoc (a b c : string) : (a ++ b) ++ c = a ++ b ++ c.
Proof.
  induction a as [| x a IH]; [reflexivity |].
  change (String x ((a ++ b) ++ c) = String x (a ++ b ++ c)). rewrite IH. reflexivity.
Qed.

Lemma dumps_object kvs : dumps (JObj kvs) = "{" ++ join_comma (map dumps_member kvs) ++ "}".
Proof.
  cbn [dumps]. do 2 f_equal.
  induction kvs as [| [k v] kvs IH]; [reflexivity |].
  destruct kvs as [| kv kvs]; [reflexivity |]. rewrite IH.
  cbn [map join_comma].
  change (dumps_member (k, v)) with (dumps_string k ++ ": " ++ dumps v).
  rewrite !string_app_assoc. reflexivity.
Qed.

Lemma join_comma_contains p x l :
  x ∈ l -> PyStr.contains p x = true -> PyStr.contains p (join_comma l) = true.
Proof.
  intros Hin Hx. induction l as [| y l IH]; [inversion Hin |].
  cbn [join_comma]. apply elem_of_cons in Hin as [<- | Hin].
  - destruct l; [exact Hx | apply contains_app_l; exact Hx].
  - destruct l as [| z l]; [inversion Hin |].
    apply contains_app_r, contains_app_r. exact (IH Hin).
Qed.

(** X20. The memo test is a search through the whole serialized detail:
    the marker [SLC30] inside any string value or any key, at any depth
    of lists and objects, satisfies it; it need not be in a memo
    field. *)
Theorem memo_found_anywhere detail :
  mentions "SLC30" detail -> memo_found detail = true.
Proof.
  unfold memo_found.
  induction 1 as [s Hs | l x Hin _ IH | kvs k v Hin Hk | kvs k v Hin _ IH].
  - cbn [dumps]. apply dumps_string_keeps_marker. exact Hs.
  - rewrite dumps_array. apply contains_cons, contains_app_l.
    apply (join_comma_contains _ (dumps x)); [| exact IH].
    apply list_elem_of_fmap. exists x. auto.
  - rewrite dumps_object. apply contains_cons, contains_app_l.
    apply (join_comma_contains _ (dumps_member (k, v))).
    + apply list_elem_of_fmap. exists (k, v). auto.
    + unfold dumps_member. apply contains_app_l, dumps_string_keeps_marker. exact Hk.
  - rewrite dumps_object. apply contains_cons, contains_app_l.
    apply (join_comma_contains _ (dumps_member (k, v))).
    + apply list_elem_of_fmap. exists (k, v). auto.
    + unfold dumps_member. apply contains_app_r, contains_app_r. exact IH.
Qed.

End AmountFacts.

(** ** A pass of the ledger scanner *)

Section PassFacts.

Context {rt : PyRuntime}.

Lemma handle_new_payment_no_id e now s tx :
  tx_sig tx = None -> handle_new_payment e now s tx = (s, [], Ok tt).
Proof. intros Hsig. unfold handle_new_payment. rewrite Hsig. reflexivity. Qed.

Lemma handle_new_payment_appends e now s tx :
  exists added, seen_tx (handle_new_payment e now s tx).1.1 = (seen_tx s ++ added)%list.
Proof.
  destruct (tx_sig tx) as [sig |] eqn:Hsig.
  - destruct (decide (sig ∈ seen_tx s)) as [Hin | Hnew].
    + rewrite (handle_new_payment_seen_noop e now s tx sig Hsig Hin).
      exists []. simpl. rewrite app_nil_r. reflexivity.
    + exists [sig]. apply handle_new_payment_marks_seen; assumption.
  - rewrite (handle_new_payment_no_id e now s tx Hsig).
    exists []. simpl. rewrite app_nil_r. reflexivity.
Qed.

Lemma handle_new_payment_wallet_map e now s tx :
  wallet_map (handle_new_payment e now s tx).1.1 = wallet_map s.
Proof.
  unfold handle_new_payment.
  destruct (tx_sig tx) as [sig |]; [| reflexivity].
  destruct (bool_decide _); [reflexivity |].
  set (s1 := set_seen_tx _ s).
  destruct (try_payment_cases e now s1 sig (net_detail e sig))
    as [[Hs _] | (w & u & Heq & _)].
  - destruct (try_payment _ _ _ _ _) as [[s2 tr] res]. simpl in *. subst s2. reflexivity.
  - rewrite Heq. reflexivity.
Qed.

(** a pass over transactions that are all seen does nothing *)
Lemma solscan_pass_idle e clock txs : forall s,
  (forall tx sig, tx ∈ txs -> tx_sig tx = Some sig -> sig ∈ seen_tx s) ->
  solscan_pass e clock s txs = (s, [], Ok tt).
Proof.
  induction txs as [| tx txs IH]; intros s Hseen; [reflexivity |].
  cbn [solscan_pass].
  assert (Hnoop : handle_new_payment e (clock tx) s tx = (s, [], Ok tt)).
  { destruct (tx_sig tx) as [sig |] eqn:Hsig.
    - apply (handle_new_payment_seen_noop _ _ _ _ sig Hsig).
      apply (Hseen tx sig); [apply list_elem_of_here | exact Hsig].
    - apply handle_new_payment_no_id. exact Hsig. }
  rewrite Hnoop, IH; [reflexivity |].
  intros tx' sig Hin. apply Hseen. apply list_elem_of_further. exact Hin.
Qed.

Lemma solscan_pass_facts e clock txs : forall s,
  let run := solscan_pass e clock s txs in
  (exists added, seen_tx run.1.1 = (seen_tx s ++ added)%list)
  /\ wallet_map run.1.1 = wallet_map s
  /\ (run.2 = Ok tt ->
      forall tx sig, tx ∈ txs -> tx_sig tx = Some sig -> sig ∈ seen_tx run.1.1).
Proof.
  induction txs as [| tx txs IH]; intros s; cbn [solscan_pass].
  - cbv zeta. cbn [fst snd]. split; [exists []; rewrite app_nil_r; reflexivity |].
    split; [reflexivity |]. intros _ tx sig Hin. inversion Hin.
  - pose proof (handle_new_payment_appends e (clock tx) s tx) as [added1 Hadd1].
    pose proof (handle_new_payment_wallet_map e (clock tx) s tx) as Hwm1.
    pose proof (fun sig => handle_new_payment_then_seen e (clock tx) s tx sig) as Hthen.
    destruct (handle_new_payment e (clock tx) s tx) as [[s1 tr1] r1].
    cbn [fst snd] in Hadd1, Hwm1, Hthen.
    destruct r1 as [[] | x].
    + specialize (IH s1). cbv zeta in IH.
      destruct (solscan_pass e clock s1 txs) as [[s2 tr2] r2]. cbn [fst snd] in IH |- *.
      destruct IH as ([added2 Hadd2] & Hwm2 & Hall).
      split; [| split].
      * exists (added1 ++ added2)%list. rewrite Hadd2, Hadd1, app_assoc. reflexivity.
      * rewrite Hwm2. exact Hwm1.
      * intros Hok tx' sig Hin Hsig. apply elem_of_cons in Hin as [-> | Hin].
        -- rewrite Hadd2. apply elem_of_app. left. exact (Hthen sig Hsig).
        -- exact (Hall Hok tx' sig Hin Hsig).
    + cbn [fst snd]. split; [eauto |]. split; [exact Hwm1 |]. discriminate.
Qed.

(** X21. A pass over a listing only ever appends to [seen_tx] and never
    touches the wallet map.  When no exception ended it, every
    transaction of the listing that has an identifier is marked seen
    afterwards, so that the next pass over the same listing (the scanner
    lists the same transactions every 30 seconds) makes no call and
    changes nothing, whatever the network answers then. *)
Theorem solscan_pass_marks_listing e clock s txs :
  let run := solscan_pass e clock s txs in
  (exists added, seen_tx run.1.1 = (seen_tx s ++ added)%list)
  /\ wallet_map run.1.1 = wallet_map s
  /\ (run.2 = Ok tt ->
      (forall tx sig, tx ∈ txs -> tx_sig tx = Some sig -> sig ∈ seen_tx run.1.1)
      /\ forall e' clock', solscan_pass e' clock' run.1.1 txs = (run.1.1, [], Ok tt)).
Proof.
  intros run. destruct (solscan_pass_facts e clock txs s) as (Happ & Hwm & Hall).
  fold run in Happ, Hwm, Hall.
  split; [exact Happ |]. split; [exact Hwm |].
  intros Hok. split; [exact (Hall Hok) |].
  intros e' clock'. apply solscan_pass_idle. exact (Hall Hok).
Qed.

Lemma welcomes_app tr1 tr2 : welcomes (tr1 ++ tr2) = (welcomes tr1 + welcomes tr2)%nat.
Proof. unfold welcomes. rewrite filter_app, length_app. reflexivity. Qed.

Lemma welcomes_grant e now s username w sig :
  welcomes (grant_access_to e now s username w sig).1.2 = 1%nat.
Proof.
  unfold grant_access_to, send_message, save_data. cbn [fst snd].
  destruct (net_invite e) as [link |]; [destruct (PyStr.truthy link) |]; reflexivity.
Qed.

Lemma handle_new_payment_welcomes e now s tx :
  (welcomes (handle_new_payment e now s tx).1.2 + length (seen_tx s)
   <= length (seen_tx (handle_new_payment e now s tx).1.1))%nat.
Proof.
  destruct (tx_sig tx) as [sig |] eqn:Hsig.
  - destruct (decide (sig ∈ seen_tx s)) as [Hin | Hnew].
    + rewrite (handle_new_payment_seen_noop e now s tx sig Hsig Hin). simpl. lia.
    + rewrite (handle_new_payment_marks_seen e now s tx sig Hsig Hnew).
      rewrite length_app. simpl.
      unfold handle_new_payment. rewrite Hsig.
      rewrite bool_decide_eq_false_2 by assumption.
      set (s1 := set_seen_tx _ s).
      destruct (try_payment_cases e now s1 sig (net_detail e sig))
        as [[_ Htr] | (w & u & Heq & _)].
      * destruct (try_payment _ _ _ _ _) as [[s2 tr] res]. simpl in *. subst tr.
        unfold welcomes. simpl. lia.
      * rewrite Heq.
        pose proof (welcomes_grant e now s1 u w sig) as Hone.
        destruct (grant_access_to e now s1 u w sig) as [[s2 tr] res].
        cbn [fst snd] in Hone |- *. rewrite welcomes_app, Hone.
        unfold save_data, welcomes. simpl. lia.
  - rewrite (handle_new_payment_no_id e now s tx Hsig). simpl. lia.
Qed.

(** X22. At most one grant per new transaction: in any pass, the number
    of welcome messages sent is at most the number of identifiers the
    pass added to [seen_tx]; a transaction listed twice, or seen before,
    is welcomed at most once. *)
Theorem solscan_pass_one_grant_per_new_id e clock txs : forall s,
  let run := solscan_pass e clock s txs in
  (welcomes run.1.2 + length (seen_tx s) <= length (seen_tx run.1.1))%nat.
Proof.
  induction txs as [| tx txs IH]; intros s; cbn [solscan_pass]; cbv zeta.
  - simpl. lia.
  - pose proof (handle_new_payment_welcomes e (clock tx) s tx) as H1.
    destruct (handle_new_payment e (clock tx) s tx) as [[s1 tr1] r1].
    cbn [fst snd] in H1.
    destruct r1 as [[] | x]; [| cbn [fst snd]; exact H1].
    specialize (IH s1). cbv zeta in IH.
    destruct (solscan_pass e clock s1 txs) as [[s2 tr2] r2]. cbn [fst snd] in IH |- *.
    rewrite welcomes_app. lia.
Qed.

End PassFacts.

(** ** A batch of Telegram updates *)

Section PollFacts.

Context {rt : PyRuntime}.

Lemma handle_message_chatter e now s msg :
  is_start msg = false -> is_myjoin msg = false ->
  handle_message e now s msg = (s, [], Ok tt).
Proof.
  intros Hs Hm. unfold handle_message. unfold is_start in Hs. unfold is_myjoin in Hm.
  rewrite Hs, Hm. reflexivity.
Qed.

(** only [/start] saves, so only [/start] can raise *)
Lemma handle_message_raises e now s msg x :
  (handle_message e now s msg).2 = Raise x -> is_start msg = true /\ x = OSError.
Proof.
  unfold handle_message, is_start.
  destruct (PyStr.startswith "/start" _).
  - intros H. split; [reflexivity |].
    unfold handle_start, save_data in H.
    destruct (PyStr.split _) as [| c [| p1 rest]]; cbn [fst snd] in H;
      match type of H with
      | context [disk_ok e ?st] => destruct (disk_ok e st)
      end; cbn [fst snd] in H; congruence.
  - destruct (PyStr.startswith "/myjoin" _); [| discriminate].
    unfold handle_myjoin. repeat case_match; discriminate.
Qed.

Lemma last_cursor upd upds (o : option Z) :
  match last (upd :: upds) with
  | Some u => Some (update_id u + 1)
  | None => o
  end
  = match last upds with
    | Some u => Some (update_id u + 1)
    | None => Some (update_id upd + 1)
    end.
Proof.
  destruct upds as [| u upds]; [reflexivity |].
  change (last (upd :: u :: upds)) with (last (u :: upds)).
  destruct (last (u :: upds)) eqn:Hlast; [reflexivity |].
  apply last_None in Hlast. discriminate.
Qed.

(** only the save of a [/start] raises, and nothing follows it *)
Lemma handle_message_raise_shape e now s msg x :
  (handle_message e now s msg).2 = Raise x ->
  is_start msg = true /\ x = OSError
  /\ disk_ok e (handle_message e now s msg).1.1 = false
  /\ (handle_message e now s msg).1.2 = [SaveData (handle_message e now s msg).1.1 false].
Proof.
  intros Hx. destruct (handle_message_raises e now s msg x Hx) as [Hstart ->].
  split; [exact Hstart | split; [reflexivity |]].
  revert Hx. unfold handle_message. unfold is_start in Hstart. rewrite Hstart.
  unfold handle_start, save_data.
  destruct (PyStr.split _) as [| c [| p1 rest]]; cbn [fst snd];
    match goal with
    | |- context [disk_ok e ?st] => destruct (disk_ok e st) eqn:Hd
    end; cbn [fst snd]; intros Hx; try discriminate Hx; rewrite ?Hd; auto.
Qed.

(** X23. The cursor of the command loop moves before an update is
    handled.  After a batch that no exception ended, it is one past the
    identifier of the last update, handled or not (the old cursor for an
    empty batch).  An exception that ends the batch is the [OSError] of
    the save of a [/start]: the updates before it were handled without
    an exception, the disk refused the store that [/start] left, and
    the batch ends there, with that store, the calls made up to the
    refused save, and the cursor one past that update; the updates
    behind it are not handled, and the failed one is not fetched
    again. *)
Theorem poll_cursor e clock offset s upds :
  let run := poll_updates e clock offset s upds in
  (run.2 = Ok tt ->
   run.1.1.1 = match last upds with
               | Some upd => Some (update_id upd + 1)
               | None => offset
               end)
  /\ (forall x, run.2 = Raise x ->
        x = OSError
        /\ exists before upd after msg,
             upds = (before ++ upd :: after)%list
             /\ update_msg upd = Some msg /\ is_start msg = true
             /\ let pre := poll_updates e clock offset s before in
                let step := handle_message e (clock (update_id upd)) pre.1.1.2 msg in
                pre.2 = Ok tt
                /\ disk_ok e step.1.1 = false
                /\ run = (Some (update_id upd + 1), step.1.1,
                          (pre.1.2 ++ [SaveData step.1.1 false])%list, Raise OSError)).
Proof.
  revert offset s. induction upds as [| upd upds IH]; intros offset s; cbn [poll_updates].
  - cbv zeta. cbn [fst snd]. split; [reflexivity | discriminate].
  - cbv zeta.
    rewrite last_cursor.
    destruct (update_msg upd) as [msg |] eqn:Hmsg.
    + pose proof (handle_message_raise_shape e (clock (update_id upd)) s msg) as Hraise.
      destruct (handle_message e (clock (update_id upd)) s msg) as [[s1 tr1] r1] eqn:Hstep.
      cbn [fst snd] in Hraise.
      destruct r1 as [[] | x1].
      * specialize (IH (Some (update_id upd + 1)) s1). cbv zeta in IH.
        destruct (poll_updates e clock (Some (update_id upd + 1)) s1 upds)
          as [[[o2 s2] tr2] r2] eqn:Hrest.
        cbn [fst snd] in IH |- *. destruct IH as [IHok IHraise]. split; [exact IHok |].
        intros x Hx.
        destruct (IHraise x Hx)
          as (-> & before & u & after & m & -> & Hm & Hs & Hpre & Hdisk & Hrun).
        split; [reflexivity |]. exists (upd :: before), u, after, m.
        split; [reflexivity | split; [exact Hm | split; [exact Hs |]]].
        cbn [poll_updates app]. rewrite Hmsg, Hstep.
        destruct (poll_updates e clock (Some (update_id upd + 1)) s1 before)
          as [[[o3 s3] tr3] r3].
        cbn [fst snd] in Hpre, Hdisk, Hrun |- *.
        split; [exact Hpre | split; [exact Hdisk |]].
        injection Hrun as -> -> -> ->. rewrite <- app_assoc. reflexivity.
      * cbn [fst snd]. split; [discriminate |].
        intros x Hx. injection Hx as <-.
        destruct (Hraise x1 eq_refl) as (Hstart & -> & Hdisk & Htr).
        split; [reflexivity |]. exists [], upd, upds, msg.
        split; [reflexivity | split; [exact Hmsg | split; [exact Hstart |]]].
        cbn [poll_updates fst snd app]. rewrite Hstep. cbn [fst snd].
        split; [reflexivity | split; [exact Hdisk |]]. rewrite Htr. reflexivity.
    + specialize (IH (Some (update_id upd + 1)) s). cbv zeta in IH.
      destruct IH as [IHok IHraise]. split; [exact IHok |].
      intros x Hx.
      destruct (IHraise x Hx)
        as (-> & before & u & after & m & -> & Hm & Hs & Hpre & Hdisk & Hrun).
      split; [reflexivity |]. exists (upd :: before), u, after, m.
      split; [reflexivity | split; [exact Hm | split; [exact Hs |]]].
      cbn [poll_updates app]. rewrite Hmsg.
      split; [exact Hpre | split; [exact Hdisk | exact Hrun]].
Qed.

(** X24. Chatter is ignored: a batch of updates that carry no message,
    or a message (new or edited) that is neither [/start] nor [/myjoin],
    changes nothing and makes no call; only the cursor moves. *)
Theorem poll_ignores_chatter e clock offset s upds :
  (forall upd msg, upd ∈ upds -> update_msg upd = Some msg ->
                   is_start msg = false /\ is_myjoin msg = false) ->
  poll_updates e clock offset s upds
  = (match last upds with
     | Some upd => Some (update_id upd + 1)
     | None => offset
     end, s, [], Ok tt).
Proof.
  revert offset. induction upds as [| upd upds IH]; intros offset Hall; [reflexivity |].
  cbn [poll_updates].
  assert (Hrest : forall u m, u ∈ upds -> update_msg u = Some m ->
                              is_start m = false /\ is_myjoin m = false).
  { intros u m Hin. apply Hall. apply list_elem_of_further. exact Hin. }
  rewrite last_cursor.
  destruct (update_msg upd) as [msg |] eqn:Hmsg.
  - destruct (Hall upd msg (list_elem_of_here _ _) Hmsg) as [Hs Hm].
    rewrite (handle_message_chatter _ _ _ _ Hs Hm), (IH _ Hrest). reflexivity.
  - rewrite (IH _ Hrest). reflexivity.
Qed.

End PollFacts.

(** ** When the sweep runs *)

Lemma day_of_next now :
  (now + MICROS_PER_DAY) / MICROS_PER_DAY = now / MICROS_PER_DAY + 1.
Proof.
  replace (now + MICROS_PER_DAY) with (now + 1 * MICROS_PER_DAY) by lia.
  apply Z.div_add. unfold MICROS_PER_DAY. lia.
Qed.

Lemma next_mid_value now :
  0 <= now -> now + MICROS_PER_DAY <= DATETIME_MAX ->
  next_mid now
  = Some ((now / MICROS_PER_DAY + 1) * MICROS_PER_DAY + 10 * MICROS_PER_SECOND).
Proof.
  intros H0 Hmax. unfold next_mid, datetime_add. cbv zeta.
  replace ((0 <=? now + MICROS_PER_DAY) && (now + MICROS_PER_DAY <=? DATETIME_MAX))%bool
    with true.
  - rewrite day_of_next. reflexivity.
  - symmetry. apply andb_true_intro. split; apply Z.leb_le; [| exact Hmax].
    unfold MICROS_PER_DAY. lia.
Qed.

(** X25. The sweep is set for ten seconds past the next midnight: from
    any time of a day (short of the last day the runtime can represent),
    the wake-up time is 00:00:10 of the following day, so the wait is
    more than ten seconds and at most a day and ten seconds; and a loop
    that comes back from the sweep before that day is over is set for
    exactly one day later. *)
Theorem sweep_schedule now :
  0 <= now -> now + MICROS_PER_DAY <= DATETIME_MAX ->
  let day := now / MICROS_PER_DAY in
  let wake := (day + 1) * MICROS_PER_DAY + 10 * MICROS_PER_SECOND in
  next_mid now = Some wake
  /\ sweep_delay now = Some (wake - now)
  /\ 10 * MICROS_PER_SECOND < wake - now <= MICROS_PER_DAY + 10 * MICROS_PER_SECOND
  /\ (forall back,
        wake <= back < (day + 2) * MICROS_PER_DAY ->
        back + MICROS_PER_DAY <= DATETIME_MAX ->
        next_mid back = Some (wake + MICROS_PER_DAY)).
Proof.
  intros H0 Hmax day wake.
  pose proof (next_mid_value now H0 Hmax) as Hnext. fold day in Hnext. fold wake in Hnext.
  assert (Hday : 0 < MICROS_PER_DAY) by (unfold MICROS_PER_DAY; lia).
  pose proof (Z.div_mod now MICROS_PER_DAY ltac:(lia)) as Hdm.
  pose proof (Z.mod_pos_bound now MICROS_PER_DAY Hday) as Hmod.
  fold day in Hdm.
  split; [exact Hnext |]. split; [unfold sweep_delay; rewrite Hnext; reflexivity |].
  split.
  - unfold wake, MICROS_PER_SECOND in *. lia.
  - intros back [Hlo Hhi] Hbmax.
    assert (Hb0 : 0 <= back).
    { unfold wake, MICROS_PER_SECOND in Hlo. nia. }
    rewrite (next_mid_value back Hb0 Hbmax). f_equal.
    assert (Hbday : back / MICROS_PER_DAY = day + 1).
    { symmetry. apply (Z.div_unique back MICROS_PER_DAY (day + 1)
                         (back - (day + 1) * MICROS_PER_DAY)).
      - left. unfold wake, MICROS_PER_SECOND in Hlo. lia.
      - lia. }
    rewrite Hbday. unfold wake. lia.
Qed.

(** ** What holds of every store the program builds *)

Section ReachableFacts.

Context {rt : PyRuntime}.

Lemma perform_wf s a : wf_store s -> wf_store (perform s a).
Proof.
  intros Hwf. destruct a as [e now msg | e now tx | e clock]; cbn [perform].
  - apply handle_message_wf. exact Hwf.
  - apply handle_new_payment_wf. exact Hwf.
  - apply daily_expiry_check_wf. exact Hwf.
Qed.

(** an invariant of the three operations holds after any sequence of them *)
Lemma perform_all_invariant (P : store -> Prop) :
  (forall s a, P s -> P (perform s a)) ->
  forall l s, P s -> P (perform_all s l).
Proof.
  intros Hstep l. unfold perform_all.
  induction l as [| a l IH]; intros s Hs; [exact Hs |].
  cbn [foldl]. apply IH, Hstep, Hs.
Qed.

(** X26. The shape of the store: starting from the empty store (or from
    any store of this shape), after any sequence of messages, payment
    runs and sweeps every record has a join time, and the wallet map
    has no empty address and no empty username; so every record is a
    true value for [/myjoin], and a mapped payer always resolves to a
    username a grant can be filed under. *)
Theorem store_shape_kept l :
  wf_store (perform_all empty_store l)
  /\ (forall s, wf_store s -> wf_store (perform_all s l))
  /\ (forall k u, users (perform_all empty_store l) !! k = Some u -> user_truthy u = true).
Proof.
  assert (Hall : forall s, wf_store s -> wf_store (perform_all s l)).
  { intros s. apply (perform_all_invariant wf_store perform_wf). }
  split; [apply Hall, wf_store_empty |]. split; [exact Hall |].
  intros k u Hk. destruct (Hall empty_store wf_store_empty) as [Hu _].
  exact (wf_users_truthy _ k u Hu Hk).
Qed.

Lemma linked_message e now s msg : linked s -> linked (handle_message e now s msg).1.1.
Proof.
  intros Hl. destruct (is_start msg) eqn:Hstart.
  - rewrite (handle_message_start e now s msg Hstart).
    set (uname := sender_uname (from msg)).
    intros w a Hw. cbn [users set_users] in *.
    destruct (decide (uname = a)) as [<- | Hne]; [rewrite lookup_insert_eq; eauto |].
    rewrite lookup_insert_ne by assumption.
    destruct (start_wallet _) as [w0 |]; cbn [wallet_map set_users set_wallet_map users] in *.
    + destruct (decide (w0 = w)) as [-> | Hw0].
      * rewrite lookup_insert_eq in Hw. congruence.
      * rewrite lookup_insert_ne in Hw by assumption. exact (Hl _ _ Hw).
    + exact (Hl _ _ Hw).
  - rewrite (handle_message_not_start e now s msg Hstart). exact Hl.
Qed.

Lemma linked_payment e now s tx : linked s -> linked (handle_new_payment e now s tx).1.1.
Proof.
  intros Hl w a Hw. rewrite handle_new_payment_wallet_map in Hw.
  destruct (Hl _ _ Hw) as [r Hr].
  destruct (handle_new_payment_join e now s tx a r Hr) as (r' & Hr' & _). eauto.
Qed.

Lemma linked_sweep e clock s : linked s -> linked (daily_expiry_check e clock s).1.1.
Proof.
  intros Hl w a Hw.
  destruct (daily_expiry_check_store e clock s) as (Hu & Hwm & _).
  rewrite Hwm in Hw. destruct (wallet_map s !! w) as [a' |] eqn:Hw'; [| discriminate].
  destruct (revokes clock s a') eqn:Hrev; [discriminate |]. injection Hw as <-.
  rewrite Hu, Hrev. exact (Hl _ _ Hw').
Qed.

(** X27. No wallet entry dangles: starting from the empty store, after
    any sequence of messages, payment runs and sweeps, every username
    the wallet map holds has a record; each of the three operations
    keeps this. *)
Theorem wallet_entries_have_records l :
  linked (perform_all empty_store l)
  /\ (forall s a, linked s -> linked (perform s a)).
Proof.
  assert (Hstep : forall s a, linked s -> linked (perform s a)).
  { intros s a Hl. destruct a as [e now msg | e now tx | e clock]; cbn [perform].
    - apply linked_message. exact Hl.
    - apply linked_payment. exact Hl.
    - apply linked_sweep. exact Hl. }
  split; [| exact Hstep].
  apply (perform_all_invariant linked Hstep).
  intros w a Hw. simpl in Hw. rewrite lookup_empty in Hw. discriminate.
Qed.

Lemma perform_seen s a :
  exists added, seen_tx (perform s a) = (seen_tx s ++ added)%list
                /\ (NoDup (seen_tx s) -> NoDup (seen_tx (perform s a))).
Proof.
  destruct a as [e now msg | e now tx | e clock]; cbn [perform].
  - exists []. rewrite app_nil_r.
    assert (Hseen : seen_tx (handle_message e now s msg).1.1 = seen_tx s).
    { destruct (is_start msg) eqn:Hstart.
      - rewrite (handle_message_start e now s msg Hstart).
        destruct (start_wallet _); reflexivity.
      - rewrite (handle_message_not_start e now s msg Hstart). reflexivity. }
    rewrite Hseen. auto.
  - destruct (tx_sig tx) as [sig |] eqn:Hsig.
    + destruct (decide (sig ∈ seen_tx s)) as [Hin | Hnew].
      * rewrite (handle_new_payment_seen_noop e now s tx sig Hsig Hin).
        exists []. rewrite app_nil_r. auto.
      * exists [sig]. rewrite (handle_new_payment_marks_seen e now s tx sig Hsig Hnew).
        split; [reflexivity |]. intros Hnd. apply NoDup_app. split; [exact Hnd |].
        split; [| apply NoDup_singleton].
        intros x Hx Hx'. apply list_elem_of_singleton in Hx'. subst x. exact (Hnew Hx).
    + rewrite (handle_new_payment_no_id e now s tx Hsig).
      exists []. rewrite app_nil_r. auto.
  - exists []. rewrite app_nil_r.
    destruct (daily_expiry_check_store e clock s) as (_ & _ & Hs). rewrite Hs. auto.
Qed.

(** X28. [seen_tx] is append-only and free of repetitions: after any
    sequence of operations the list is the old list followed by new
    identifiers, nothing is ever dropped or reordered, and when the old
    list has no repetition the new one has none; in particular the list
    built from the empty store never names a transaction twice. *)
Theorem seen_tx_append_only l : forall s,
  (exists added, seen_tx (perform_all s l) = (seen_tx s ++ added)%list)
  /\ (NoDup (seen_tx s) -> NoDup (seen_tx (perform_all s l))).
Proof.
  unfold perform_all. induction l as [| a l IH]; intros s; cbn [foldl].
  - split; [exists []; rewrite app_nil_r; reflexivity | auto].
  - destruct (perform_seen s a) as (added1 & Hadd1 & Hnd1).
    destruct (IH (perform s a)) as ([added2 Hadd2] & Hnd2).
    split.
    + exists (added1 ++ added2)%list. rewrite Hadd2, Hadd1, app_assoc. reflexivity.
    + intros Hnd. apply Hnd2, Hnd1, Hnd.
Qed.

End ReachableFacts.

(** ** The further properties at concrete inputs *)

Section MoreWitnesses.

#[local] Existing Instance Sim.runtime.

(** X2 at the id 12345. *)
Lemma numeric_id_never_whitelisted_witness :
  0 <= 12345
  /\ is_whitelisted (sender_uname {| from_username := None; from_id := Some 12345 |}) = false.
Proof.
  assert (Hn : 0 <= 12345) by lia.
  split; [exact Hn | exact (proj1 (numeric_id_never_whitelisted 12345 Hn))].
Defined.

(** X7 at a record whose join time reads [yesterday], a thousand days on. *)
Lemma unreadable_record_never_expires_witness :
  users Samples.with_bob !! "@bob" = Some Samples.bob_unreadable
  /\ users (daily_expiry_check Sim.offline (fun _ => Sim.day 1000) Samples.with_bob).1.1
       !! "@bob" = Some Samples.bob_unreadable.
Proof.
  assert (Hrec : users Samples.with_bob !! "@bob" = Some Samples.bob_unreadable)
    by (vm_compute; reflexivity).
  split; [exact Hrec |].
  apply (unreadable_record_never_expires (rt := Sim.runtime)
           Sim.offline (fun _ => Sim.day 1000) Samples.with_bob "@bob"
           Samples.bob_unreadable Hrec).
  right. exists "yesterday". split; vm_compute; reflexivity.
Defined.

(** X8 at a grant on day 2 and a sweep on day 33. *)
Lemma grant_lasts_thirty_days_witness :
  reads_back (Sim.day 2)
  /\ users (daily_expiry_check Sim.offline (fun _ => Sim.day 33)
              (grant_access_to Sim.paying (Sim.day 2) Sim.registered
                 "@alice" "WalletA" "sig1").1.1).1.1 !! "@alice" = None.
Proof.
  assert (Hread : reads_back (Sim.day 2)).
  { split; [vm_compute; reflexivity | vm_compute; discriminate]. }
  split; [exact Hread |].
  refine (proj1 (proj2 (grant_lasts_thirty_days (rt := Sim.runtime)
            Sim.paying (Sim.day 2) Sim.registered "@alice" "WalletA" "sig1"
            Sim.offline (fun _ => Sim.day 33) Hread)) _ _).
  - vm_compute. reflexivity.
  - vm_compute. reflexivity.
Defined.

(** X9 at carol's [/start WalletA] on day 1 and a sweep on day 32. *)
Lemma registration_lasts_thirty_days_witness :
  reads_back (Sim.day 1)
  /\ is_start (Samples.start_a Samples.carol) = true
  /\ users empty_store !! sender_uname Samples.carol = None
  /\ is_whitelisted (sender_uname Samples.carol) = false
  /\ users (daily_expiry_check Sim.offline (fun _ => Sim.day 32)
              (handle_message Sim.offline (Sim.day 1) empty_store
                 (Samples.start_a Samples.carol)).1.1).1.1 !! "@carol" = None.
Proof.
  assert (Hread : reads_back (Sim.day 1)).
  { split; [vm_compute; reflexivity | vm_compute; discriminate]. }
  assert (Hstart : is_start (Samples.start_a Samples.carol) = true) by reflexivity.
  assert (Hnew : users empty_store !! sender_uname (from (Samples.start_a Samples.carol))
                 = None) by reflexivity.
  assert (Hwl : is_whitelisted (sender_uname (from (Samples.start_a Samples.carol))) = false)
    by (vm_compute; reflexivity).
  split; [exact Hread | split; [exact Hstart | split; [exact Hnew | split; [exact Hwl |]]]].
  refine (proj1 (proj2 (registration_lasts_thirty_days (rt := Sim.runtime)
            Sim.offline (Sim.day 1) empty_store (Samples.start_a Samples.carol)
            Sim.offline (fun _ => Sim.day 32) Hread Hstart Hnew Hwl) _)).
  vm_compute. reflexivity.
Defined.

(** X10 at carol's registration and a payment from her wallet. *)
Lemma start_then_payment_witness :
  is_start (Samples.start_a Samples.carol) = true
  /\ tx_sig Sim.tx1 = Some "sig1"
  /\ seen_tx (handle_new_payment Sim.paying (Sim.day 2)
                (handle_message Sim.offline (Sim.day 1) empty_store
                   (Samples.start_a Samples.carol)).1.1 Sim.tx1).1.1 = ["sig1"].
Proof.
  assert (Hstart : is_start (Samples.start_a Samples.carol) = true) by reflexivity.
  assert (Hnew : "sig1" ∉ seen_tx empty_store) by by_evaluation.
  split; [exact Hstart | split; [reflexivity |]].
  refine (proj2 (proj2 (start_then_payment (rt := Sim.runtime)
            Sim.offline (Sim.day 1) Sim.paying (Sim.day 2) empty_store
            "carol" (Some 9) (Samples.start_a Samples.carol) "WalletA" Sim.tx1 "sig1"
            150000000 _ eq_refl Hstart eq_refl eq_refl Hnew _ _ _ _))).
  - discriminate.
  - vm_compute. reflexivity.
  - unfold MIN_LAMPORTS. lia.
  - vm_compute. reflexivity.
  - vm_compute. reflexivity.
Defined.

(** X11 at alice's grant on day 2 and her status query. *)
Lemma status_after_grant_witness :
  reads_back (Sim.day 2)
  /\ is_myjoin (Samples.myjoin Sim.alice) = true
  /\ (handle_message Sim.offline (Sim.day 3)
        (grant_access_to Sim.paying (Sim.day 2) Sim.registered
           "@alice" "WalletA" "sig1").1.1 (Samples.myjoin Sim.alice)).2 = Ok tt.
Proof.
  assert (Hread : reads_back (Sim.day 2)).
  { split; [vm_compute; reflexivity | vm_compute; discriminate]. }
  assert (Hcmd : is_myjoin (Samples.myjoin Sim.alice) = true) by reflexivity.
  split; [exact Hread | split; [exact Hcmd |]].
  refine (f_equal snd (status_after_grant (rt := Sim.runtime)
            Sim.paying (Sim.day 2) Sim.registered "alice" "WalletA" "sig1"
            Sim.offline (Sim.day 3) (Samples.myjoin Sim.alice) Hread _ _ eq_refl Hcmd)).
  - unfold Sim.day, TTL, DATETIME_MAX, MICROS_PER_DAY. lia.
  - discriminate.
Defined.

(** X14 at carol naming the wallet alice registered. *)
Lemma start_takes_wallet_over_witness :
  is_start (Samples.start_a Samples.carol) = true
  /\ wallet_map Sim.registered !! "WalletA" = Some "@alice"
  /\ wallet_map (handle_message Sim.offline (Sim.day 5) Sim.registered
                   (Samples.start_a Samples.carol)).1.1 !! "WalletA"
     = Some (sender_uname (from (Samples.start_a Samples.carol))).
Proof.
  assert (Hstart : is_start (Samples.start_a Samples.carol) = true) by reflexivity.
  assert (Hold : wallet_map Sim.registered !! "WalletA" = Some "@alice")
    by (vm_compute; reflexivity).
  split; [exact Hstart | split; [exact Hold |]].
  exact (proj1 (start_takes_wallet_over (rt := Sim.runtime)
                  Sim.offline (Sim.day 5) Sim.registered (Samples.start_a Samples.carol)
                  "WalletA" "@alice" Hstart eq_refl Hold)).
Defined.

(** X15 at alice's [/start WalletA] with a disk that cannot be written:
    she is registered in memory, and gets no answer; and at the same
    command written with a no-break space, with a disk that can: the
    wallet is read and confirmed. *)
Lemma start_saves_then_replies_witness :
  let run := handle_message Sim.disk_full (Sim.day 1) empty_store (Samples.start_a Sim.alice) in
  let run' := handle_message Sim.offline (Sim.day 1) empty_store (Samples.start_nbsp Sim.alice) in
  (is_start (Samples.start_a Sim.alice) = true
   /\ users run.1.1 !! "@alice" = Some Sim.alice_registered
   /\ wallet_map run.1.1 !! "WalletA" = Some "@alice"
   /\ run.1.2 = [SaveData run.1.1 false]
   /\ run.2 = Raise OSError)
  /\ (is_start (Samples.start_nbsp Sim.alice) = true
      /\ run'.1.1 = run.1.1
      /\ run'.1.2 = [SaveData run.1.1 true;
                     SendMessage (ChatId 7) (thanks_msg "@alice" "WalletA") false]
      /\ run'.2 = Ok tt).
Proof.
  intros run run'.
  assert (Hstart : is_start (Samples.start_a Sim.alice) = true) by reflexivity.
  assert (Hstart' : is_start (Samples.start_nbsp Sim.alice) = true) by reflexivity.
  pose proof (start_saves_then_replies (rt := Sim.runtime) Sim.disk_full (Sim.day 1)
                empty_store (Samples.start_a Sim.alice) Hstart) as Hrun.
  pose proof (start_saves_then_replies (rt := Sim.runtime) Sim.offline (Sim.day 1)
                empty_store (Samples.start_nbsp Sim.alice) Hstart') as Hrun'.
  cbv zeta in Hrun, Hrun'. fold run in Hrun. fold run' in Hrun'.
  change (disk_ok Sim.disk_full _) with false in Hrun.
  change (disk_ok Sim.offline _) with true in Hrun'.
  cbv iota in Hrun, Hrun'.
  split.
  - split; [exact Hstart |]. rewrite Hrun. cbn [fst snd].
    repeat split; vm_compute; reflexivity.
  - split; [exact Hstart' |]. rewrite Hrun', Hrun. cbn [fst snd].
    repeat split; vm_compute; reflexivity.
Defined.

(** X16 at a detail request answered with status 500. *)
Lemma failed_detail_request_drops_payment_witness :
  tx_sig Sim.tx1 = Some "sig1" /\ ("sig1" ∉ seen_tx Sim.registered)
  /\ net_detail Sim.offline "sig1" = get_tx_detail (Reply 500 (Some (JObj [])))
  /\ (handle_new_payment Sim.offline (Sim.day 2) Sim.registered Sim.tx1).1.1
     = set_seen_tx (fun l => (l ++ ["sig1"])%list) Sim.registered.
Proof.
  assert (Hnew : "sig1" ∉ seen_tx Sim.registered) by by_evaluation.
  assert (Hd : net_detail Sim.offline "sig1" = get_tx_detail (Reply 500 (Some (JObj []))))
    by reflexivity.
  split; [reflexivity | split; [exact Hnew | split; [exact Hd |]]].
  assert (Hfail : Reply 500 (Some (JObj [])) = NoReply
                  \/ (exists status body,
                        Reply 500 (Some (JObj [])) = Reply status body
                        /\ (status <> 200 \/ body = None))).
  { right. exists 500, (Some (JObj [])). split; [reflexivity | left; discriminate]. }
  exact (f_equal (fun r : store * list event * result unit => r.1.1)
           (proj1 (failed_detail_request_drops_payment (rt := Sim.runtime)
                     Sim.offline (Sim.day 2) Sim.registered Sim.tx1 "sig1"
                     (Reply 500 (Some (JObj []))) eq_refl Hnew Hd Hfail))).
Defined.

(** X17 at a detail that is a list. *)
Lemma non_object_detail_raises_witness :
  tx_sig Sim.tx1 = Some "sig1" /\ ("sig1" ∉ seen_tx Sim.registered)
  /\ (handle_new_payment Samples.listing (Sim.day 2) Sim.registered Sim.tx1).2
     = Raise AttributeError.
Proof.
  assert (Hnew : "sig1" ∉ seen_tx Sim.registered) by by_evaluation.
  split; [reflexivity | split; [exact Hnew |]].
  assert (Hnd : forall kvs, net_detail Samples.listing "sig1" <> JObj kvs)
    by (intros kvs; discriminate).
  exact (f_equal snd (non_object_detail_raises (rt := Sim.runtime)
           Samples.listing (Sim.day 2) Sim.registered Sim.tx1 "sig1" eq_refl Hnew Hnd)).
Defined.

(** X18 at a payment signed by a registered wallet and paid for by a
    stranger. *)
Lemma unknown_fee_payer_blocks_grant_witness :
  tx_sig Sim.tx1 = Some "sig1" /\ ("sig1" ∉ seen_tx Sim.registered)
  /\ wallet_map Sim.registered !! "WalletZ" = None
  /\ ~ granted (handle_new_payment (Sim.network Samples.stranger_pays None) (Sim.day 2)
                  Sim.registered Sim.tx1).1.2.
Proof.
  assert (Hnew : "sig1" ∉ seen_tx Sim.registered) by by_evaluation.
  assert (Hmap : wallet_map Sim.registered !! "WalletZ" = None) by (vm_compute; reflexivity).
  split; [reflexivity | split; [exact Hnew | split; [exact Hmap |]]].
  refine (proj2 (proj2 (unknown_fee_payer_blocks_grant (rt := Sim.runtime)
            (Sim.network Samples.stranger_pays None) (Sim.day 2) Sim.registered Sim.tx1
            "sig1" _ "WalletZ" eq_refl Hnew eq_refl eq_refl _ Hmap))).
  discriminate.
Defined.

(** X19 at a detail with one list of two transfers. *)
Lemma sum_lamports_of_plain_transfers_witness :
  sum_lamports (JObj Samples.one_list_detail) = Ok 7.
Proof.
  apply (sum_lamports_of_plain_transfers (rt := Sim.runtime)
           Samples.one_list_detail Samples.one_list).
  intros k Hin. unfold TRANSFER_KEYS in Hin.
  repeat (apply elem_of_cons in Hin as [-> | Hin]); try (inversion Hin; fail);
    try reflexivity.
  eexists. split; [reflexivity |].
  repeat constructor.
Defined.

(** X20 at a payment whose memo holds the marker among other words. *)
Lemma memo_found_anywhere_witness :
  mentions "SLC30" (Sim.payment "WalletA" 1 "pay SLC30 now")
  /\ memo_found (Sim.payment "WalletA" 1 "pay SLC30 now") = true.
Proof.
  assert (Hm : mentions "SLC30" (Sim.payment "WalletA" 1 "pay SLC30 now")).
  { apply (mentions_value _ _ "memo" (JStr "pay SLC30 now")).
    - unfold Sim.payment. do 2 apply list_elem_of_further. apply list_elem_of_here.
    - apply mentions_string. reflexivity. }
  split; [exact Hm | exact (memo_found_anywhere (rt := Sim.runtime) _ Hm)].
Defined.

(** X24 at two updates without a command. *)
Lemma poll_ignores_chatter_witness :
  poll_updates Sim.offline (fun _ => Sim.day 1) None Sim.registered Samples.chatter
  = (Some 43, Sim.registered, [], Ok tt).
Proof.
  apply (poll_ignores_chatter (rt := Sim.runtime)
           Sim.offline (fun _ => Sim.day 1) None Sim.registered Samples.chatter).
  intros upd msg Hin Hmsg. unfold Samples.chatter in Hin.
  repeat (apply elem_of_cons in Hin as [-> | Hin]); try (inversion Hin; fail).
  - discriminate Hmsg.
  - injection Hmsg as <-. split; reflexivity.
Defined.

(** X25 at noon of day 2. *)
Lemma sweep_schedule_witness :
  0 <= Sim.day 2 + 43200000000
  /\ Sim.day 2 + 43200000000 + MICROS_PER_DAY <= DATETIME_MAX
  /\ next_mid (Sim.day 2 + 43200000000) = Some (Sim.day 3 + 10000000).
Proof.
  assert (H0 : 0 <= Sim.day 2 + 43200000000)
    by (unfold Sim.day, MICROS_PER_DAY; lia).
  assert (Hmax : Sim.day 2 + 43200000000 + MICROS_PER_DAY <= DATETIME_MAX)
    by (unfold Sim.day, DATETIME_MAX, MICROS_PER_DAY; lia).
  split; [exact H0 | split; [exact Hmax |]].
  exact (proj1 (sweep_schedule (Sim.day 2 + 43200000000) H0 Hmax)).
Defined.

End MoreWitnesses.
